(** * medquery-ai: the retrieval core

    A shallow embedding of the vector generator, the vector store and the
    single- and multi-document retrievers of [src/utils], followed by the
    properties of the specification that concern them.

    Conventions.
    - A Python [float] that is finite is a dyadic rational, so similarity
      scores and vector components are values of [Q]; NaN and the infinities
      are not represented.  The floating-point kernels of NumPy (sampling,
      norm, dot product, argsort) are operations of the class [NumPy], the
      arithmetic of floats those of [FloatOps].  A quotient of NumPy floats
      is [nan] for 0/0 and raises nothing; the quotient of the model is a
      number there, so what is proved about the order of scores is proved
      under [defined_cosine] and [defined_seeded_vector], which say that no
      divisor is zero.
    - A Python [str] is a [string] whose characters are read as code points
      below 256.
    - Code that raises returns an [Outcome]; code that touches the files of
      the embeddings directory, NumPy's global generator, the clock or an
      embedding provider runs in the monad [M] over [World]. *)

From Stdlib Require Import ZArith QArith List String Ascii Permutation Sorted Lia.
From Stdlib Require Import DecimalString.
From stdpp Require Import base gmap strings list.

Local Open Scope string_scope.
Local Open Scope list_scope.

(* ===================================================================== *)
(** * Python values, exceptions and the world                            *)
(* ===================================================================== *)

Definition vector := list Q.

Inductive Exception : Type :=
| ValueError (msg : string)
| FileNotFoundError (path : string)
| UnpicklingError (path : string)
| JSONDecodeError (path : string)
| IndexError
| AttributeError (msg : string)
| ProviderError (msg : string).

Inductive Outcome (A : Type) : Type :=
| Return (a : A)
| Raise (e : Exception).
Arguments Return {A} a.
Arguments Raise {A} e.

(** A langchain [Document]: text and a metadata dictionary. *)
Record Document := {
  page_content : string;
  metadata : list (string * string) }.

(** One entry of the ["chunks"] list of a [<doc_id>_metadata.json] file. *)
Module ChunkEntry.
Record t := {
  chunk_id : nat;
  content : string;
  metadata : list (string * string) }.
End ChunkEntry.

(** One retrieval result; ["doc_id"] is set by the multi-document
    retriever only. *)
Module Hit.
Record t := {
  chunk_id : nat;
  content : string;
  score : Q;
  metadata : list (string * string);
  doc_id : option string }.
End Hit.

(** The dictionary written to [<doc_id>_metadata.json]. *)
Record Metadata := {
  md_doc_id : string;
  md_chunk_count : nat;
  md_embedding_model : string;
  md_embedding_provider : option string;
  md_chunks : list ChunkEntry.t;
  md_processing_time : Q;
  md_token_count : option Z;
  md_estimated_cost : option Q }.

(** A file of the embeddings directory is a pickled list of vectors or a
    JSON metadata dictionary. *)
Inductive File : Type :=
| PickleFile (embeddings : list vector)
| JsonFile (m : Metadata).

(** The files of the embeddings directory, the last one written first; a
    path is looked up from the front, so writing a file again replaces it. *)
Definition FileSystem := list (string * File).

Fixpoint read_file (path : string) (fs : FileSystem) : option File :=
  match fs with
  | [] => None
  | (p, f) :: rest => if String.eqb p path then Some f else read_file path rest
  end.

Definition write_file (path : string) (f : File) (fs : FileSystem)
  : FileSystem :=
  (path, f) :: fs.

#[export] Instance file_system_lookup : Lookup string File FileSystem :=
  read_file.
#[export] Instance file_system_insert : Insert string File FileSystem :=
  write_file.
#[export] Instance file_system_empty : Empty FileSystem := [].

(** The per-process key of the builtin [hash] of strings. *)
Record HashSecret := { k0 : Z; k1 : Z }.

(** The state of NumPy's global legacy generator. *)
Definition RandomState := list Z.

Record World := {
  files : FileSystem;
  environ : gmap string string;
  np_random : RandomState;
  hash_secret : HashSecret;
  clock : nat -> Q;
  ticks : nat;
  provider_calls : nat }.

Definition set_files (f : FileSystem) (w : World) : World :=
  {| files := f; environ := environ w; np_random := np_random w;
     hash_secret := hash_secret w; clock := clock w; ticks := ticks w;
     provider_calls := provider_calls w |}.

Definition set_np_random (r : RandomState) (w : World) : World :=
  {| files := files w; environ := environ w; np_random := r;
     hash_secret := hash_secret w; clock := clock w; ticks := ticks w;
     provider_calls := provider_calls w |}.

Definition set_ticks (n : nat) (w : World) : World :=
  {| files := files w; environ := environ w; np_random := np_random w;
     hash_secret := hash_secret w; clock := clock w; ticks := n;
     provider_calls := provider_calls w |}.

Definition set_provider_calls (n : nat) (w : World) : World :=
  {| files := files w; environ := environ w; np_random := np_random w;
     hash_secret := hash_secret w; clock := clock w; ticks := ticks w;
     provider_calls := n |}.

(* ===================================================================== *)
(** * The state-and-exception monad                                      *)
(* ===================================================================== *)

Definition M (A : Type) : Type := World -> Outcome A * World.

Definition ret {A} (a : A) : M A := fun w => (Return a, w).

Definition raise {A} (e : Exception) : M A := fun w => (Raise e, w).

Definition bind {A B} (m : M A) (k : A -> M B) : M B :=
  fun w =>
    match m w with
    | (Return a, w') => k a w'
    | (Raise e, w') => (Raise e, w')
    end.

Notation "'do' x <- m ; k" := (bind m (fun x => k))
  (at level 10, x name, m at level 100, k at level 200, only parsing).

(** [try: m except Exception as e: handler e] *)
Definition try_except {A} (m : M A) (handler : Exception -> M A) : M A :=
  fun w =>
    match m w with
    | (Return a, w') => (Return a, w')
    | (Raise e, w') => handler e w'
    end.

(** [for x in xs: body x], the loop variable [acc] carried along. *)
Fixpoint for_each {A S} (xs : list A) (body : S -> A -> M S) (acc : S) : M S :=
  match xs with
  | [] => ret acc
  | x :: rest => do acc' <- body acc x; for_each rest body acc'
  end.

(** [[f x for x in xs]] where [f] may raise. *)
Fixpoint comprehension {A B} (f : A -> M B) (xs : list A) : M (list B) :=
  match xs with
  | [] => ret []
  | x :: rest => do y <- f x; do ys <- comprehension f rest; ret (y :: ys)
  end.

(* ===================================================================== *)
(** * Builtins: slices, indexing, paths, files, clock                    *)
(* ===================================================================== *)

(** [l[start:]] *)
Definition py_slice_from {A} (start : Z) (l : list A) : list A :=
  let n := Z.of_nat (length l) in
  let s := if (start <? 0)%Z then Z.max 0 (n + start) else Z.min start n in
  drop (Z.to_nat s) l.

(** [l[:stop]] *)
Definition py_slice_to {A} (stop : Z) (l : list A) : list A :=
  let n := Z.of_nat (length l) in
  let s := if (stop <? 0)%Z then Z.max 0 (n + stop) else Z.min stop n in
  take (Z.to_nat s) l.

(** [l[i]] for a non-negative index. *)
Definition py_index {A} (l : list A) (i : nat) : M A :=
  match l !! i with
  | Some x => ret x
  | None => raise IndexError
  end.

Definition startswith_sep (s : string) : bool :=
  match s with
  | String c _ => Ascii.eqb c "/"
  | EmptyString => false
  end.

Fixpoint endswith_sep (s : string) : bool :=
  match s with
  | EmptyString => false
  | String c EmptyString => Ascii.eqb c "/"
  | String _ rest => endswith_sep rest
  end.

(** [os.path.join(a, b)] (posixpath). *)
Definition os_path_join (a b : string) : string :=
  if startswith_sep b then b
  else if String.eqb a "" || endswith_sep a then String.append a b
  else String.append a (String.append "/" b).

Definition os_path_exists (path : string) : M bool :=
  fun w => (Return (bool_decide (is_Some (files w !! path))), w).

(** [with open(path, 'rb') as f: pickle.load(f)] *)
Definition pickle_load (path : string) : M (list vector) :=
  fun w =>
    match files w !! path with
    | Some (PickleFile v) => (Return v, w)
    | Some (JsonFile _) => (Raise (UnpicklingError path), w)
    | None => (Raise (FileNotFoundError path), w)
    end.

(** [with open(path, 'r') as f: json.load(f)] *)
Definition json_load (path : string) : M Metadata :=
  fun w =>
    match files w !! path with
    | Some (JsonFile m) => (Return m, w)
    | Some (PickleFile _) => (Raise (JSONDecodeError path), w)
    | None => (Raise (FileNotFoundError path), w)
    end.

(** [with open(path, 'wb') as f: pickle.dump(v, f)] *)
Definition pickle_dump (v : list vector) (path : string) : M unit :=
  fun w => (Return tt, set_files (<[path := PickleFile v]> (files w)) w).

(** [with open(path, 'w') as f: json.dump(m, f, indent=2)] *)
Definition json_dump (m : Metadata) (path : string) : M unit :=
  fun w => (Return tt, set_files (<[path := JsonFile m]> (files w)) w).

(** [time.time()]: the next reading of the clock. *)
Definition time_time : M Q :=
  fun w => (Return (clock w (ticks w)), set_ticks (S (ticks w)) w).

(** [print(...)]: the console is not part of the modelled state. *)
Definition print (msg : string) : M unit := ret tt.

(** [name in os.environ] *)
Definition in_environ (name : string) : M bool :=
  fun w => (Return (bool_decide (is_Some (environ w !! name))), w).

(** [os.remove(path)]: every entry of the path goes. *)
Definition remove_file (path : string) (fs : FileSystem) : FileSystem :=
  List.filter (fun entry => negb (String.eqb (fst entry) path)) fs.

Definition os_remove (path : string) : M unit :=
  fun w =>
    match files w !! path with
    | Some _ => (Return tt, set_files (remove_file path (files w)) w)
    | None => (Raise (FileNotFoundError path), w)
    end.

(** [s.endswith(suffix)] *)
Definition endswith (s suffix : string) : bool :=
  let n := String.length s in
  let m := String.length suffix in
  (m <=? n)%nat && String.eqb (substring (n - m) m s) suffix.

(** [s.replace(old, new)] for a non-empty [old]: the occurrences of [old]
    are replaced from the left; [skip] counts the characters of the
    occurrence just replaced that are still to pass. *)
Fixpoint replace_from (old new : string) (skip : nat) (s : string) : string :=
  match s with
  | EmptyString => EmptyString
  | String c rest =>
      match skip with
      | S k => replace_from old new k rest
      | O =>
          if String.prefix old s
          then new +:+ replace_from old new (String.length old - 1) rest
          else String c (replace_from old new 0 rest)
      end
  end.

Definition str_replace (s old new : string) : string :=
  replace_from old new 0 s.

(** [sep in s] for a string [sep] of one character. *)
Fixpoint str_contains (sep : ascii) (s : string) : bool :=
  match s with
  | EmptyString => false
  | String c rest => Ascii.eqb c sep || str_contains sep rest
  end.

(** [s.split(sep)] for a string [sep] of one character. *)
Fixpoint str_split (sep : ascii) (s : string) : list string :=
  match s with
  | EmptyString => [EmptyString]
  | String c rest =>
      if Ascii.eqb c sep then EmptyString :: str_split sep rest
      else match str_split sep rest with
           | first :: others => String c first :: others
           | [] => [String c EmptyString]
           end
  end.

(** [str(n)] for a natural number. *)
Definition str_of_nat (n : nat) : string :=
  NilEmpty.string_of_uint (Nat.to_uint n).

(** [sum(l)], [max(l)] and [min(l)] for a list of integers. *)
Definition py_sum (l : list Z) : Z := fold_left Z.add l 0%Z.

Definition py_max (l : list Z) : Outcome Z :=
  match l with
  | [] => Raise (ValueError "max() arg is an empty sequence")
  | x :: rest => Return (fold_left Z.max rest x)
  end.

Definition py_min (l : list Z) : Outcome Z :=
  match l with
  | [] => Raise (ValueError "min() arg is an empty sequence")
  | x :: rest => Return (fold_left Z.min rest x)
  end.

(** The truth value of a list. *)
Definition py_bool {A} (l : list A) : bool :=
  match l with
  | [] => false
  | _ :: _ => true
  end.

(* ===================================================================== *)
(** * Hashing                                                            *)
(* ===================================================================== *)

(** The code points of a string, and [text.encode()] (UTF-8). *)
Definition code_points (s : string) : list Z :=
  map (fun c => Z.of_N (N_of_ascii c)) (list_ascii_of_string s).

Definition utf8_encode (s : string) : list Z :=
  flat_map (fun c => if (c <? 128)%Z then [c]
                     else [Z.lor 192 (Z.shiftr c 6); Z.lor 128 (Z.land c 63)])
           (code_points s).

Fixpoint le_bytes (k : nat) (x : Z) : list Z :=
  match k with
  | O => []
  | S k' => Z.land x 255 :: le_bytes k' (Z.shiftr x 8)
  end.

Fixpoint le_word (bs : list Z) : Z :=
  match bs with
  | [] => 0%Z
  | b :: rest => (b + 256 * le_word rest)%Z
  end.

Fixpoint be_word (acc : Z) (bs : list Z) : Z :=
  match bs with
  | [] => acc
  | b :: rest => be_word (256 * acc + b)%Z rest
  end.

(** [hashlib.md5] (RFC 1321) on a list of bytes. *)
Module Hashlib.

Definition mask32 (x : Z) : Z := Z.land x 4294967295.

Definition rotl32 (x c : Z) : Z :=
  mask32 (Z.lor (Z.shiftl x c) (Z.shiftr x (32 - c))).

Definition not32 (x : Z) : Z := Z.lxor x 4294967295.

Definition md5_K : list Z := [
    3614090360; 3905402710; 606105819; 3250441966;
    4118548399; 1200080426; 2821735955; 4249261313;
    1770035416; 2336552879; 4294925233; 2304563134;
    1804603682; 4254626195; 2792965006; 1236535329;
    4129170786; 3225465664; 643717713; 3921069994;
    3593408605; 38016083; 3634488961; 3889429448;
    568446438; 3275163606; 4107603335; 1163531501;
    2850285829; 4243563512; 1735328473; 2368359562;
    4294588738; 2272392833; 1839030562; 4259657740;
    2763975236; 1272893353; 4139469664; 3200236656;
    681279174; 3936430074; 3572445317; 76029189;
    3654602809; 3873151461; 530742520; 3299628645;
    4096336452; 1126891415; 2878612391; 4237533241;
    1700485571; 2399980690; 4293915773; 2240044497;
    1873313359; 4264355552; 2734768916; 1309151649;
    4149444226; 3174756917; 718787259; 3951481745 ]%Z.

Definition md5_s : list Z := [
    7; 12; 17; 22; 7; 12; 17; 22; 7; 12; 17; 22; 7; 12; 17; 22;
    5; 9; 14; 20; 5; 9; 14; 20; 5; 9; 14; 20; 5; 9; 14; 20;
    4; 11; 16; 23; 4; 11; 16; 23; 4; 11; 16; 23; 4; 11; 16; 23;
    6; 10; 15; 21; 6; 10; 15; 21; 6; 10; 15; 21; 6; 10; 15; 21 ]%Z.

Definition md5_pad (msg : list Z) : list Z :=
  let n := Z.of_nat (length msg) in
  msg ++ [128%Z] ++ repeat 0%Z (Z.to_nat ((55 - n) mod 64))
      ++ le_bytes 8 (8 * n).

Fixpoint words (n : nat) (bs : list Z) : list Z :=
  match n with
  | O => []
  | S n' => le_word (take 4 bs) :: words n' (drop 4 bs)
  end.

Definition md5_step (m : list Z) (st : Z * Z * Z * Z) (i : nat)
  : Z * Z * Z * Z :=
  let '(a, b, c, d) := st in
  let '(f, g) :=
    if (i <? 16)%nat then (Z.lor (Z.land b c) (Z.land (not32 b) d), i)
    else if (i <? 32)%nat
      then (Z.lor (Z.land d b) (Z.land (not32 d) c), ((5 * i + 1) mod 16)%nat)
    else if (i <? 48)%nat
      then (Z.lxor (Z.lxor b c) d, ((3 * i + 5) mod 16)%nat)
    else (Z.lxor c (Z.lor b (not32 d)), ((7 * i) mod 16)%nat) in
  let f' := mask32 (f + a + nth i md5_K 0 + nth g m 0)%Z in
  (d, mask32 (b + rotl32 f' (nth i md5_s 0))%Z, b, c).

Definition md5_block (st : Z * Z * Z * Z) (block : list Z) : Z * Z * Z * Z :=
  let '(a0, b0, c0, d0) := st in
  let '(a, b, c, d) := fold_left (md5_step (words 16 block)) (seq 0 64) st in
  (mask32 (a0 + a), mask32 (b0 + b), mask32 (c0 + c), mask32 (d0 + d))%Z.

Fixpoint md5_blocks (n : nat) (st : Z * Z * Z * Z) (bs : list Z)
  : Z * Z * Z * Z :=
  match n with
  | O => st
  | S n' => md5_blocks n' (md5_block st (take 64 bs)) (drop 64 bs)
  end.

Definition md5_digest (msg : list Z) : list Z :=
  let padded := md5_pad msg in
  let '(a, b, c, d) :=
    md5_blocks (length padded / 64)
               (1732584193, 4023233417, 2562383102, 271733878)%Z padded in
  le_bytes 4 a ++ le_bytes 4 b ++ le_bytes 4 c ++ le_bytes 4 d.

(** [int(md5(data).hexdigest(), 16)]: the digest read as a big-endian
    number. *)
Definition md5_hexdigest_int (msg : list Z) : Z := be_word 0 (md5_digest msg).

End Hashlib.

(** The builtin [hash] on strings depends on the interpreter's hash secret,
    drawn when the process starts. *)
Class BuiltinHash := { str_hash : HashSecret -> string -> Z }.

(** CPython 3.11: SipHash-1-3 keyed by the hash secret. *)
Module CPython.

Definition mask64 (x : Z) : Z := Z.land x 18446744073709551615.

Definition rotate (x b : Z) : Z :=
  mask64 (Z.lor (Z.shiftl x b) (Z.shiftr x (64 - b))).

Definition half_round (v : Z * Z * Z * Z) (s t : Z) : Z * Z * Z * Z :=
  let '(a, b, c, d) := v in
  let a := mask64 (a + b) in
  let c := mask64 (c + d) in
  let b := Z.lxor (rotate b s) a in
  let d := Z.lxor (rotate d t) c in
  (rotate a 32, b, c, d).

Definition single_round (v : Z * Z * Z * Z) : Z * Z * Z * Z :=
  let '(v0, v1, v2, v3) := half_round v 13 16 in
  let '(v2, v1, v0, v3) := half_round (v2, v1, v0, v3) 17 21 in
  (v0, v1, v2, v3).

Definition absorb (v : Z * Z * Z * Z) (mi : Z) : Z * Z * Z * Z :=
  let '(v0, v1, v2, v3) := v in
  let '(v0, v1, v2, v3) := single_round (v0, v1, v2, Z.lxor v3 mi) in
  (Z.lxor v0 mi, v1, v2, v3).

Fixpoint absorb_words (n : nat) (v : Z * Z * Z * Z) (src : list Z)
  : Z * Z * Z * Z * list Z :=
  match n with
  | O => (v, src)
  | S n' => absorb_words n' (absorb v (le_word (take 8 src))) (drop 8 src)
  end.

Definition siphash13 (key0 key1 : Z) (src : list Z) : Z :=
  let src_sz := length src in
  let v := (Z.lxor key0 8317987319222330741, Z.lxor key1 7237128888997146477,
            Z.lxor key0 7816392313619706465, Z.lxor key1 8387220255154660723)%Z in
  let '(v, tail) := absorb_words (src_sz / 8) v src in
  let b := Z.lor (mask64 (Z.shiftl (Z.of_nat src_sz) 56)) (le_word tail) in
  let '(v0, v1, v2, v3) := absorb v b in
  let v := single_round (single_round (single_round (v0, v1, Z.lxor v2 255, v3))) in
  let '(v0, v1, v2, v3) := v in
  Z.lxor (Z.lxor v0 v1) (Z.lxor v2 v3).

(** [_Py_HashBytes] on the one-byte-per-character buffer of the string:
    0 for the empty string, the result as a signed 64-bit number, and -1
    replaced by -2. *)
Definition unicode_hash (secret : HashSecret) (s : string) : Z :=
  let src := code_points s in
  match src with
  | [] => 0%Z
  | _ =>
      let u := siphash13 (k0 secret) (k1 secret) src in
      let x := if (u <? 9223372036854775808)%Z then u
               else (u - 18446744073709551616)%Z in
      if (x =? -1)%Z then (-2)%Z else x
  end.

(** The secret derived from [PYTHONHASHSEED=seed] ([lcg_urandom]); seed 0
    disables randomisation. *)
Fixpoint lcg_urandom (n : nat) (x : Z) : list Z :=
  match n with
  | O => []
  | S n' =>
      let x' := Z.land (x * 214013 + 2531011) 4294967295 in
      Z.land (Z.shiftr x' 16) 255 :: lcg_urandom n' x'
  end.

Definition hash_secret_of_seed (seed : Z) : HashSecret :=
  let buf := if (seed =? 0)%Z then repeat 0%Z 24 else lcg_urandom 24 seed in
  {| k0 := le_word (take 8 buf); k1 := le_word (take 8 (drop 8 buf)) |}.

End CPython.

#[export] Instance cpython_3_11 : BuiltinHash :=
  {| str_hash := CPython.unicode_hash |}.

(* ===================================================================== *)
(** * Libraries the code calls                                           *)
(* ===================================================================== *)

(** Arithmetic of Python floats. *)
Class FloatOps := {
  float_sub : Q -> Q -> Q;
  float_add : Q -> Q -> Q;
  float_mul : Q -> Q -> Q;
  float_div : Q -> Q -> Q }.

(** NumPy: the legacy global generator, the kernels on vectors, and
    [argsort], which returns the indices that put its argument in
    ascending order.  The default sorting kind is not stable, so nothing is
    assumed about the order of the indices of equal values. *)
Class NumPy := {
  np_random_seed : Z -> RandomState;
  np_random_randn : nat -> RandomState -> vector * RandomState;
  np_linalg_norm : vector -> Q;
  np_dot : vector -> vector -> Q;
  np_argsort : list Q -> list nat;
  np_random_randn_length :
    forall n s, length (fst (np_random_randn n s)) = n;
  np_argsort_perm :
    forall l, Permutation (np_argsort l) (seq 0 (length l));
  np_argsort_sorted :
    forall l, StronglySorted Qle (map (fun i => nth i l 0%Q) (np_argsort l)) }.

(** The embedding models of langchain.  The outcome of a call depends on
    the service, so it is indexed by the number of calls made so far. *)
Inductive ExternalModel : Type :=
| OpenAIEmbeddings (model : string)
| HuggingFaceEmbeddings (model_name : string).

Class LangChainEmbeddings := {
  embed_query_call : ExternalModel -> nat -> string -> Outcome vector;
  embed_documents_call :
    ExternalModel -> nat -> list string -> Outcome (list vector);
  embed_documents_length :
    forall m n texts vs,
      embed_documents_call m n texts = Return vs ->
      length vs = length texts }.

(** langchain's [RecursiveCharacterTextSplitter] and tiktoken.  Every
    release of the splitter rejects an overlap larger than the chunk size
    in its constructor.  [cl100k_base_encode_length text] is
    [len(tiktoken.get_encoding("cl100k_base").encode(text))]: with its
    default arguments [encode] raises [ValueError] on a text that contains
    a special token such as [<|endoftext|>]. *)
Class TextSplitting := {
  Splitter : Type;
  RecursiveCharacterTextSplitter :
    Z -> Z -> (string -> Outcome Z) -> list string -> Outcome Splitter;
  split_documents : Splitter -> list Document -> Outcome (list Document);
  cl100k_base_encode_length : string -> Outcome Z;
  overlap_larger_than_size :
    forall chunk_size chunk_overlap length_function separators,
      (chunk_overlap > chunk_size)%Z ->
      exists msg,
        RecursiveCharacterTextSplitter chunk_size chunk_overlap
          length_function separators = Raise (ValueError msg) }.

(** [os.listdir]: the names in a directory, in an order the operating
    system chooses; nothing is assumed about it. *)
Class OperatingSystem := {
  listdir : FileSystem -> string -> Outcome (list string) }.

(** [datetime]: the ISO 8601 text of a reading of the clock. *)
Class DateTime := { isoformat : Q -> string }.

Definition lift {A} (o : Outcome A) : M A := fun w => (o, w).

Section Primitives.
Context `{FloatOps} `{NumPy} `{LangChainEmbeddings}.

(** [np.random.seed(seed)] *)
Definition seed (s : Z) : M unit :=
  fun w => (Return tt, set_np_random (np_random_seed s) w).

(** [np.random.randn(dim)] *)
Definition randn (dim : nat) : M vector :=
  fun w =>
    let '(v, r) := np_random_randn dim (np_random w) in
    (Return v, set_np_random r w).

(** [embedding / norm] *)
Definition divide (embedding : vector) (norm : Q) : vector :=
  map (fun x => float_div x norm) embedding.

(** [np.dot(a, b)] raises on one-dimensional arguments of different
    lengths. *)
Definition dot (a b : vector) : M Q :=
  if (length a =? length b)%nat then ret (np_dot a b)
  else raise (ValueError "shapes not aligned").

(** [model.embed_query(text)] and [model.embed_documents(texts)] *)
Definition embed_query_external (m : ExternalModel) (text : string) : M vector :=
  fun w => (embed_query_call m (provider_calls w) text,
            set_provider_calls (S (provider_calls w)) w).

Definition embed_documents_external (m : ExternalModel) (texts : list string)
  : M (list vector) :=
  fun w => (embed_documents_call m (provider_calls w) texts,
            set_provider_calls (S (provider_calls w)) w).

End Primitives.

(** [os.listdir(path)] *)
Definition os_listdir `{OperatingSystem} (path : string) : M (list string) :=
  fun w => (listdir (files w) path, w).

(** [datetime.now().isoformat()] *)
Definition datetime_now_isoformat `{DateTime} : M string :=
  fun w => (Return (isoformat (clock w (ticks w))), set_ticks (S (ticks w)) w).

(** [str(e)] *)
Definition exception_str (e : Exception) : string :=
  match e with
  | ValueError msg => msg
  | FileNotFoundError path =>
      "[Errno 2] No such file or directory: '" +:+ path +:+ "'"
  | UnpicklingError _ => "invalid load key"
  | JSONDecodeError _ => "Expecting value: line 1 column 1 (char 0)"
  | IndexError => "list index out of range"
  | AttributeError msg => msg
  | ProviderError msg => msg
  end.

(** What [embed_chunks] returns. *)
Record EmbeddingStats := {
  stats_chunk_count : nat;
  stats_embedding_model : string;
  stats_embedding_provider : option string;
  stats_processing_time : Q;
  stats_token_count : option Z;
  stats_estimated_cost : option Q }.

Record EmbedResult := {
  embeddings_path : string;
  metadata_path : string;
  embedding_stats : EmbeddingStats }.

(** Insertion sort, the reference for every stable sort: [x] goes in front
    of the first element it may precede, so elements that compare equal keep
    the order they had. *)
Fixpoint insert_sorted {A} (le : A -> A -> bool) (x : A) (l : list A) : list A :=
  match l with
  | [] => [x]
  | y :: rest => if le x y then x :: y :: rest else y :: insert_sorted le x rest
  end.

Fixpoint stable_sort {A} (le : A -> A -> bool) (l : list A) : list A :=
  match l with
  | [] => []
  | x :: rest => insert_sorted le x (stable_sort le rest)
  end.

(** [list.sort(key=lambda x: x["score"], reverse=True)]: Python's sort is
    stable, also with [reverse=True].  This is the sort of a list whose
    scores are numbers; Python does not order a list with a [nan] key, a
    case the theorems on the merge exclude with [finite_scores]. *)
Definition sort_by_score_reverse (l : list Hit.t) : list Hit.t :=
  stable_sort (fun x y => Qle_bool (Hit.score y) (Hit.score x)) l.

(* ===================================================================== *)
(** * src/utils/mock_embeddings.py                                       *)
(* ===================================================================== *)

Module MockEmbeddingsManager.
Section Code.
Context `{FloatOps} `{NumPy}.

Record t := { embeddings_dir : string }.

Definition _generate_mock_embedding (text : string) (dim : nat) : M vector :=
  let seed_ := (Hashlib.md5_hexdigest_int (utf8_encode text) mod 10000000)%Z in
  do _ <- seed seed_;
  do embedding <- randn dim;
  let embedding := divide embedding (np_linalg_norm embedding) in
  ret embedding.

Definition embed_chunks (self : t) (chunks : list Document) (doc_id : string)
  : M EmbedResult :=
  do start_time <- time_time;
  let texts := map page_content chunks in
  do embeddings <-
    comprehension (fun text => _generate_mock_embedding text 384) texts;
  let embeddings_path :=
    os_path_join (embeddings_dir self) (doc_id +:+ "_embeddings.pkl") in
  do _ <- pickle_dump embeddings embeddings_path;
  do now <- time_time;
  let metadata :=
    {| md_doc_id := doc_id;
       md_chunk_count := length chunks;
       md_embedding_model := "mock_embeddings";
       md_embedding_provider := None;
       md_chunks :=
         imap (fun i chunk =>
                 {| ChunkEntry.chunk_id := i;
                    ChunkEntry.content := page_content chunk;
                    ChunkEntry.metadata := metadata chunk |}) chunks;
       md_processing_time := float_sub now start_time;
       md_token_count := None;
       md_estimated_cost := None |} in
  let metadata_path :=
    os_path_join (embeddings_dir self) (doc_id +:+ "_metadata.json") in
  do _ <- json_dump metadata metadata_path;
  do now <- time_time;
  ret {| embeddings_path := embeddings_path;
         metadata_path := metadata_path;
         embedding_stats :=
           {| stats_chunk_count := length chunks;
              stats_embedding_model := "mock_embeddings";
              stats_embedding_provider := None;
              stats_processing_time := float_sub now start_time;
              stats_token_count := None;
              stats_estimated_cost := None |} |}.

End Code.
End MockEmbeddingsManager.

Module MockRetriever.
Section Code.
Context `{FloatOps} `{NumPy}.

Record t := { embeddings_dir : string }.

Definition _generate_mock_embedding (text : string) (dim : nat) : M vector :=
  let seed_ := (Hashlib.md5_hexdigest_int (utf8_encode text) mod 10000000)%Z in
  do _ <- seed seed_;
  do embedding <- randn dim;
  let embedding := divide embedding (np_linalg_norm embedding) in
  ret embedding.

(** The quotient is a number where the divisor is not zero; NumPy gives
    [nan] for 0/0 (see [defined_cosine]). *)
Definition cosine_similarity (a b : vector) : M Q :=
  do d <- dot a b;
  ret (float_div d (float_mul (np_linalg_norm a) (np_linalg_norm b))).

Definition retrieve (self : t) (query doc_id : string) (top_k : Z)
  : M (list Hit.t) :=
  let embeddings_path :=
    os_path_join (embeddings_dir self) (doc_id +:+ "_embeddings.pkl") in
  do found <- os_path_exists embeddings_path;
  if negb found
  then raise (ValueError ("No embeddings found for document " +:+ doc_id))
  else
  do chunk_embeddings <- pickle_load embeddings_path;
  let metadata_path :=
    os_path_join (embeddings_dir self) (doc_id +:+ "_metadata.json") in
  do metadata <- json_load metadata_path;
  do query_embedding <- _generate_mock_embedding query 384;
  do similarities <-
    comprehension (fun chunk_emb => cosine_similarity query_embedding chunk_emb)
                  chunk_embeddings;
  let top_indices := rev (py_slice_from (- top_k) (np_argsort similarities)) in
  for_each top_indices
    (fun results idx =>
       if (idx <? length (md_chunks metadata))%nat then
         do chunk <- py_index (md_chunks metadata) idx;
         do s <- py_index similarities idx;
         ret (results ++ [ {| Hit.chunk_id := ChunkEntry.chunk_id chunk;
                              Hit.content := ChunkEntry.content chunk;
                              Hit.score := s;
                              Hit.metadata := ChunkEntry.metadata chunk;
                              Hit.doc_id := None |} ])
       else ret results)
    [].

End Code.
End MockRetriever.

(* ===================================================================== *)
(** * src/utils/simple_retriever.py                                      *)
(* ===================================================================== *)

Module SimpleRetriever.
Section Code.
Context `{FloatOps} `{NumPy} `{LangChainEmbeddings}.

Record t := {
  embeddings_dir : string;
  use_openai : bool;
  embeddings : ExternalModel;
  model_name : string }.

(** The quotient is a number where the divisor is not zero; NumPy gives
    [nan] for 0/0 (see [defined_cosine]). *)
Definition cosine_similarity (a b : vector) : M Q :=
  do d <- dot a b;
  ret (float_div d (float_mul (np_linalg_norm a) (np_linalg_norm b))).

Definition retrieve (self : t) (query doc_id : string) (top_k : Z)
  : M (list Hit.t) :=
  let embeddings_path :=
    os_path_join (embeddings_dir self) (doc_id +:+ "_embeddings.pkl") in
  do found <- os_path_exists embeddings_path;
  if negb found
  then raise (ValueError ("No embeddings found for document " +:+ doc_id))
  else
  do chunk_embeddings <- pickle_load embeddings_path;
  let metadata_path :=
    os_path_join (embeddings_dir self) (doc_id +:+ "_metadata.json") in
  do metadata <- json_load metadata_path;
  do query_embedding <- embed_query_external (embeddings self) query;
  do similarities <-
    comprehension (fun chunk_emb => cosine_similarity query_embedding chunk_emb)
                  chunk_embeddings;
  let top_indices := rev (py_slice_from (- top_k) (np_argsort similarities)) in
  for_each top_indices
    (fun results idx =>
       if (idx <? length (md_chunks metadata))%nat then
         do chunk <- py_index (md_chunks metadata) idx;
         do s <- py_index similarities idx;
         ret (results ++ [ {| Hit.chunk_id := ChunkEntry.chunk_id chunk;
                              Hit.content := ChunkEntry.content chunk;
                              Hit.score := s;
                              Hit.metadata := ChunkEntry.metadata chunk;
                              Hit.doc_id := None |} ])
       else ret results)
    [].

End Code.
End SimpleRetriever.

(* ===================================================================== *)
(** * src/utils/text_chunker.py                                          *)
(* ===================================================================== *)

Definition newline : string := String (ascii_of_nat 10) EmptyString.

Module TextChunker.
Section Code.
Context `{TextSplitting}.

Record t := {
  chunk_size : Z;
  chunk_overlap : Z;
  text_splitter : Splitter }.

Definition _token_length (text : string) : Outcome Z :=
  cl100k_base_encode_length text.

Definition __init__ (chunk_size chunk_overlap : Z) : M t :=
  do text_splitter <-
    lift (RecursiveCharacterTextSplitter chunk_size chunk_overlap _token_length
            [newline +:+ newline; newline; " "; ""]);
  ret {| chunk_size := chunk_size;
         chunk_overlap := chunk_overlap;
         text_splitter := text_splitter |}.

Definition chunk_document (self : t) (document : list Document)
  : M (list Document) :=
  lift (split_documents (text_splitter self) document).

Definition count_tokens (self : t) (text : string) : M Z :=
  lift (_token_length text).

Record ChunkStats := {
  total_chunks : nat;
  total_tokens : Z;
  avg_tokens_per_chunk : Q;
  max_tokens : Z;
  min_tokens : Z }.

Context `{FloatOps}.

Definition get_chunk_stats (self : t) (chunks : list Document) : M ChunkStats :=
  do token_counts <-
    comprehension (fun chunk => count_tokens self (page_content chunk)) chunks;
  let avg_tokens_per_chunk :=
    if py_bool chunks
    then float_div (inject_Z (py_sum token_counts))
                   (inject_Z (Z.of_nat (length chunks)))
    else 0%Q in
  do max_tokens <- (if py_bool chunks then lift (py_max token_counts)
                    else ret 0%Z);
  do min_tokens <- (if py_bool chunks then lift (py_min token_counts)
                    else ret 0%Z);
  ret {| total_chunks := length chunks;
         total_tokens := py_sum token_counts;
         avg_tokens_per_chunk := avg_tokens_per_chunk;
         max_tokens := max_tokens;
         min_tokens := min_tokens |}.

End Code.
End TextChunker.

(* ===================================================================== *)
(** * src/utils/simple_embeddings.py                                     *)
(* ===================================================================== *)

Module SimpleEmbeddingsManager.
Section Code.
Context `{FloatOps} `{LangChainEmbeddings} `{TextSplitting}.

(** The constructor of the class builds [OpenAIEmbeddings], which reads the
    environment and the network; a manager is taken as built. *)
Record t := {
  embeddings_dir : string;
  use_openai : bool;
  embeddings : ExternalModel;
  model_name : string;
  total_tokens : Z;
  total_cost : Q;
  cost_per_1k_tokens : Q }.

Definition add_usage (self : t) (token_count : Z) : t :=
  {| embeddings_dir := embeddings_dir self; use_openai := use_openai self;
     embeddings := embeddings self; model_name := model_name self;
     total_tokens := total_tokens self + token_count;
     total_cost :=
       float_add (total_cost self)
         (float_mul (float_div (inject_Z token_count) 1000)
                    (cost_per_1k_tokens self));
     cost_per_1k_tokens := cost_per_1k_tokens self |}.

(** [embed_chunks] returns its result together with the manager, whose
    usage counters it updates. *)
Definition embed_chunks (self : t) (chunks : list Document) (doc_id : string)
  : M (t * EmbedResult) :=
  do start_time <- time_time;
  let texts := map page_content chunks in
  do chunker <- TextChunker.__init__ 1000 200;
  do token_counts <- comprehension (TextChunker.count_tokens chunker) texts;
  let token_count := fold_left Z.add token_counts 0%Z in
  let self := add_usage self token_count in
  do embeddings <- embed_documents_external (embeddings self) texts;
  let embeddings_path :=
    os_path_join (embeddings_dir self) (doc_id +:+ "_embeddings.pkl") in
  do _ <- pickle_dump embeddings embeddings_path;
  do now <- time_time;
  let estimated_cost :=
    float_mul (float_div (inject_Z token_count) 1000) (cost_per_1k_tokens self) in
  let metadata :=
    {| md_doc_id := doc_id;
       md_chunk_count := length chunks;
       md_embedding_model := model_name self;
       md_embedding_provider := None;
       md_chunks :=
         imap (fun i chunk =>
                 {| ChunkEntry.chunk_id := i;
                    ChunkEntry.content := page_content chunk;
                    ChunkEntry.metadata := metadata chunk |}) chunks;
       md_processing_time := float_sub now start_time;
       md_token_count := Some token_count;
       md_estimated_cost := Some estimated_cost |} in
  let metadata_path :=
    os_path_join (embeddings_dir self) (doc_id +:+ "_metadata.json") in
  do _ <- json_dump metadata metadata_path;
  do now <- time_time;
  ret (self,
       {| embeddings_path := embeddings_path;
          metadata_path := metadata_path;
          embedding_stats :=
            {| stats_chunk_count := length chunks;
               stats_embedding_model := model_name self;
               stats_embedding_provider := None;
               stats_processing_time := float_sub now start_time;
               stats_token_count := Some token_count;
               stats_estimated_cost := Some estimated_cost |} |}).

End Code.
End SimpleEmbeddingsManager.

(* ===================================================================== *)
(** * src/utils/enhanced_embeddings.py                                   *)
(* ===================================================================== *)

(** [hash(text)] *)
Definition builtin_hash `{BuiltinHash} (text : string) : M Z :=
  fun w => (Return (str_hash (hash_secret w) text), w).

Module EnhancedEmbeddingsManager.
Section Code.
Context `{FloatOps} `{NumPy} `{LangChainEmbeddings} `{BuiltinHash}
        `{TextSplitting}.

Record t := {
  embeddings_dir : string;
  provider : string;
  embeddings : option ExternalModel;
  model_name : string;
  embedding_dim : nat;
  cost_per_1k_tokens : Q;
  total_tokens : Z;
  total_cost : Q }.

(** [os.makedirs] is left out: the model of the files has no
    directories. *)
Definition __init__ (embeddings_dir provider : string) : M t :=
  if String.eqb provider "openai" then
    do has_key <- in_environ "OPENAI_API_KEY";
    if negb has_key
    then raise (ValueError
      "OpenAI API key not found. Please set the OPENAI_API_KEY environment variable.")
    else
    ret {| embeddings_dir := embeddings_dir; provider := provider;
           embeddings := Some (OpenAIEmbeddings "text-embedding-3-small");
           model_name := "text-embedding-3-small";
           embedding_dim := 1536;
           cost_per_1k_tokens := 2 # 100000;
           total_tokens := 0; total_cost := 0 |}
  else if String.eqb provider "huggingface" then
    ret {| embeddings_dir := embeddings_dir; provider := provider;
           embeddings := Some (HuggingFaceEmbeddings "all-MiniLM-L6-v2");
           model_name := "all-MiniLM-L6-v2";
           embedding_dim := 384;
           cost_per_1k_tokens := 0;
           total_tokens := 0; total_cost := 0 |}
  else
    ret {| embeddings_dir := embeddings_dir; provider := provider;
           embeddings := None;
           model_name := "mock_embeddings";
           embedding_dim := 384;
           cost_per_1k_tokens := 0;
           total_tokens := 0; total_cost := 0 |}.

Definition _generate_mock_embedding (self : t) (text : string) : M vector :=
  do h <- builtin_hash text;
  let seed_ := (h mod 10000000)%Z in
  do _ <- seed seed_;
  do embedding <- randn (embedding_dim self);
  let embedding := divide embedding (np_linalg_norm embedding) in
  ret embedding.

Definition embed_documents (self : t) (texts : list string) : M (list vector) :=
  if String.eqb (provider self) "mock" then
    comprehension (fun text => _generate_mock_embedding self text) texts
  else
    match embeddings self with
    | Some model => embed_documents_external model texts
    | None => raise (AttributeError
        "'NoneType' object has no attribute 'embed_documents'")
    end.

Definition embed_query (self : t) (text : string) : M vector :=
  if String.eqb (provider self) "mock" then
    _generate_mock_embedding self text
  else
    match embeddings self with
    | Some model => embed_query_external model text
    | None => raise (AttributeError
        "'NoneType' object has no attribute 'embed_query'")
    end.

Definition add_usage (self : t) (token_count : Z) : t :=
  {| embeddings_dir := embeddings_dir self; provider := provider self;
     embeddings := embeddings self; model_name := model_name self;
     embedding_dim := embedding_dim self;
     cost_per_1k_tokens := cost_per_1k_tokens self;
     total_tokens := total_tokens self + token_count;
     total_cost :=
       float_add (total_cost self)
         (float_mul (float_div (inject_Z token_count) 1000)
                    (cost_per_1k_tokens self)) |}.

(** [embed_chunks] returns its result together with the manager, whose
    usage counters it updates. *)
Definition embed_chunks (self : t) (chunks : list Document) (doc_id : string)
  : M (t * EmbedResult) :=
  let is_openai := String.eqb (provider self) "openai" in
  do start_time <- time_time;
  let texts := map page_content chunks in
  do usage <-
    (if is_openai then
       do chunker <- TextChunker.__init__ 1000 200;
       do token_counts <-
         comprehension (TextChunker.count_tokens chunker) texts;
       let token_count := fold_left Z.add token_counts 0%Z in
       ret (add_usage self token_count, token_count)
     else ret (self, 0%Z));
  let '(self, token_count) := usage in
  do embeddings <- embed_documents self texts;
  let embeddings_path :=
    os_path_join (embeddings_dir self) (doc_id +:+ "_embeddings.pkl") in
  do _ <- pickle_dump embeddings embeddings_path;
  do now <- time_time;
  let estimated_cost :=
    float_mul (float_div (inject_Z token_count) 1000) (cost_per_1k_tokens self) in
  let metadata :=
    {| md_doc_id := doc_id;
       md_chunk_count := length chunks;
       md_embedding_model := model_name self;
       md_embedding_provider := Some (provider self);
       md_chunks :=
         imap (fun i chunk =>
                 {| ChunkEntry.chunk_id := i;
                    ChunkEntry.content := page_content chunk;
                    ChunkEntry.metadata := metadata chunk |}) chunks;
       md_processing_time := float_sub now start_time;
       md_token_count := if is_openai then Some token_count else None;
       md_estimated_cost := if is_openai then Some estimated_cost else None |} in
  let metadata_path :=
    os_path_join (embeddings_dir self) (doc_id +:+ "_metadata.json") in
  do _ <- json_dump metadata metadata_path;
  do now <- time_time;
  ret (self,
       {| embeddings_path := embeddings_path;
          metadata_path := metadata_path;
          embedding_stats :=
            {| stats_chunk_count := length chunks;
               stats_embedding_model := model_name self;
               stats_embedding_provider := Some (provider self);
               stats_processing_time := float_sub now start_time;
               stats_token_count := if is_openai then Some token_count else None;
               stats_estimated_cost :=
                 Some (if is_openai then estimated_cost else 0%Q) |} |}).

End Code.
End EnhancedEmbeddingsManager.

(* ===================================================================== *)
(** * src/utils/multi_doc_retriever.py                                   *)
(* ===================================================================== *)

Module MultiDocRetriever.
Section Code.
Context `{FloatOps} `{NumPy} `{LangChainEmbeddings} `{BuiltinHash}
        `{TextSplitting}.

Record t := {
  embeddings_dir : string;
  embeddings_manager : EnhancedEmbeddingsManager.t }.

Definition __init__ (embeddings_dir provider : string) : M t :=
  do manager <- EnhancedEmbeddingsManager.__init__ embeddings_dir provider;
  ret {| embeddings_dir := embeddings_dir; embeddings_manager := manager |}.

(** The quotient is a number where the divisor is not zero; NumPy gives
    [nan] for 0/0 (see [defined_cosine]). *)
Definition cosine_similarity (a b : vector) : M Q :=
  do d <- dot a b;
  ret (float_div d (float_mul (np_linalg_norm a) (np_linalg_norm b))).

Definition retrieve_from_single_doc (self : t) (query doc_id : string)
    (top_k : Z) : M (list Hit.t) :=
  let embeddings_path :=
    os_path_join (embeddings_dir self) (doc_id +:+ "_embeddings.pkl") in
  do found <- os_path_exists embeddings_path;
  if negb found
  then raise (ValueError ("No embeddings found for document " +:+ doc_id))
  else
  do chunk_embeddings <- pickle_load embeddings_path;
  let metadata_path :=
    os_path_join (embeddings_dir self) (doc_id +:+ "_metadata.json") in
  do metadata <- json_load metadata_path;
  do query_embedding <-
    EnhancedEmbeddingsManager.embed_query (embeddings_manager self) query;
  do similarities <-
    comprehension (fun chunk_emb => cosine_similarity query_embedding chunk_emb)
                  chunk_embeddings;
  let top_indices := rev (py_slice_from (- top_k) (np_argsort similarities)) in
  for_each top_indices
    (fun results idx =>
       if (idx <? length (md_chunks metadata))%nat then
         do chunk <- py_index (md_chunks metadata) idx;
         do s <- py_index similarities idx;
         ret (results ++ [ {| Hit.chunk_id := ChunkEntry.chunk_id chunk;
                              Hit.content := ChunkEntry.content chunk;
                              Hit.score := s;
                              Hit.metadata := ChunkEntry.metadata chunk;
                              Hit.doc_id := Some doc_id |} ])
       else ret results)
    [].

Definition retrieve_from_multiple_docs (self : t) (query : string)
    (doc_ids : list string) (top_k : Z) : M (list Hit.t) :=
  do all_results <-
    for_each doc_ids
      (fun all_results doc_id =>
         try_except
           (do results <- retrieve_from_single_doc self query doc_id top_k;
            ret (all_results ++ results))
           (fun e =>
              do _ <- print ("Error retrieving from " +:+ doc_id +:+ ": "
                             +:+ exception_str e);
              ret all_results))
      [];
  let all_results := sort_by_score_reverse all_results in
  ret (py_slice_to top_k all_results).

(** An entry of [list_available_documents]; [metadata.get] finds every key
    but ["embedding_provider"] in each metadata file of the model. *)
Record DocInfo := {
  info_doc_id : string;
  info_chunk_count : nat;
  info_embedding_model : string;
  info_embedding_provider : string;
  info_type : string }.

Context `{OperatingSystem}.

(** [doc_id.split("_")[0] if "_" in doc_id else "unknown"] *)
Definition doc_type_of (doc_id : string) : M string :=
  if str_contains "_" doc_id then py_index (str_split "_" doc_id) 0
  else ret "unknown".

Definition list_available_documents (self : t) : M (list DocInfo) :=
  do filenames <- os_listdir (embeddings_dir self);
  for_each filenames
    (fun docs filename =>
       if endswith filename "_metadata.json" then
         let doc_id := str_replace filename "_metadata.json" "" in
         do metadata <- json_load (os_path_join (embeddings_dir self) filename);
         do type <- doc_type_of doc_id;
         ret (docs ++ [ {| info_doc_id := doc_id;
                           info_chunk_count := md_chunk_count metadata;
                           info_embedding_model := md_embedding_model metadata;
                           info_embedding_provider :=
                             default "unknown" (md_embedding_provider metadata);
                           info_type := type |} ])
       else ret docs)
    [].

Definition retrieve_by_type (self : t) (query doc_type : string) (top_k : Z)
  : M (list Hit.t) :=
  do docs <- list_available_documents self;
  let doc_ids :=
    map info_doc_id
        (List.filter (fun doc => String.eqb (info_type doc) doc_type) docs) in
  retrieve_from_multiple_docs self query doc_ids top_k.

End Code.
End MultiDocRetriever.

(* ===================================================================== *)
(** * src/chains/qa_chain.py                                             *)
(* ===================================================================== *)

Module SimpleQAChain.
Section Code.
Context `{DateTime}.

Record HistoryEntry := {
  entry_query : string;
  entry_answer : string;
  entry_timestamp : string }.

Record Answer := {
  answer : string;
  sources : list Hit.t;
  query : string;
  doc_id : string }.

(** The retriever is any object with a [retrieve] method. *)
Record t := {
  retriever : string -> string -> Z -> M (list Hit.t);
  conversation_history : list HistoryEntry }.

Definition __init__ (retriever : string -> string -> Z -> M (list Hit.t)) : t :=
  {| retriever := retriever; conversation_history := [] |}.

Definition _format_answer (query : string) (results : list Hit.t)
    (doc_id : string) : string :=
  if negb (py_bool results)
  then "I couldn't find any relevant information in the document."
  else
  let contents := map Hit.content results in
  let answer :=
    "Based on the document, here's what I found:" +:+ newline +:+ newline in
  let answer :=
    fold_left
      (fun answer '(i, content) =>
         answer +:+ "Source " +:+ str_of_nat (i + 1) +:+ ":" +:+ newline
         +:+ content +:+ newline +:+ newline)
      (imap pair contents) answer in
  answer +:+ "Note: This information is extracted directly from the document and may require medical interpretation.".

Definition add_to_history (self : t) (query answer : string) : M t :=
  do timestamp <- datetime_now_isoformat;
  ret {| retriever := retriever self;
         conversation_history :=
           conversation_history self
           ++ [ {| entry_query := query;
                   entry_answer := answer;
                   entry_timestamp := timestamp |} ] |}.

(** [get_answer] returns its result together with the chain, whose history
    it extends. *)
Definition get_answer (self : t) (query doc_id : string) (top_k : Z)
  : M (t * Answer) :=
  do results <- retriever self query doc_id top_k;
  let answer := _format_answer query results doc_id in
  do self <- add_to_history self query answer;
  ret (self,
       {| answer := answer;
          sources := results;
          query := query;
          doc_id := doc_id |}).

Definition get_conversation_history (self : t) : list HistoryEntry :=
  conversation_history self.

End Code.
End SimpleQAChain.

(* ===================================================================== *)
(** * src/utils/document_manager.py                                      *)
(* ===================================================================== *)

Module DocumentManager.

Record t := {
  raw_dir : string;
  processed_dir : string;
  embeddings_dir : string }.

Definition delete_document (self : t) (doc_id : string) : M bool :=
  let processed_path :=
    os_path_join (processed_dir self) (doc_id +:+ ".json") in
  do found <- os_path_exists processed_path;
  do _ <- (if found then os_remove processed_path else ret tt);
  let embeddings_path :=
    os_path_join (embeddings_dir self) (doc_id +:+ "_embeddings.pkl") in
  do found <- os_path_exists embeddings_path;
  do _ <- (if found then os_remove embeddings_path else ret tt);
  let metadata_path :=
    os_path_join (embeddings_dir self) (doc_id +:+ "_metadata.json") in
  do found <- os_path_exists metadata_path;
  do _ <- (if found then os_remove metadata_path else ret tt);
  ret true.

End DocumentManager.

(* ===================================================================== *)
(** * Stable sorting                                                     *)
(* ===================================================================== *)

Section StableSort.
Context {A : Type} (le : A -> A -> bool).

Lemma insert_sorted_perm (x : A) (l : list A) :
  Permutation (insert_sorted le x l) (x :: l).
Proof.
  induction l as [|y l IH]; simpl; [reflexivity|].
  destruct (le x y); [reflexivity|].
  rewrite IH. apply perm_swap.
Qed.

Lemma stable_sort_perm (l : list A) : Permutation (stable_sort le l) l.
Proof.
  induction l as [|x l IH]; simpl; [constructor|].
  rewrite insert_sorted_perm. now constructor.
Qed.

Lemma stable_sort_length (l : list A) : length (stable_sort le l) = length l.
Proof. apply Permutation_length, stable_sort_perm. Qed.



Hypothesis le_total : forall x y, le x y = true \/ le y x = true.
Hypothesis le_trans :
  forall x y z, le x y = true -> le y z = true -> le x z = true.

Lemma insert_sorted_sorted (x : A) (l : list A) :
  StronglySorted (fun a b => le a b = true) l ->
  StronglySorted (fun a b => le a b = true) (insert_sorted le x l).
Proof.
  induction 1 as [|y l Hs IH Hy]; simpl.
  - repeat constructor.
  - destruct (le x y) eqn:Hxy.
    + constructor; [now constructor|].
      constructor; [assumption|].
      eapply Forall_impl; [exact Hy|]. intros z Hz. now apply (le_trans x y z).
    + constructor; [assumption|].
      assert (Hyx : le y x = true) by (destruct (le_total x y); congruence).
      apply (Permutation_Forall (Permutation_sym (insert_sorted_perm x l))).
      now constructor.
Qed.

Lemma stable_sort_sorted (l : list A) :
  StronglySorted (fun a b => le a b = true) (stable_sort le l).
Proof.
  induction l as [|x l IH]; simpl; [constructor|].
  now apply insert_sorted_sorted.
Qed.

End StableSort.

Lemma StronglySorted_map {A B} (R : B -> B -> Prop) (f : A -> B) (l : list A) :
  StronglySorted (fun a b => R (f a) (f b)) l -> StronglySorted R (map f l).
Proof.
  induction 1 as [|x l Hs IH Hx]; simpl; constructor; [assumption|].
  now apply Forall_map.
Qed.

Lemma StronglySorted_impl {A} (R S : A -> A -> Prop) (l : list A) :
  (forall a b, R a b -> S a b) -> StronglySorted R l -> StronglySorted S l.
Proof.
  intros HRS. induction 1 as [|x l Hs IH Hx]; constructor; [assumption|].
  eapply Forall_impl; [exact Hx|]. auto.
Qed.

Lemma Qle_bool_total (a b : Q) : Qle_bool a b = true \/ Qle_bool b a = true.
Proof.
  rewrite !Qle_bool_iff. destruct (Qlt_le_dec a b) as [Hlt|Hle]; [left|right].
  - now apply Qlt_le_weak.
  - assumption.
Qed.

Lemma Qle_bool_trans (a b c : Q) :
  Qle_bool a b = true -> Qle_bool b c = true -> Qle_bool a c = true.
Proof. rewrite !Qle_bool_iff. apply Qle_trans. Qed.

(* ===================================================================== *)
(** * Executable reference instances of the libraries                    *)
(* ===================================================================== *)

(** Fixed-point arithmetic on the multiples of 2^-16 in place of binary64,
    a linear congruential sampler in place of the Mersenne Twister, and
    insertion sort for [argsort], which is what NumPy's generic quicksort
    does on arrays of at most 16 elements.  They serve to run the code of
    this file on concrete stores. *)
Module Reference.

Definition grid : positive := 65536.

(** The number of grid steps in a value, rounded down. *)
Definition steps (x : Q) : Z :=
  if Pos.eqb (Qden x) grid then Qnum x
  else (Qnum x * Zpos grid / Zpos (Qden x))%Z.

Definition round (x : Q) : Q := steps x # grid.

Definition add (a b : Q) : Q := (steps a + steps b)%Z # grid.
Definition sub (a b : Q) : Q := (steps a - steps b)%Z # grid.
Definition mul (a b : Q) : Q := (steps a * steps b / Zpos grid)%Z # grid.
Definition div (a b : Q) : Q := (steps a * Zpos grid / steps b)%Z # grid.

Definition q_sqrt (x : Q) : Q := Z.sqrt (steps x * Zpos grid) # grid.

Fixpoint dot_product (a b : vector) : Q :=
  match a, b with
  | x :: a', y :: b' => add (mul x y) (dot_product a' b')
  | _, _ => 0%Q
  end.

Fixpoint lcg_samples (n : nat) (x : Z) : vector * Z :=
  match n with
  | O => ([], x)
  | S n' =>
      let x' := ((x * 1103515245 + 12345) mod 2147483648)%Z in
      let '(rest, final) := lcg_samples n' x' in
      (round ((x' mod 2001 - 1000) # 1000) :: rest, final)
  end.

Definition randn (n : nat) (s : RandomState) : vector * RandomState :=
  let '(v, x) := lcg_samples n (hd 0%Z s) in (v, [x]).

Definition argsort (l : list Q) : list nat :=
  stable_sort (fun i j => Qle_bool (nth i l 0%Q) (nth j l 0%Q)) (seq 0 (length l)).

Lemma lcg_samples_length (n : nat) (x : Z) : length (fst (lcg_samples n x)) = n.
Proof.
  revert x. induction n as [|n IH]; intros x; simpl; [reflexivity|].
  specialize (IH ((x * 1103515245 + 12345) mod 2147483648)%Z).
  destruct (lcg_samples n _) as [rest final]. simpl in *. now rewrite IH.
Qed.

Lemma randn_length (n : nat) (s : RandomState) : length (fst (randn n s)) = n.
Proof.
  unfold randn. pose proof (lcg_samples_length n (hd 0%Z s)) as Hl.
  destruct (lcg_samples n _) as [v x]. exact Hl.
Qed.

Lemma argsort_perm (l : list Q) : Permutation (argsort l) (seq 0 (length l)).
Proof. apply stable_sort_perm. Qed.

Lemma argsort_sorted (l : list Q) :
  StronglySorted Qle (map (fun i => nth i l 0%Q) (argsort l)).
Proof.
  apply StronglySorted_map.
  eapply StronglySorted_impl;
    [|apply stable_sort_sorted; intros; [apply Qle_bool_total|eapply Qle_bool_trans; eassumption]].
  intros a b Hab. now apply Qle_bool_iff.
Qed.

#[export] Instance float_ops : FloatOps :=
  {| float_sub := sub;
     float_add := add;
     float_mul := mul;
     float_div := div |}.

#[export] Instance numpy : NumPy :=
  {| np_random_seed s := [s];
     np_random_randn := randn;
     np_linalg_norm v := q_sqrt (dot_product v v);
     np_dot := dot_product;
     np_argsort := argsort;
     np_random_randn_length := randn_length;
     np_argsort_perm := argsort_perm;
     np_argsort_sorted := argsort_sorted |}.

(** An embedding service that always answers, with a vector computed from
    the text alone. *)
Definition service_vector (text : string) : vector :=
  let d := q_sqrt 3 in
  map (fun x => div x d)
      (fst (randn 3 [Hashlib.md5_hexdigest_int (utf8_encode text)])).

Lemma service_length (m : ExternalModel) (n : nat) (texts : list string)
    (vs : list vector) :
  Return (map service_vector texts) = Return vs -> length vs = length texts.
Proof. intros [= <-]. apply length_map. Qed.

#[export] Instance embeddings_service : LangChainEmbeddings :=
  {| embed_query_call _ _ text := Return (service_vector text);
     embed_documents_call _ _ texts := Return (map service_vector texts);
     embed_documents_length := service_length |}.

(** One splitter the class admits, to run the code on concrete stores:
    its constructor has the overlap check and no other, a document comes
    back whole, and a token is a character.  Nothing is concluded from it
    on what langchain's constructor accepts. *)
Definition splitter_init (chunk_size chunk_overlap : Z)
    (length_function : string -> Outcome Z) (separators : list string)
  : Outcome (Z * Z) :=
  if (chunk_overlap >? chunk_size)%Z
  then Raise (ValueError
    "Got a larger chunk overlap than chunk size, should be smaller.")
  else Return (chunk_size, chunk_overlap).

Lemma splitter_init_overlap (chunk_size chunk_overlap : Z)
    (length_function : string -> Outcome Z) (separators : list string) :
  (chunk_overlap > chunk_size)%Z ->
  exists msg,
    splitter_init chunk_size chunk_overlap length_function separators
    = Raise (ValueError msg).
Proof.
  intros Hgt. unfold splitter_init.
  destruct (Z.gtb_spec chunk_overlap chunk_size); [eauto|lia].
Qed.

(** [sub in s] *)
Fixpoint occurs (sub s : string) : bool :=
  String.prefix sub s
  || match s with
     | EmptyString => false
     | String _ rest => occurs sub rest
     end.

Definition encode_length (text : string) : Outcome Z :=
  if occurs "<|endoftext|>" text
  then Raise (ValueError
    "Encountered text corresponding to disallowed special token '<|endoftext|>'.")
  else Return (Z.of_nat (String.length text)).

#[export] Instance legacy_splitter : TextSplitting :=
  {| Splitter := Z * Z;
     RecursiveCharacterTextSplitter := splitter_init;
     split_documents _ docs := Return docs;
     cl100k_base_encode_length := encode_length;
     overlap_larger_than_size := splitter_init_overlap |}.

End Reference.

(* ===================================================================== *)
(** * What a retrieval computes                                          *)
(* ===================================================================== *)

Definition mk_hit (doc : option string) (chunk : ChunkEntry.t) (s : Q) : Hit.t :=
  {| Hit.chunk_id := ChunkEntry.chunk_id chunk;
     Hit.content := ChunkEntry.content chunk;
     Hit.score := s;
     Hit.metadata := ChunkEntry.metadata chunk;
     Hit.doc_id := doc |}.

(** The chunk a result was built from. *)
Definition chunk_of_hit (h : Hit.t) : ChunkEntry.t :=
  {| ChunkEntry.chunk_id := Hit.chunk_id h;
     ChunkEntry.content := Hit.content h;
     ChunkEntry.metadata := Hit.metadata h |}.

(** The result built for one selected index, if the metadata list has an
    entry there. *)
Definition hit_at (doc : option string) (chunks : list ChunkEntry.t)
    (sims : list Q) (idx : nat) : option Hit.t :=
  match chunks !! idx, sims !! idx with
  | Some c, Some s => Some (mk_hit doc c s)
  | _, _ => None
  end.

Definition select_hits (doc : option string) (chunks : list ChunkEntry.t)
    (sims : list Q) (idxs : list nat) : list Hit.t :=
  omap (hit_at doc chunks sims) idxs.

Section Ranking.
Context `{FloatOps} `{NumPy}.

Definition cosine (a b : vector) : Q :=
  float_div (np_dot a b) (float_mul (np_linalg_norm a) (np_linalg_norm b)).

Definition top_indices (sims : list Q) (top_k : Z) : list nat :=
  rev (py_slice_from (- top_k) (np_argsort sims)).

Definition ranked (doc : option string) (chunks : list ChunkEntry.t)
    (query_embedding : vector) (chunk_embeddings : list vector) (top_k : Z)
  : list Hit.t :=
  let sims := map (cosine query_embedding) chunk_embeddings in
  select_hits doc chunks sims (top_indices sims top_k).

(** The seed and the vector of the md5-based generator. *)
Definition md5_seed (text : string) : Z :=
  (Hashlib.md5_hexdigest_int (utf8_encode text) mod 10000000)%Z.

Definition seeded_vector (s : Z) (dim : nat) : vector :=
  let v := fst (np_random_randn dim (np_random_seed s)) in
  divide v (np_linalg_norm v).

Definition seeded_state (s : Z) (dim : nat) : RandomState :=
  snd (np_random_randn dim (np_random_seed s)).



End Ranking.



(* ===================================================================== *)
(** * Lemmas on lists and on the monad                                   *)
(* ===================================================================== *)







Lemma py_slice_from_length {A} (k : Z) (l : list A) :
  (1 <= k)%Z -> (Z.of_nat (length (py_slice_from (- k) l)) <= k)%Z.
Proof.
  intros Hk. unfold py_slice_from.
  destruct (Z.ltb_spec (- k) 0); [|lia].
  rewrite length_drop. lia.
Qed.

Lemma py_slice_from_all {A} (k : Z) (l : list A) :
  (1 <= k)%Z -> (Z.of_nat (length l) <= k)%Z -> py_slice_from (- k) l = l.
Proof.
  intros Hk Hn. unfold py_slice_from.
  destruct (Z.ltb_spec (- k) 0); [|lia].
  replace (Z.to_nat _) with 0%nat by lia. reflexivity.
Qed.

Lemma bind_return {A B} (m : M A) (k : A -> M B) (a : A) (w w' : World) :
  m w = (Return a, w') -> bind m k w = k a w'.
Proof. intros Hm. unfold bind. now rewrite Hm. Qed.

Lemma bind_raise {A B} (m : M A) (k : A -> M B) (e : Exception)
    (w w' : World) :
  m w = (Raise e, w') -> bind m k w = (Raise e, w').
Proof. intros Hm. unfold bind. now rewrite Hm. Qed.

Lemma comprehension_pure {A B} (f : A -> M B) (g : A -> B) (xs : list A)
    (w : World) :
  (forall x w', In x xs -> f x w' = (Return (g x), w')) ->
  comprehension f xs w = (Return (map g xs), w).
Proof.
  induction xs as [|x xs IH]; intros Hf; [reflexivity|].
  simpl. unfold bind. rewrite Hf by now left.
  rewrite IH by (intros; apply Hf; now right). reflexivity.
Qed.

(* ===================================================================== *)
(** * The selection loop and the ranking                                 *)
(* ===================================================================== *)

Lemma for_each_select (doc : option string) (chunks : list ChunkEntry.t)
    (sims : list Q) (idxs : list nat) (acc : list Hit.t) (w : World) :
  Forall (fun i => (i < length sims)%nat) idxs ->
  for_each idxs
    (fun results idx =>
       if (idx <? length chunks)%nat then
         do chunk <- py_index chunks idx;
         do s <- py_index sims idx;
         ret (results ++ [ {| Hit.chunk_id := ChunkEntry.chunk_id chunk;
                              Hit.content := ChunkEntry.content chunk;
                              Hit.score := s;
                              Hit.metadata := ChunkEntry.metadata chunk;
                              Hit.doc_id := doc |} ])
       else ret results)
    acc w
  = (Return (acc ++ select_hits doc chunks sims idxs), w).
Proof.
  revert acc. induction idxs as [|idx idxs IH]; intros acc Hall.
  - simpl. unfold ret. now rewrite app_nil_r.
  - inversion Hall as [|? ? Hidx Hrest]; subst.
    destruct (lookup_lt_is_Some_2 sims idx Hidx) as [s Hs].
    cbn [for_each]. unfold bind at 1.
    unfold select_hits. cbn [omap list_omap]. unfold hit_at at 1. rewrite Hs.
    destruct (Nat.ltb_spec idx (length chunks)) as [Hlt|Hge].
    + destruct (lookup_lt_is_Some_2 chunks idx Hlt) as [c Hc].
      unfold bind, py_index. rewrite Hc, Hs. unfold ret at 1 2 3.
      rewrite IH by assumption. unfold select_hits, mk_hit.
      now rewrite <- app_assoc.
    + rewrite (lookup_ge_None_2 chunks idx Hge). unfold ret at 1.
      now apply IH.
Qed.

Lemma select_hits_length (doc : option string) (chunks : list ChunkEntry.t)
    (sims : list Q) (idxs : list nat) :
  (length (select_hits doc chunks sims idxs) <= length idxs)%nat.
Proof.
  unfold select_hits. induction idxs as [|idx idxs IH]; [reflexivity|].
  cbn [omap list_omap]. destruct (hit_at doc chunks sims idx); cbn [length]; lia.
Qed.


Lemma select_hits_chunks (doc : option string) (chunks : list ChunkEntry.t)
    (sims : list Q) (idxs : list nat) :
  Forall (fun i => (i < length sims)%nat) idxs ->
  map chunk_of_hit (select_hits doc chunks sims idxs)
  = omap (fun i => chunks !! i) idxs.
Proof.
  unfold select_hits. induction 1 as [|idx idxs Hidx Hrest IH]; [reflexivity|].
  destruct (lookup_lt_is_Some_2 sims idx Hidx) as [s Hs].
  cbn [omap list_omap]. unfold hit_at at 1. rewrite Hs.
  destruct (chunks !! idx) as [c|]; [|exact IH].
  cbn [map]. rewrite IH. now destruct c.
Qed.

Lemma omap_lookup_seq {A} (l1 l2 : list A) :
  omap (fun i => (l1 ++ l2) !! i) (seq (length l1) (length l2)) = l2.
Proof.
  revert l1. induction l2 as [|x l2 IH]; intros l1; [reflexivity|].
  cbn [length seq omap list_omap].
  rewrite (list_lookup_middle l1 l2 x (length l1) eq_refl).
  f_equal. specialize (IH (l1 ++ [x])).
  rewrite <- app_assoc, length_app in IH. simpl in IH.
  now rewrite Nat.add_1_r in IH.
Qed.

Lemma omap_lookup_all {A} (l : list A) :
  omap (fun i => l !! i) (seq 0 (length l)) = l.
Proof. exact (omap_lookup_seq [] l). Qed.

Section RankingFacts.
Context `{FloatOps} `{NumPy}.

Lemma np_argsort_bound (sims : list Q) :
  Forall (fun i => (i < length sims)%nat) (np_argsort sims).
Proof.
  apply List.Forall_forall. intros i Hi.
  apply (Permutation_in _ (np_argsort_perm sims)) in Hi.
  apply in_seq in Hi. lia.
Qed.

Lemma top_indices_bound (sims : list Q) (top_k : Z) :
  Forall (fun i => (i < length sims)%nat) (top_indices sims top_k).
Proof.
  pose proof (np_argsort_bound sims) as Hb.
  rewrite List.Forall_forall in *. intros i Hi. apply Hb.
  unfold top_indices, py_slice_from in Hi. apply List.in_rev in Hi.
  rewrite <- list_elem_of_In in *. eapply subseteq_drop; eassumption.
Qed.

Lemma top_indices_length (sims : list Q) (top_k : Z) :
  (1 <= top_k)%Z -> (Z.of_nat (length (top_indices sims top_k)) <= top_k)%Z.
Proof.
  intros Hk. unfold top_indices. rewrite length_rev.
  now apply py_slice_from_length.
Qed.


Lemma top_indices_all (sims : list Q) (top_k : Z) :
  (1 <= top_k)%Z -> (Z.of_nat (length sims) <= top_k)%Z ->
  Permutation (top_indices sims top_k) (seq 0 (length sims)).
Proof.
  intros Hk Hn. unfold top_indices.
  rewrite py_slice_from_all; [|assumption|].
  - rewrite <- Permutation_rev. apply np_argsort_perm.
  - rewrite (Permutation_length (np_argsort_perm sims)), length_seq. exact Hn.
Qed.

Lemma ranked_length (doc : option string) (chunks : list ChunkEntry.t)
    (qe : vector) (embs : list vector) (top_k : Z) :
  (1 <= top_k)%Z ->
  (Z.of_nat (length (ranked doc chunks qe embs top_k)) <= top_k)%Z.
Proof.
  intros Hk. unfold ranked.
  pose proof (select_hits_length doc chunks (map (cosine qe) embs)
                (top_indices (map (cosine qe) embs) top_k)).
  pose proof (top_indices_length (map (cosine qe) embs) top_k Hk). lia.
Qed.


(** With [top_k] at least the number of stored vectors and a metadata list
    of that length, every chunk is selected once. *)
Lemma ranked_all (doc : option string) (chunks : list ChunkEntry.t)
    (qe : vector) (embs : list vector) (top_k : Z) :
  (1 <= top_k)%Z -> (Z.of_nat (length embs) <= top_k)%Z ->
  length chunks = length embs ->
  Permutation (map chunk_of_hit (ranked doc chunks qe embs top_k)) chunks.
Proof.
  intros Hk Hn Hlen. unfold ranked.
  rewrite select_hits_chunks by apply top_indices_bound.
  rewrite top_indices_all by (rewrite ?length_map; assumption).
  rewrite length_map, <- Hlen, omap_lookup_all. reflexivity.
Qed.

(** The ranking is the list of the selected indices without those outside
    the metadata list. *)
Lemma ranked_skips (doc : option string) (chunks : list ChunkEntry.t)
    (qe : vector) (embs : list vector) (top_k : Z) (idx : nat) :
  In idx (top_indices (map (cosine qe) embs) top_k) ->
  (hit_at doc chunks (map (cosine qe) embs) idx = None
   <-> (length chunks <= idx)%nat).
Proof.
  intros Hin.
  pose proof (top_indices_bound (map (cosine qe) embs) top_k) as Hb.
  rewrite List.Forall_forall in Hb. specialize (Hb idx Hin).
  destruct (lookup_lt_is_Some_2 _ idx Hb) as [s Hs].
  unfold hit_at. rewrite Hs. split.
  - destruct (chunks !! idx) eqn:Hc; [discriminate|].
    intros _. now apply lookup_ge_None in Hc.
  - intros Hge. now rewrite (lookup_ge_None_2 chunks idx Hge).
Qed.

End RankingFacts.

(* ===================================================================== *)
(** * Running the generators and the retrievers                          *)
(* ===================================================================== *)

Section Runs.
Context `{FloatOps} `{NumPy} `{LangChainEmbeddings} `{BuiltinHash}
        `{TextSplitting}.

Lemma seeded_vector_length (s : Z) (dim : nat) :
  length (seeded_vector s dim) = dim.
Proof.
  unfold seeded_vector, divide. rewrite length_map.
  apply np_random_randn_length.
Qed.

Lemma seeded_run (s : Z) (dim : nat) (w : World) :
  (do _ <- seed s;
   do embedding <- randn dim;
   let embedding := divide embedding (np_linalg_norm embedding) in
   ret embedding) w
  = (Return (seeded_vector s dim), set_np_random (seeded_state s dim) w).
Proof.
  unfold bind, seed, randn, ret, seeded_vector, seeded_state.
  cbn [np_random set_np_random].
  now destruct (np_random_randn dim (np_random_seed s)) as [v r].
Qed.

Lemma mock_manager_generate_run (text : string) (dim : nat) (w : World) :
  MockEmbeddingsManager._generate_mock_embedding text dim w
  = (Return (seeded_vector (md5_seed text) dim),
     set_np_random (seeded_state (md5_seed text) dim) w).
Proof. apply seeded_run. Qed.

Lemma mock_retriever_generate_run (text : string) (dim : nat) (w : World) :
  MockRetriever._generate_mock_embedding text dim w
  = (Return (seeded_vector (md5_seed text) dim),
     set_np_random (seeded_state (md5_seed text) dim) w).
Proof. apply seeded_run. Qed.

(** The seed of the generator of [EnhancedEmbeddingsManager]. *)
Definition hash_seed (secret : HashSecret) (text : string) : Z :=
  (str_hash secret text mod 10000000)%Z.

Lemma enhanced_generate_run (self : EnhancedEmbeddingsManager.t)
    (text : string) (w : World) :
  EnhancedEmbeddingsManager._generate_mock_embedding self text w
  = (Return (seeded_vector (hash_seed (hash_secret w) text)
               (EnhancedEmbeddingsManager.embedding_dim self)),
     set_np_random (seeded_state (hash_seed (hash_secret w) text)
                      (EnhancedEmbeddingsManager.embedding_dim self)) w).
Proof.
  unfold EnhancedEmbeddingsManager._generate_mock_embedding.
  unfold bind at 1. unfold builtin_hash. apply seeded_run.
Qed.

Lemma similarities_run (qe : vector) (embs : list vector) (w : World) :
  Forall (fun e => length e = length qe) embs ->
  comprehension
    (fun chunk_emb =>
       do d <- dot qe chunk_emb;
       ret (float_div d (float_mul (np_linalg_norm qe) (np_linalg_norm chunk_emb))))
    embs w
  = (Return (map (cosine qe) embs), w).
Proof.
  intros Hdim. apply comprehension_pure. intros e w' He.
  rewrite List.Forall_forall in Hdim. specialize (Hdim e He).
  unfold bind, dot. rewrite Hdim, Nat.eqb_refl. reflexivity.
Qed.

Lemma mock_retrieve_stored (self : MockRetriever.t) (query doc_id : string)
    (top_k : Z) (w : World) (embs : list vector) (md : Metadata) :
  files w !! os_path_join (MockRetriever.embeddings_dir self)
               (doc_id +:+ "_embeddings.pkl") = Some (PickleFile embs) ->
  files w !! os_path_join (MockRetriever.embeddings_dir self)
               (doc_id +:+ "_metadata.json") = Some (JsonFile md) ->
  Forall (fun e => length e = 384%nat) embs ->
  MockRetriever.retrieve self query doc_id top_k w
  = (Return (ranked None (md_chunks md) (seeded_vector (md5_seed query) 384)
               embs top_k),
     set_np_random (seeded_state (md5_seed query) 384) w).
Proof.
  intros He Hm Hdim. unfold MockRetriever.retrieve.
  unfold bind at 1. unfold os_path_exists.
  rewrite bool_decide_eq_true_2 by (rewrite He; eauto). cbn [negb].
  unfold bind at 1. unfold pickle_load. rewrite He.
  unfold bind at 1. unfold json_load. rewrite Hm.
  unfold bind at 1. rewrite mock_retriever_generate_run.
  unfold bind at 1. unfold MockRetriever.cosine_similarity.
  rewrite similarities_run
    by (now rewrite seeded_vector_length).
  apply (for_each_select None). apply top_indices_bound.
Qed.

End Runs.

(* ===================================================================== *)
(** * Computations that leave the files alone                            *)
(* ===================================================================== *)

Definition keeps_files {A} (m : M A) : Prop :=
  forall w, files (snd (m w)) = files w.

Lemma keeps_files_ret {A} (a : A) : keeps_files (ret a).
Proof. now intros w. Qed.

Lemma keeps_files_raise {A} (e : Exception) : keeps_files (@raise A e).
Proof. now intros w. Qed.

Lemma keeps_files_lift {A} (o : Outcome A) : keeps_files (lift o).
Proof. now intros w. Qed.

Lemma keeps_files_bind {A B} (m : M A) (k : A -> M B) :
  keeps_files m -> (forall a, keeps_files (k a)) -> keeps_files (bind m k).
Proof.
  intros Hm Hk w. unfold bind. specialize (Hm w).
  destruct (m w) as [[a|e] w']; simpl in *; [|assumption].
  now rewrite Hk.
Qed.

Lemma keeps_files_try_except {A} (m : M A) (handler : Exception -> M A) :
  keeps_files m -> (forall e, keeps_files (handler e)) ->
  keeps_files (try_except m handler).
Proof.
  intros Hm Hh w. unfold try_except. specialize (Hm w).
  destruct (m w) as [[a|e] w']; simpl in *; [assumption|].
  now rewrite Hh.
Qed.

Lemma keeps_files_for_each {A S} (xs : list A) (body : S -> A -> M S)
    (acc : S) :
  (forall s x, keeps_files (body s x)) -> keeps_files (for_each xs body acc).
Proof.
  intros Hb. revert acc. induction xs as [|x xs IH]; intros acc.
  - apply keeps_files_ret.
  - cbn [for_each]. apply keeps_files_bind; [apply Hb|apply IH].
Qed.

Lemma keeps_files_comprehension {A B} (f : A -> M B) (xs : list A) :
  (forall x, keeps_files (f x)) -> keeps_files (comprehension f xs).
Proof.
  intros Hf. induction xs as [|x xs IH].
  - apply keeps_files_ret.
  - cbn [comprehension]. apply keeps_files_bind; [apply Hf|intros y].
    apply keeps_files_bind; [apply IH|intros ys]. apply keeps_files_ret.
Qed.

Lemma keeps_files_if {A} (b : bool) (m1 m2 : M A) :
  keeps_files m1 -> keeps_files m2 -> keeps_files (if b then m1 else m2).
Proof. now destruct b. Qed.

Lemma keeps_files_os_path_exists (path : string) :
  keeps_files (os_path_exists path).
Proof. now intros w. Qed.

Lemma keeps_files_pickle_load (path : string) : keeps_files (pickle_load path).
Proof.
  intros w. unfold pickle_load. now destruct (files w !! path) as [[?|?]|].
Qed.

Lemma keeps_files_json_load (path : string) : keeps_files (json_load path).
Proof.
  intros w. unfold json_load. now destruct (files w !! path) as [[?|?]|].
Qed.

Lemma keeps_files_py_index {A} (l : list A) (i : nat) :
  keeps_files (py_index l i).
Proof. intros w. unfold py_index. now destruct (l !! i). Qed.

Lemma keeps_files_time_time : keeps_files time_time.
Proof. now intros w. Qed.

Lemma keeps_files_in_environ (name : string) : keeps_files (in_environ name).
Proof. now intros w. Qed.

Lemma keeps_files_print (msg : string) : keeps_files (print msg).
Proof. now intros w. Qed.

Section KeepsFiles.
Context `{FloatOps} `{NumPy} `{LangChainEmbeddings} `{BuiltinHash}
        `{TextSplitting}.

Lemma keeps_files_seed (s : Z) : keeps_files (seed s).
Proof. now intros w. Qed.

Lemma keeps_files_randn (dim : nat) : keeps_files (randn dim).
Proof.
  intros w. unfold randn. now destruct (np_random_randn dim (np_random w)).
Qed.

Lemma keeps_files_dot (a b : vector) : keeps_files (dot a b).
Proof. intros w. unfold dot. now destruct (length a =? length b)%nat. Qed.

Lemma keeps_files_builtin_hash (text : string) :
  keeps_files (builtin_hash text).
Proof. now intros w. Qed.

Lemma keeps_files_embed_query_external (m : ExternalModel) (text : string) :
  keeps_files (embed_query_external m text).
Proof. now intros w. Qed.

Lemma keeps_files_embed_documents_external (m : ExternalModel)
    (texts : list string) :
  keeps_files (embed_documents_external m texts).
Proof. now intros w. Qed.

End KeepsFiles.

Create HintDb keeps_files.
#[export] Hint Resolve keeps_files_ret keeps_files_raise keeps_files_lift
  keeps_files_os_path_exists keeps_files_pickle_load keeps_files_json_load
  keeps_files_py_index keeps_files_time_time keeps_files_in_environ
  keeps_files_print keeps_files_seed keeps_files_randn keeps_files_dot
  keeps_files_builtin_hash keeps_files_embed_query_external
  keeps_files_embed_documents_external : keeps_files.

Ltac keeps_files :=
  repeat first
    [ progress auto with keeps_files
    | apply keeps_files_bind; [|intros ?]
    | apply keeps_files_try_except; [|intros ?]
    | apply keeps_files_for_each; intros ? ?
    | apply keeps_files_comprehension; intros ?
    | apply keeps_files_if
    | match goal with
      | |- keeps_files (match ?o with _ => _ end) => destruct o
      end ].

Section KeepsFilesCode.
Context `{FloatOps} `{NumPy} `{LangChainEmbeddings} `{BuiltinHash}
        `{TextSplitting}.

Lemma keeps_files_embed_query (self : EnhancedEmbeddingsManager.t)
    (text : string) :
  keeps_files (EnhancedEmbeddingsManager.embed_query self text).
Proof.
  unfold EnhancedEmbeddingsManager.embed_query,
    EnhancedEmbeddingsManager._generate_mock_embedding.
  keeps_files.
Qed.

Lemma keeps_files_embed_documents (self : EnhancedEmbeddingsManager.t)
    (texts : list string) :
  keeps_files (EnhancedEmbeddingsManager.embed_documents self texts).
Proof.
  unfold EnhancedEmbeddingsManager.embed_documents,
    EnhancedEmbeddingsManager._generate_mock_embedding.
  keeps_files.
Qed.

Lemma keeps_files_retrieve_from_single_doc (self : MultiDocRetriever.t)
    (query doc_id : string) (top_k : Z) :
  keeps_files (MultiDocRetriever.retrieve_from_single_doc self query doc_id top_k).
Proof.
  unfold MultiDocRetriever.retrieve_from_single_doc,
    MultiDocRetriever.cosine_similarity.
  pose proof keeps_files_embed_query.
  keeps_files.
Qed.

End KeepsFilesCode.

Section RetrieverRuns.
Context `{FloatOps} `{NumPy} `{LangChainEmbeddings} `{BuiltinHash}
        `{TextSplitting}.


Lemma single_doc_stored (self : MultiDocRetriever.t) (query doc_id : string)
    (top_k : Z) (w w1 : World) (embs : list vector) (md : Metadata)
    (qe : vector) :
  files w !! os_path_join (MultiDocRetriever.embeddings_dir self)
               (doc_id +:+ "_embeddings.pkl") = Some (PickleFile embs) ->
  files w !! os_path_join (MultiDocRetriever.embeddings_dir self)
               (doc_id +:+ "_metadata.json") = Some (JsonFile md) ->
  EnhancedEmbeddingsManager.embed_query
    (MultiDocRetriever.embeddings_manager self) query w = (Return qe, w1) ->
  Forall (fun e => length e = length qe) embs ->
  MultiDocRetriever.retrieve_from_single_doc self query doc_id top_k w
  = (Return (ranked (Some doc_id) (md_chunks md) qe embs top_k), w1).
Proof.
  intros He Hm Hq Hdim. unfold MultiDocRetriever.retrieve_from_single_doc.
  unfold bind at 1. unfold os_path_exists.
  rewrite bool_decide_eq_true_2 by (rewrite He; eauto). cbn [negb].
  unfold bind at 1. unfold pickle_load. rewrite He.
  unfold bind at 1. unfold json_load. rewrite Hm.
  unfold bind at 1. rewrite Hq.
  unfold bind at 1. unfold MultiDocRetriever.cosine_similarity.
  rewrite similarities_run by assumption.
  apply (for_each_select (Some doc_id)). apply top_indices_bound.
Qed.

(** The three retrievers look for the pickled vectors first. *)
Lemma mock_retrieve_missing (self : MockRetriever.t) (query doc_id : string)
    (top_k : Z) (w : World) :
  files w !! os_path_join (MockRetriever.embeddings_dir self)
               (doc_id +:+ "_embeddings.pkl") = None ->
  MockRetriever.retrieve self query doc_id top_k w
  = (Raise (ValueError ("No embeddings found for document " +:+ doc_id)), w).
Proof.
  intros He. unfold MockRetriever.retrieve.
  unfold bind at 1. unfold os_path_exists.
  rewrite bool_decide_eq_false_2; [reflexivity|].
  rewrite He. now intros [x Hx].
Qed.

Lemma simple_retrieve_missing (self : SimpleRetriever.t) (query doc_id : string)
    (top_k : Z) (w : World) :
  files w !! os_path_join (SimpleRetriever.embeddings_dir self)
               (doc_id +:+ "_embeddings.pkl") = None ->
  SimpleRetriever.retrieve self query doc_id top_k w
  = (Raise (ValueError ("No embeddings found for document " +:+ doc_id)), w).
Proof.
  intros He. unfold SimpleRetriever.retrieve.
  unfold bind at 1. unfold os_path_exists.
  rewrite bool_decide_eq_false_2; [reflexivity|].
  rewrite He. now intros [x Hx].
Qed.

Lemma single_doc_missing (self : MultiDocRetriever.t) (query doc_id : string)
    (top_k : Z) (w : World) :
  files w !! os_path_join (MultiDocRetriever.embeddings_dir self)
               (doc_id +:+ "_embeddings.pkl") = None ->
  MultiDocRetriever.retrieve_from_single_doc self query doc_id top_k w
  = (Raise (ValueError ("No embeddings found for document " +:+ doc_id)), w).
Proof.
  intros He. unfold MultiDocRetriever.retrieve_from_single_doc.
  unfold bind at 1. unfold os_path_exists.
  rewrite bool_decide_eq_false_2; [reflexivity|].
  rewrite He. now intros [x Hx].
Qed.

(** ** The loop of [retrieve_from_multiple_docs] *)

Definition collect (self : MultiDocRetriever.t) (query : string) (top_k : Z)
    (doc_ids : list string) (acc : list Hit.t) : M (list Hit.t) :=
  for_each doc_ids
    (fun all_results doc_id =>
       try_except
         (do results <-
            MultiDocRetriever.retrieve_from_single_doc self query doc_id top_k;
          ret (all_results ++ results))
         (fun e =>
            do _ <- print ("Error retrieving from " +:+ doc_id +:+ ": "
                           +:+ exception_str e);
            ret all_results))
    acc.

(** The local result lists of the documents whose retrieval returns, each
    retrieval running in the world the one before it left. *)
Fixpoint local_results (self : MultiDocRetriever.t) (query : string)
    (top_k : Z) (doc_ids : list string) (w : World)
  : list (list Hit.t) * World :=
  match doc_ids with
  | [] => ([], w)
  | doc_id :: rest =>
      match MultiDocRetriever.retrieve_from_single_doc self query doc_id top_k w
      with
      | (Return results, w') =>
          let '(others, final) := local_results self query top_k rest w' in
          (results :: others, final)
      | (Raise _, w') => local_results self query top_k rest w'
      end
  end.

Lemma collect_step (self : MultiDocRetriever.t) (query : string) (top_k : Z)
    (doc_id : string) (rest : list string) (acc : list Hit.t) (w : World) :
  collect self query top_k (doc_id :: rest) acc w
  = match MultiDocRetriever.retrieve_from_single_doc self query doc_id top_k w
    with
    | (Return results, w') => collect self query top_k rest (acc ++ results) w'
    | (Raise _, w') => collect self query top_k rest acc w'
    end.
Proof.
  unfold collect. cbn [for_each]. unfold bind at 1, try_except, bind at 1.
  now destruct (MultiDocRetriever.retrieve_from_single_doc _ _ _ _ w)
    as [[results|e] w'].
Qed.

Lemma collect_local_results (self : MultiDocRetriever.t) (query : string)
    (top_k : Z) (doc_ids : list string) (acc : list Hit.t) (w : World) :
  collect self query top_k doc_ids acc w
  = (Return (acc ++ concat (fst (local_results self query top_k doc_ids w))),
     snd (local_results self query top_k doc_ids w)).
Proof.
  revert acc w. induction doc_ids as [|doc_id rest IH]; intros acc w.
  - unfold collect. simpl. unfold ret. now rewrite app_nil_r.
  - rewrite collect_step. cbn [local_results].
    destruct (MultiDocRetriever.retrieve_from_single_doc _ _ _ _ w)
      as [[results|e] w']; rewrite IH.
    + destruct (local_results self query top_k rest w') as [others final].
      simpl. now rewrite app_assoc.
    + reflexivity.
Qed.

Lemma collect_keeps_files (self : MultiDocRetriever.t) (query : string)
    (top_k : Z) (doc_ids : list string) (acc : list Hit.t) :
  keeps_files (collect self query top_k doc_ids acc).
Proof.
  unfold collect. pose proof keeps_files_retrieve_from_single_doc.
  keeps_files.
Qed.

Lemma collect_skips_missing (self : MultiDocRetriever.t) (query : string)
    (top_k : Z) (before after : list string) (doc_id : string)
    (acc : list Hit.t) (w : World) :
  files w !! os_path_join (MultiDocRetriever.embeddings_dir self)
               (doc_id +:+ "_embeddings.pkl") = None ->
  collect self query top_k (before ++ doc_id :: after) acc w
  = collect self query top_k (before ++ after) acc w.
Proof.
  revert acc w. induction before as [|x before IH]; intros acc w Hmiss.
  - cbn [app]. rewrite collect_step.
    now rewrite single_doc_missing by assumption.
  - cbn [app]. rewrite !collect_step.
    pose proof (keeps_files_retrieve_from_single_doc self query x top_k w)
      as Hkeep.
    destruct (MultiDocRetriever.retrieve_from_single_doc _ _ _ _ w)
      as [[results|e] w']; simpl in Hkeep;
      apply IH; now rewrite Hkeep.
Qed.


Lemma multiple_docs_collect (self : MultiDocRetriever.t) (query : string)
    (doc_ids : list string) (top_k : Z) (w : World) :
  MultiDocRetriever.retrieve_from_multiple_docs self query doc_ids top_k w
  = match collect self query top_k doc_ids [] w with
    | (Return all_results, w') =>
        (Return (py_slice_to top_k (sort_by_score_reverse all_results)), w')
    | (Raise e, w') => (Raise e, w')
    end.
Proof. reflexivity. Qed.

End RetrieverRuns.

(* ===================================================================== *)
(** * Concrete stores                                                    *)
(* ===================================================================== *)

(** Stores built by running [embed_chunks] of this file on the reference
    instances, in a process started with [PYTHONHASHSEED=seed]. *)
Module Example.
Import Reference.

Definition fresh (seed : Z) : World :=
  {| files := ∅;
     environ := ∅;
     np_random := [];
     hash_secret := CPython.hash_secret_of_seed seed;
     clock := fun n => inject_Z (Z.of_nat n);
     ticks := 0;
     provider_calls := 0 |}.

Definition page (text : string) : Document :=
  {| page_content := text; metadata := [("source", "note.pdf")] |}.

Definition manager : MockEmbeddingsManager.t :=
  {| MockEmbeddingsManager.embeddings_dir := "data/embeddings" |}.

Definition retriever : MockRetriever.t :=
  {| MockRetriever.embeddings_dir := "data/embeddings" |}.

Definition enhanced : EnhancedEmbeddingsManager.t :=
  {| EnhancedEmbeddingsManager.embeddings_dir := "data/embeddings";
     EnhancedEmbeddingsManager.provider := "mock";
     EnhancedEmbeddingsManager.embeddings := None;
     EnhancedEmbeddingsManager.model_name := "mock_embeddings";
     EnhancedEmbeddingsManager.embedding_dim := 384;
     EnhancedEmbeddingsManager.cost_per_1k_tokens := 0;
     EnhancedEmbeddingsManager.total_tokens := 0;
     EnhancedEmbeddingsManager.total_cost := 0 |}.

Definition multi : MultiDocRetriever.t :=
  {| MultiDocRetriever.embeddings_dir := "data/embeddings";
     MultiDocRetriever.embeddings_manager := enhanced |}.

Definition no_metadata : Metadata :=
  {| md_doc_id := ""; md_chunk_count := 0; md_embedding_model := "";
     md_embedding_provider := None; md_chunks := []; md_processing_time := 0;
     md_token_count := None; md_estimated_cost := None |}.

Definition vectors_of (w : World) (doc_id : string) : list vector :=
  match files w !! os_path_join "data/embeddings" (doc_id +:+ "_embeddings.pkl")
  with
  | Some (PickleFile embs) => embs
  | _ => []
  end.

Definition metadata_of (w : World) (doc_id : string) : Metadata :=
  match files w !! os_path_join "data/embeddings" (doc_id +:+ "_metadata.json")
  with
  | Some (JsonFile md) => md
  | _ => no_metadata
  end.

(** A note whose two chunks have the same text. *)
Definition duplicated : World :=
  snd (MockEmbeddingsManager.embed_chunks manager
         [page "Take with food."; page "Take with food."] "note_1" (fresh 1)).

Definition duplicated_vectors : list vector :=
  Eval vm_compute in vectors_of duplicated "note_1".

Definition duplicated_metadata : Metadata :=
  Eval vm_compute in metadata_of duplicated "note_1".

(** A note of three chunks whose metadata file is the one of an earlier
    embedding of its first two chunks. *)
Definition earlier_metadata : Metadata :=
  Eval vm_compute in
    metadata_of
      (snd (MockEmbeddingsManager.embed_chunks manager
              [page "Fever for three days."; page "Chest X-ray clear."]
              "note_2" (fresh 1)))
      "note_2".

Definition misaligned : World :=
  snd (json_dump earlier_metadata "data/embeddings/note_2_metadata.json"
         (snd (MockEmbeddingsManager.embed_chunks manager
                 [page "Fever for three days."; page "Chest X-ray clear.";
                  page "Discharged on day four."]
                 "note_2" (fresh 1)))).

Definition misaligned_vectors : list vector :=
  Eval vm_compute in vectors_of misaligned "note_2".


End Example.

(* ===================================================================== *)
(** * Single-document retrieval                                          *)
(* ===================================================================== *)


(** C5: with no pickled vectors for the document, [retrieve] of
    [SimpleRetriever] and of [MockRetriever] raises
    [ValueError("No embeddings found for document <doc_id>")], whatever the
    query and [top_k]; in particular it does not return the empty list. *)
Theorem retrieve_missing_record_raises
    {FO : FloatOps} {NP : NumPy} {LE : LangChainEmbeddings} :
  (forall (self : SimpleRetriever.t) (query doc_id : string) (top_k : Z)
          (w : World),
      files w !! os_path_join (SimpleRetriever.embeddings_dir self)
                   (doc_id +:+ "_embeddings.pkl") = None ->
      SimpleRetriever.retrieve self query doc_id top_k w
      = (Raise (ValueError ("No embeddings found for document " +:+ doc_id)), w)
      /\ fst (SimpleRetriever.retrieve self query doc_id top_k w) <> Return [])
  /\
  (forall (self : MockRetriever.t) (query doc_id : string) (top_k : Z)
          (w : World),
      files w !! os_path_join (MockRetriever.embeddings_dir self)
                   (doc_id +:+ "_embeddings.pkl") = None ->
      MockRetriever.retrieve self query doc_id top_k w
      = (Raise (ValueError ("No embeddings found for document " +:+ doc_id)), w)
      /\ fst (MockRetriever.retrieve self query doc_id top_k w) <> Return []).
Proof.
  split; intros self query doc_id top_k w Hmiss.
  - rewrite simple_retrieve_missing by assumption.
    split; [reflexivity|simpl; discriminate].
  - rewrite mock_retrieve_missing by assumption.
    split; [reflexivity|simpl; discriminate].
Qed.

(** C7: for a stored document whose metadata list is as long as its list of
    vectors, and [top_k >= 1] larger than the number of chunks, [retrieve]
    of [MockRetriever] returns, with one result per stored chunk: fewer
    than [top_k] results, and no error. *)
Theorem retrieve_top_k_exceeds_chunk_count
    {FO : FloatOps} {NP : NumPy}
    (self : MockRetriever.t) (query doc_id : string) (top_k : Z)
    (w : World) (embs : list vector) (md : Metadata) :
  files w !! os_path_join (MockRetriever.embeddings_dir self)
               (doc_id +:+ "_embeddings.pkl") = Some (PickleFile embs) ->
  files w !! os_path_join (MockRetriever.embeddings_dir self)
               (doc_id +:+ "_metadata.json") = Some (JsonFile md) ->
  Forall (fun e => length e = 384%nat) embs ->
  length (md_chunks md) = length embs ->
  (1 <= top_k)%Z ->
  (Z.of_nat (length (md_chunks md)) < top_k)%Z ->
  exists res w',
    MockRetriever.retrieve self query doc_id top_k w = (Return res, w')
    /\ Permutation (map chunk_of_hit res) (md_chunks md)
    /\ length res = length (md_chunks md)
    /\ (Z.of_nat (length res) < top_k)%Z.
Proof.
  intros He Hm Hdim Hlen Hk Hn.
  eexists _, _. split; [eapply mock_retrieve_stored; eassumption|].
  assert (Hperm : Permutation
            (map chunk_of_hit
               (ranked None (md_chunks md)
                  (seeded_vector (md5_seed query) 384) embs top_k))
            (md_chunks md)) by (apply ranked_all; lia).
  split; [exact Hperm|].
  apply Permutation_length in Hperm. rewrite length_map in Hperm.
  split; [exact Hperm|lia].
Qed.

(** C10: whatever the lengths of the two stored lists, so also when the
    list of vectors is the longer one, [retrieve] of [MockRetriever] and
    [retrieve_from_single_doc] return without an error; the results are
    those of the selected indices in their order, an index being left out
    exactly when it is outside the metadata list; there are at most
    [top_k] of them. *)
Theorem retrieve_skips_indices_outside_metadata
    {FO : FloatOps} {NP : NumPy} {LE : LangChainEmbeddings} {BH : BuiltinHash} :
  (forall (self : MockRetriever.t) (query doc_id : string) (top_k : Z)
          (w : World) (embs : list vector) (md : Metadata),
      files w !! os_path_join (MockRetriever.embeddings_dir self)
                   (doc_id +:+ "_embeddings.pkl") = Some (PickleFile embs) ->
      files w !! os_path_join (MockRetriever.embeddings_dir self)
                   (doc_id +:+ "_metadata.json") = Some (JsonFile md) ->
      Forall (fun e => length e = 384%nat) embs ->
      (length (md_chunks md) < length embs)%nat ->
      (1 <= top_k)%Z ->
      let sims := map (cosine (seeded_vector (md5_seed query) 384)) embs in
      exists res w',
        MockRetriever.retrieve self query doc_id top_k w = (Return res, w')
        /\ res = omap (hit_at None (md_chunks md) sims) (top_indices sims top_k)
        /\ (forall idx, In idx (top_indices sims top_k) ->
              (hit_at None (md_chunks md) sims idx = None
               <-> (length (md_chunks md) <= idx)%nat))
        /\ (Z.of_nat (length res) <= top_k)%Z)
  /\
  (forall (self : MultiDocRetriever.t) (query doc_id : string) (top_k : Z)
          (w w1 : World) (embs : list vector) (md : Metadata) (qe : vector),
      files w !! os_path_join (MultiDocRetriever.embeddings_dir self)
                   (doc_id +:+ "_embeddings.pkl") = Some (PickleFile embs) ->
      files w !! os_path_join (MultiDocRetriever.embeddings_dir self)
                   (doc_id +:+ "_metadata.json") = Some (JsonFile md) ->
      EnhancedEmbeddingsManager.embed_query
        (MultiDocRetriever.embeddings_manager self) query w = (Return qe, w1) ->
      Forall (fun e => length e = length qe) embs ->
      (length (md_chunks md) < length embs)%nat ->
      (1 <= top_k)%Z ->
      let sims := map (cosine qe) embs in
      exists res w',
        MultiDocRetriever.retrieve_from_single_doc self query doc_id top_k w
        = (Return res, w')
        /\ res = omap (hit_at (Some doc_id) (md_chunks md) sims)
                      (top_indices sims top_k)
        /\ (forall idx, In idx (top_indices sims top_k) ->
              (hit_at (Some doc_id) (md_chunks md) sims idx = None
               <-> (length (md_chunks md) <= idx)%nat))
        /\ (Z.of_nat (length res) <= top_k)%Z).
Proof.
  split.
  - intros self query doc_id top_k w embs md He Hm Hdim _ Hk sims.
    eexists _, _. split; [eapply mock_retrieve_stored; eassumption|].
    split; [reflexivity|]. split; [intros idx; apply ranked_skips|].
    now apply ranked_length.
  - intros self query doc_id top_k w w1 embs md qe He Hm Hq Hdim _ Hk sims.
    eexists _, _. split; [eapply single_doc_stored; eassumption|].
    split; [reflexivity|]. split; [intros idx; apply ranked_skips|].
    now apply ranked_length.
Qed.

(* ===================================================================== *)
(** * Multi-document retrieval                                           *)
(* ===================================================================== *)






(* ===================================================================== *)
(** * Writing a record                                                   *)
(* ===================================================================== *)

Lemma file_lookup_insert_eq (fs : FileSystem) (path : string) (f : File) :
  <[path := f]> fs !! path = Some f.
Proof.
  unfold insert, lookup, file_system_insert, file_system_lookup, write_file.
  simpl. now rewrite String.eqb_refl.
Qed.

Lemma file_lookup_insert_ne (fs : FileSystem) (path path' : string) (f : File) :
  path <> path' -> <[path := f]> fs !! path' = fs !! path'.
Proof.
  intros Hne.
  unfold insert, lookup, file_system_insert, file_system_lookup, write_file.
  simpl. now destruct (String.eqb_spec path path').
Qed.

Lemma append_inj_l (p a b : string) : p +:+ a = p +:+ b -> a = b.
Proof.
  induction p as [|c p IH]; simpl; intros Heq; [assumption|].
  injection Heq as Heq. now apply IH.
Qed.

Lemma startswith_sep_append (doc_id : string) :
  startswith_sep (doc_id +:+ "_embeddings.pkl")
  = startswith_sep (doc_id +:+ "_metadata.json").
Proof. now destruct doc_id. Qed.

(** The two files of a document have different paths. *)
Lemma record_paths_differ (dir doc_id : string) :
  os_path_join dir (doc_id +:+ "_embeddings.pkl")
  <> os_path_join dir (doc_id +:+ "_metadata.json").
Proof.
  unfold os_path_join. rewrite startswith_sep_append.
  destruct (startswith_sep _); [|destruct (_ || _)]; intros Heq;
    repeat (apply append_inj_l in Heq); discriminate.
Qed.

Lemma bind_inv {A B} (m : M A) (k : A -> M B) (b : B) (w w' : World) :
  bind m k w = (Return b, w') ->
  exists a w1, m w = (Return a, w1) /\ k a w1 = (Return b, w').
Proof.
  unfold bind. destruct (m w) as [[a|e] w1]; [eauto|discriminate].
Qed.

Lemma comprehension_length {A B} (f : A -> M B) (xs : list A) (ys : list B)
    (w w' : World) :
  comprehension f xs w = (Return ys, w') -> length ys = length xs.
Proof.
  revert ys w w'. induction xs as [|x xs IH]; intros ys w w' Hrun.
  - injection Hrun as <- _. reflexivity.
  - cbn [comprehension] in Hrun.
    apply bind_inv in Hrun as (y & w1 & _ & Hrun).
    apply bind_inv in Hrun as (ys' & w2 & Hys & Hrun).
    injection Hrun as <- _. simpl. f_equal. now apply (IH ys' w1 w2).
Qed.

Lemma comprehension_returns {A B} (f : A -> M B) (xs : list A) :
  (forall x w, exists y w', f x w = (Return y, w')) ->
  forall w, exists ys w', comprehension f xs w = (Return ys, w').
Proof.
  intros Hf. induction xs as [|x xs IH]; intros w.
  - eexists _, _. reflexivity.
  - destruct (Hf x w) as (y & w1 & Hy). destruct (IH w1) as (ys & w2 & Hys).
    exists (y :: ys), w2. cbn [comprehension].
    rewrite (bind_return _ _ _ _ _ Hy), (bind_return _ _ _ _ _ Hys).
    reflexivity.
Qed.

(** The record [embed_chunks] leaves for [doc_id]: as many vectors as
    chunks, as many metadata entries, the recorded count, and at index [i]
    the entry of chunk [i]. *)
Definition aligned_record (w : World) (dir doc_id : string)
    (chunks : list Document) : Prop :=
  exists embs md,
    files w !! os_path_join dir (doc_id +:+ "_embeddings.pkl")
    = Some (PickleFile embs)
    /\ files w !! os_path_join dir (doc_id +:+ "_metadata.json")
       = Some (JsonFile md)
    /\ length embs = length chunks
    /\ length (md_chunks md) = length chunks
    /\ md_chunk_count md = length chunks
    /\ forall i chunk,
         chunks !! i = Some chunk ->
         md_chunks md !! i
         = Some {| ChunkEntry.chunk_id := i;
                   ChunkEntry.content := page_content chunk;
                   ChunkEntry.metadata := metadata chunk |}.

Lemma chunk_entries_lookup (chunks : list Document) (i : nat)
    (chunk : Document) :
  chunks !! i = Some chunk ->
  imap (fun i chunk =>
          {| ChunkEntry.chunk_id := i;
             ChunkEntry.content := page_content chunk;
             ChunkEntry.metadata := metadata chunk |}) chunks !! i
  = Some {| ChunkEntry.chunk_id := i;
            ChunkEntry.content := page_content chunk;
            ChunkEntry.metadata := metadata chunk |}.
Proof. intros Hc. now rewrite list_lookup_imap, Hc. Qed.

Section Writing.
Context `{FloatOps} `{NumPy} `{LangChainEmbeddings} `{BuiltinHash}
        `{TextSplitting}.

Lemma embed_documents_length_eq (self : EnhancedEmbeddingsManager.t)
    (texts : list string) (vs : list vector) (w w' : World) :
  EnhancedEmbeddingsManager.embed_documents self texts w = (Return vs, w') ->
  length vs = length texts.
Proof.
  unfold EnhancedEmbeddingsManager.embed_documents.
  destruct (String.eqb _ "mock").
  - apply comprehension_length.
  - destruct (EnhancedEmbeddingsManager.embeddings self) as [model|];
      [|discriminate].
    unfold embed_documents_external. intros [= Hcall _].
    now apply embed_documents_length in Hcall.
Qed.

Lemma embed_documents_mock_returns (self : EnhancedEmbeddingsManager.t)
    (texts : list string) (w : World) :
  EnhancedEmbeddingsManager.provider self = "mock" ->
  exists vs w',
    EnhancedEmbeddingsManager.embed_documents self texts w = (Return vs, w').
Proof.
  intros Hp. unfold EnhancedEmbeddingsManager.embed_documents. rewrite Hp.
  cbn [String.eqb Ascii.eqb Bool.eqb]. apply comprehension_returns.
  intros text w0. rewrite enhanced_generate_run. eauto.
Qed.

End Writing.

Section WritingRecords.
Context `{FloatOps} `{NumPy} `{LangChainEmbeddings} `{BuiltinHash}
        `{TextSplitting}.

Lemma mock_embed_chunks_aligned (self : MockEmbeddingsManager.t)
    (chunks : list Document) (doc_id : string) (w : World) :
  exists res w',
    MockEmbeddingsManager.embed_chunks self chunks doc_id w = (Return res, w')
    /\ aligned_record w' (MockEmbeddingsManager.embeddings_dir self) doc_id chunks.
Proof.
  destruct (comprehension_returns
              (fun text => MockEmbeddingsManager._generate_mock_embedding text 384)
              (map page_content chunks)
              ltac:(intros; cbv beta; rewrite mock_manager_generate_run; eauto)
              (set_ticks (S (ticks w)) w)) as (embs & w1 & Hembs).
  unfold MockEmbeddingsManager.embed_chunks.
  unfold bind at 1. unfold time_time at 1.
  rewrite (bind_return _ _ _ _ _ Hembs).
  unfold bind, pickle_dump, time_time, json_dump, ret.
  eexists _, _. split; [reflexivity|].
  exists embs. eexists. cbn [files set_files set_ticks md_chunks md_chunk_count].
  rewrite file_lookup_insert_ne by (apply not_eq_sym, record_paths_differ).
  rewrite !file_lookup_insert_eq.
  split; [reflexivity|]. split; [reflexivity|].
  split; [rewrite (comprehension_length _ _ _ _ _ Hembs); apply length_map|].
  split; [apply length_imap|]. split; [reflexivity|].
  apply chunk_entries_lookup.
Qed.

Lemma enhanced_embed_chunks_aligned (self self' : EnhancedEmbeddingsManager.t)
    (chunks : list Document) (doc_id : string) (res : EmbedResult)
    (w w' : World) :
  EnhancedEmbeddingsManager.embed_chunks self chunks doc_id w
  = (Return (self', res), w') ->
  aligned_record w' (EnhancedEmbeddingsManager.embeddings_dir self) doc_id chunks.
Proof.
  unfold EnhancedEmbeddingsManager.embed_chunks. intros Hrun.
  apply bind_inv in Hrun as (start_time & w1 & _ & Hrun).
  apply bind_inv in Hrun as ([self0 token_count] & w2 & Husage & Hrun).
  assert (Hdir : EnhancedEmbeddingsManager.embeddings_dir self0
                 = EnhancedEmbeddingsManager.embeddings_dir self).
  { destruct (String.eqb (EnhancedEmbeddingsManager.provider self) "openai").
    - apply bind_inv in Husage as (chunker & w1' & _ & Husage).
      apply bind_inv in Husage as (token_counts & w1'' & _ & Husage).
      now injection Husage as <- _ _.
    - now injection Husage as <- _ _. }
  cbv beta iota in Hrun.
  apply bind_inv in Hrun as (embeddings & w3 & Hemb & Hrun).
  apply embed_documents_length_eq in Hemb.
  rewrite Hdir in Hrun.
  unfold bind, pickle_dump, time_time, json_dump, ret in Hrun.
  injection Hrun as _ _ <-.
  exists embeddings. eexists.
  cbn [files set_files set_ticks md_chunks md_chunk_count].
  rewrite file_lookup_insert_ne by (apply not_eq_sym, record_paths_differ).
  rewrite !file_lookup_insert_eq.
  split; [reflexivity|]. split; [reflexivity|].
  split; [rewrite Hemb; apply length_map|].
  split; [apply length_imap|]. split; [reflexivity|].
  apply chunk_entries_lookup.
Qed.

Lemma enhanced_embed_chunks_mock_returns (self : EnhancedEmbeddingsManager.t)
    (chunks : list Document) (doc_id : string) (w : World) :
  EnhancedEmbeddingsManager.provider self = "mock" ->
  exists self' res w',
    EnhancedEmbeddingsManager.embed_chunks self chunks doc_id w
    = (Return (self', res), w').
Proof.
  intros Hp. unfold EnhancedEmbeddingsManager.embed_chunks.
  rewrite Hp. cbn [String.eqb Ascii.eqb Bool.eqb].
  unfold bind at 1. unfold time_time at 1.
  unfold bind at 1. unfold ret at 1.
  destruct (embed_documents_mock_returns self (map page_content chunks)
              (set_ticks (S (ticks w)) w) Hp) as (vs & w1 & Hvs).
  rewrite (bind_return _ _ _ _ _ Hvs).
  unfold bind, pickle_dump, time_time, json_dump, ret.
  eexists _, _, _. reflexivity.
Qed.
End WritingRecords.

(** C9: [embed_chunks] of [MockEmbeddingsManager] always returns, and so
    does [embed_chunks] of [EnhancedEmbeddingsManager] with the mock
    provider; whenever [embed_chunks] returns, the record it has written for
    [doc_id] has as many vectors as chunks and as many metadata entries,
    [chunk_count] is that number, and the entry at index [i] has
    [chunk_id = i] and the content and metadata of chunk [i]. *)
Theorem embed_chunks_writes_aligned_record
    {FO : FloatOps} {NP : NumPy} {LE : LangChainEmbeddings} {BH : BuiltinHash}
    {TS : TextSplitting} :
  (forall (self : MockEmbeddingsManager.t) (chunks : list Document)
          (doc_id : string) (w : World),
      exists res w',
        MockEmbeddingsManager.embed_chunks self chunks doc_id w
        = (Return res, w')
        /\ aligned_record w' (MockEmbeddingsManager.embeddings_dir self)
             doc_id chunks)
  /\
  (forall (self : EnhancedEmbeddingsManager.t) (chunks : list Document)
          (doc_id : string) (w : World),
      EnhancedEmbeddingsManager.provider self = "mock" ->
      exists self' res w',
        EnhancedEmbeddingsManager.embed_chunks self chunks doc_id w
        = (Return (self', res), w')
        /\ aligned_record w' (EnhancedEmbeddingsManager.embeddings_dir self)
             doc_id chunks)
  /\
  (forall (self self' : EnhancedEmbeddingsManager.t) (chunks : list Document)
          (doc_id : string) (res : EmbedResult) (w w' : World),
      EnhancedEmbeddingsManager.embed_chunks self chunks doc_id w
      = (Return (self', res), w') ->
      aligned_record w' (EnhancedEmbeddingsManager.embeddings_dir self)
        doc_id chunks).
Proof.
  split; [|split].
  - apply mock_embed_chunks_aligned.
  - intros self chunks doc_id w Hp.
    destruct (enhanced_embed_chunks_mock_returns self chunks doc_id w Hp)
      as (self' & res & w' & Hrun).
    exists self', res, w'. split; [exact Hrun|].
    now apply (enhanced_embed_chunks_aligned self self' chunks doc_id res w w').
  - apply enhanced_embed_chunks_aligned.
Qed.

(* ===================================================================== *)
(** * The chunker                                                        *)
(* ===================================================================== *)

(** [TextChunker] checks nothing itself: its constructor raises exactly
    when the constructor of the splitter does, with the same exception and
    before any chunking.  With a chunk size of 0 or less that is a
    [ValueError] whenever the overlap is larger than the chunk size, as it
    is with the default overlap of 200; what happens to a chunk size of 0
    or less with a smaller overlap is up to the release of langchain in
    use, and is not settled here. *)
Lemma chunker_raises_what_the_splitter_raises {TS : TextSplitting} :
  (forall (chunk_size chunk_overlap : Z) (w : World),
      (chunk_size <= 0)%Z -> (chunk_overlap > chunk_size)%Z ->
      exists msg,
        TextChunker.__init__ chunk_size chunk_overlap w
        = (Raise (ValueError msg), w))
  /\
  (forall (chunk_size chunk_overlap : Z) (w : World) (e : Exception),
      RecursiveCharacterTextSplitter chunk_size chunk_overlap
        TextChunker._token_length [newline +:+ newline; newline; " "; ""]
      = Raise e ->
      TextChunker.__init__ chunk_size chunk_overlap w = (Raise e, w))
  /\
  (forall (chunk_size chunk_overlap : Z) (w : World) (splitter : Splitter),
      RecursiveCharacterTextSplitter chunk_size chunk_overlap
        TextChunker._token_length [newline +:+ newline; newline; " "; ""]
      = Return splitter ->
      TextChunker.__init__ chunk_size chunk_overlap w
      = (Return {| TextChunker.chunk_size := chunk_size;
                   TextChunker.chunk_overlap := chunk_overlap;
                   TextChunker.text_splitter := splitter |}, w)).
Proof.
  split; [|split].
  - intros chunk_size chunk_overlap w _ Hgt.
    destruct (overlap_larger_than_size chunk_size chunk_overlap
                TextChunker._token_length
                [newline +:+ newline; newline; " "; ""] Hgt) as [msg Hmsg].
    exists msg. unfold TextChunker.__init__, bind, lift. now rewrite Hmsg.
  - intros chunk_size chunk_overlap w e He.
    unfold TextChunker.__init__, bind, lift. now rewrite He.
  - intros chunk_size chunk_overlap w splitter Hs.
    unfold TextChunker.__init__, bind, lift. now rewrite Hs.
Qed.

(* ===================================================================== *)
(** * Determinism of the generators                                      *)
(* ===================================================================== *)

Section Determinism.
Context `{FloatOps} `{NumPy} `{LangChainEmbeddings} `{BuiltinHash}
        `{TextSplitting}.

(** The md5-based generators return the same vector in every world:
    whatever the state of NumPy's generator, the clock, the files and the
    hash secret of the process. *)
Lemma md5_generators_ignore_the_world (text : string) (dim : nat)
    (w1 w2 : World) :
  fst (MockEmbeddingsManager._generate_mock_embedding text dim w1)
  = fst (MockEmbeddingsManager._generate_mock_embedding text dim w2)
  /\ fst (MockRetriever._generate_mock_embedding text dim w1)
     = fst (MockRetriever._generate_mock_embedding text dim w2).
Proof.
  split.
  - now rewrite !mock_manager_generate_run.
  - now rewrite !mock_retriever_generate_run.
Qed.

(** The generator of [EnhancedEmbeddingsManager] returns the same vector in
    two worlds with the same hash secret, that is, within one process. *)
Lemma hash_generator_within_a_process (self : EnhancedEmbeddingsManager.t)
    (text : string) (w1 w2 : World) :
  hash_secret w1 = hash_secret w2 ->
  fst (EnhancedEmbeddingsManager._generate_mock_embedding self text w1)
  = fst (EnhancedEmbeddingsManager._generate_mock_embedding self text w2).
Proof. intros Hs. rewrite !enhanced_generate_run. simpl. now rewrite Hs. Qed.

End Determinism.

(* ===================================================================== *)
(** * The code on concrete stores                                        *)
(* ===================================================================== *)

Lemma Forall_length_check (n : nat) (l : list vector) :
  forallb (fun e => (length e =? n)%nat) l = true ->
  Forall (fun e => length e = n) l.
Proof.
  intros Hall. apply List.Forall_forall. intros e He.
  rewrite forallb_forall in Hall. now apply Nat.eqb_eq, Hall.
Qed.




Module Checks.
Import Reference.

(** C1, at the failing input: the text ["fever"] in two processes, started
    with [PYTHONHASHSEED=1] and [PYTHONHASHSEED=2].  The generator of
    [EnhancedEmbeddingsManager] seeds NumPy with 574445 in the first and with
    3206577 in the second, and returns different vectors; the md5-based
    generator returns the same vector in both. *)
Theorem hash_generator_differs_across_processes :
  hash_seed (CPython.hash_secret_of_seed 1) "fever" = 574445%Z
  /\ hash_seed (CPython.hash_secret_of_seed 2) "fever" = 3206577%Z
  /\ fst (EnhancedEmbeddingsManager._generate_mock_embedding
            Example.enhanced "fever" (Example.fresh 1))
     <> fst (EnhancedEmbeddingsManager._generate_mock_embedding
               Example.enhanced "fever" (Example.fresh 2))
  /\ fst (MockEmbeddingsManager._generate_mock_embedding "fever" 384
            (Example.fresh 1))
     = fst (MockEmbeddingsManager._generate_mock_embedding "fever" 384
              (Example.fresh 2)).
Proof.
  split; [vm_compute; reflexivity|]. split; [vm_compute; reflexivity|].
  split; [|apply md5_generators_ignore_the_world].
  intros Heq.
  apply (f_equal (fun o => match o with
                           | Return (x :: _) => Qnum x
                           | _ => 0%Z
                           end)) in Heq.
  vm_compute in Heq. discriminate Heq.
Qed.



(** C5 on a document that was never embedded. *)
Lemma retrieve_missing_record_raises_witness :
  MockRetriever.retrieve Example.retriever "x" "missing_doc" 3
    Example.duplicated
  = (Raise (ValueError "No embeddings found for document missing_doc"),
     Example.duplicated)
  /\ fst (MockRetriever.retrieve Example.retriever "x" "missing_doc" 3
            Example.duplicated) <> Return [].
Proof.
  apply (proj2 retrieve_missing_record_raises
           Example.retriever "x" "missing_doc" 3%Z Example.duplicated).
  vm_compute. reflexivity.
Defined.

(** C7 on the note of two chunks, with [top_k = 5]. *)
Lemma retrieve_top_k_exceeds_chunk_count_witness :
  exists res w',
    MockRetriever.retrieve Example.retriever "dose" "note_1" 5
      Example.duplicated = (Return res, w')
    /\ Permutation (map chunk_of_hit res) (md_chunks Example.duplicated_metadata)
    /\ length res = length (md_chunks Example.duplicated_metadata)
    /\ (Z.of_nat (length res) < 5)%Z.
Proof.
  apply (retrieve_top_k_exceeds_chunk_count
           Example.retriever "dose" "note_1" 5%Z Example.duplicated
           Example.duplicated_vectors Example.duplicated_metadata).
  - vm_compute. reflexivity.
  - vm_compute. reflexivity.
  - apply Forall_length_check. vm_compute. reflexivity.
  - reflexivity.
  - lia.
  - vm_compute. reflexivity.
Defined.

(** C10 on a note with three vectors and two metadata entries, with
    [top_k = 3]. *)
Lemma retrieve_skips_indices_outside_metadata_witness :
  let sims :=
    map (cosine (seeded_vector (md5_seed "fever") 384))
        Example.misaligned_vectors in
  exists res w',
    MockRetriever.retrieve Example.retriever "fever" "note_2" 3
      Example.misaligned = (Return res, w')
    /\ res = omap (hit_at None (md_chunks Example.earlier_metadata) sims)
                  (top_indices sims 3)
    /\ (forall idx, In idx (top_indices sims 3) ->
          (hit_at None (md_chunks Example.earlier_metadata) sims idx = None
           <-> (length (md_chunks Example.earlier_metadata) <= idx)%nat))
    /\ (Z.of_nat (length res) <= 3)%Z.
Proof.
  apply (proj1 retrieve_skips_indices_outside_metadata
           Example.retriever "fever" "note_2" 3%Z Example.misaligned
           Example.misaligned_vectors Example.earlier_metadata).
  - vm_compute. reflexivity.
  - vm_compute. reflexivity.
  - apply Forall_length_check. vm_compute. reflexivity.
  - vm_compute. lia.
  - lia.
Defined.

(** The misaligned note yields two results for [top_k = 3]. *)
Lemma retrieve_misaligned_returns_two :
  exists a b w',
    MockRetriever.retrieve Example.retriever "fever" "note_2" 3
      Example.misaligned = (Return [a; b], w').
Proof.
  destruct (MockRetriever.retrieve Example.retriever "fever" "note_2" 3
              Example.misaligned) as [o w'] eqn:Hrun.
  assert (Hcheck : match o with Return [a; b] => true | _ => false end = true).
  { change o with (fst (o, w')). rewrite <- Hrun. vm_compute. reflexivity. }
  destruct o as [[|a [|b [|c rest]]]|e]; try discriminate Hcheck.
  exists a, b, w'. reflexivity.
Qed.





(** C9 on a manager with the mock provider. *)
Lemma embed_chunks_writes_aligned_record_witness :
  exists self' res w',
    EnhancedEmbeddingsManager.embed_chunks Example.enhanced
      [Example.page "Fever for three days."; Example.page "Chest X-ray clear."]
      "note_3" (Example.fresh 1) = (Return (self', res), w')
    /\ aligned_record w' "data/embeddings" "note_3"
         [Example.page "Fever for three days.";
          Example.page "Chest X-ray clear."].
Proof.
  apply (proj1 (proj2 embed_chunks_writes_aligned_record) Example.enhanced).
  reflexivity.
Defined.

End Checks.

(* ===================================================================== *)
(** * More on single-document retrieval                                  *)
(* ===================================================================== *)

Section MoreRetrieval.
Context `{FloatOps} `{NumPy} `{LangChainEmbeddings} `{BuiltinHash}.

Lemma keeps_files_mock_retrieve (self : MockRetriever.t)
    (query doc_id : string) (top_k : Z) :
  keeps_files (MockRetriever.retrieve self query doc_id top_k).
Proof.
  unfold MockRetriever.retrieve, MockRetriever.cosine_similarity,
    MockRetriever._generate_mock_embedding.
  keeps_files.
Qed.

Lemma keeps_files_simple_retrieve (self : SimpleRetriever.t)
    (query doc_id : string) (top_k : Z) :
  keeps_files (SimpleRetriever.retrieve self query doc_id top_k).
Proof.
  unfold SimpleRetriever.retrieve, SimpleRetriever.cosine_similarity.
  keeps_files.
Qed.

Lemma keeps_files_multiple_docs (self : MultiDocRetriever.t)
    (query : string) (doc_ids : list string) (top_k : Z) :
  keeps_files
    (MultiDocRetriever.retrieve_from_multiple_docs self query doc_ids top_k).
Proof.
  unfold MultiDocRetriever.retrieve_from_multiple_docs.
  pose proof keeps_files_retrieve_from_single_doc.
  keeps_files.
Qed.

(** A stored vector of another length than the query vector stops the
    computation of the similarities. *)
Lemma similarities_raise (qe : vector) (embs : list vector) (w : World) :
  Exists (fun e => length e <> length qe) embs ->
  exists msg,
    comprehension
      (fun chunk_emb =>
         do d <- dot qe chunk_emb;
         ret (float_div d (float_mul (np_linalg_norm qe) (np_linalg_norm chunk_emb))))
      embs w
    = (Raise (ValueError msg), w).
Proof.
  induction embs as [|e embs IH]; intros Hex; [inversion Hex|].
  cbn [comprehension].
  destruct (Nat.eq_dec (length e) (length qe)) as [Heq|Hne].
  - assert (Hex' : Exists (fun e => length e <> length qe) embs)
      by (inversion Hex; [congruence|assumption]).
    destruct (IH Hex') as [msg Hmsg]. exists msg.
    rewrite (bind_return _ _ (cosine qe e) w w).
    + now rewrite (bind_raise _ _ _ _ _ Hmsg).
    + unfold bind, dot. now rewrite Heq, Nat.eqb_refl.
  - eexists. apply bind_raise. unfold bind, dot.
    destruct (Nat.eqb_spec (length qe) (length e)); [congruence|reflexivity].
Qed.

Lemma length_select_hits_in_range (doc : option string)
    (chunks : list ChunkEntry.t) (sims : list Q) (idxs : list nat) :
  Forall (fun i => (i < length sims)%nat) idxs ->
  Forall (fun i => (i < length chunks)%nat) idxs ->
  length (select_hits doc chunks sims idxs) = length idxs.
Proof.
  unfold select_hits. induction 1 as [|idx idxs Hs Hrest IH]; intros Hc;
    [reflexivity|].
  inversion Hc as [|? ? Hidx Hc']; subst.
  destruct (lookup_lt_is_Some_2 sims idx Hs) as [s Hsim].
  destruct (lookup_lt_is_Some_2 chunks idx Hidx) as [c Hchunk].
  cbn [omap list_omap]. unfold hit_at at 1. rewrite Hchunk, Hsim.
  cbn [length]. now rewrite IH.
Qed.

Lemma py_slice_from_length_eq {A} (start : Z) (l : list A) :
  length (py_slice_from start l)
  = if (start <? 0)%Z
    then Nat.min (Z.to_nat (- start)) (length l)
    else (length l - Nat.min (Z.to_nat start) (length l))%nat.
Proof.
  unfold py_slice_from. rewrite length_drop.
  destruct (Z.ltb_spec start 0); lia.
Qed.

Lemma py_slice_from_zero {A} (l : list A) : py_slice_from (- 0) l = l.
Proof.
  unfold py_slice_from. change (- 0)%Z with 0%Z. cbn [Z.ltb Z.compare].
  replace (Z.to_nat (0 `min` Z.of_nat (length l))) with 0%nat by lia.
  reflexivity.
Qed.

Lemma top_indices_NoDup (sims : list Q) (top_k : Z) :
  NoDup (top_indices sims top_k).
Proof.
  unfold top_indices, py_slice_from.
  rewrite <- Permutation_rev.
  eapply sublist_NoDup; [|apply sublist_drop].
  rewrite (np_argsort_perm sims). apply NoDup_seq.
Qed.


Lemma select_hits_by_position (doc : option string)
    (chunks : list ChunkEntry.t) (qe : vector) (embs : list vector)
    (idxs : list nat) :
  NoDup idxs ->
  Forall (fun i => (i < length embs)%nat) idxs ->
  exists kept,
    NoDup kept
    /\ (forall x, x ∈ kept -> x ∈ idxs)
    /\ Forall2 (fun idx h =>
                  exists c e,
                    chunks !! idx = Some c /\ embs !! idx = Some e
                    /\ h = mk_hit doc c (cosine qe e))
               kept (select_hits doc chunks (map (cosine qe) embs) idxs).
Proof.
  induction idxs as [|idx idxs IH]; intros Hnd Hb.
  - exists []. repeat split; [constructor|easy|constructor].
  - apply NoDup_cons in Hnd as [Hnotin Hnd].
    inversion Hb as [|? ? Hidx Hb']; subst.
    destruct (IH Hnd Hb') as (kept & Hkept & Hsub & Hall).
    destruct (lookup_lt_is_Some_2 embs idx Hidx) as [e He].
    unfold select_hits. cbn [omap list_omap]. unfold hit_at at 1.
    rewrite list_lookup_fmap, He. cbn [fmap option_fmap option_map].
    destruct (chunks !! idx) as [c|] eqn:Hc.
    + exists (idx :: kept). split; [|split].
      * apply NoDup_cons. split; [|assumption]. intros Hin. auto.
      * intros x Hx. apply elem_of_cons in Hx as [->|Hx];
          [now left|right; auto].
      * constructor; [now exists c, e|exact Hall].
    + exists kept. split; [assumption|]. split; [|exact Hall].
      intros x Hx. right. auto.
Qed.

End MoreRetrieval.

(** X1: retrieval reads the store and never writes it: the files are the
    same after [retrieve] of [MockRetriever] and of [SimpleRetriever] and
    after [retrieve_from_multiple_docs], whether the call returns or
    raises. *)
Theorem retrieval_keeps_the_files
    {FO : FloatOps} {NP : NumPy} {LE : LangChainEmbeddings} {BH : BuiltinHash}
    (query : string) (top_k : Z) (w : World) :
  (forall (self : MockRetriever.t) (doc_id : string),
      files (snd (MockRetriever.retrieve self query doc_id top_k w)) = files w)
  /\ (forall (self : SimpleRetriever.t) (doc_id : string),
        files (snd (SimpleRetriever.retrieve self query doc_id top_k w))
        = files w)
  /\ (forall (self : MultiDocRetriever.t) (doc_ids : list string),
        files (snd (MultiDocRetriever.retrieve_from_multiple_docs self query
                      doc_ids top_k w))
        = files w).
Proof.
  split; [|split]; intros self d.
  - apply keeps_files_mock_retrieve.
  - apply keeps_files_simple_retrieve.
  - apply keeps_files_multiple_docs.
Qed.

(** X2: a stored vector whose length is not the dimension 384 of the query
    vector makes [retrieve] of [MockRetriever] raise a [ValueError]; no
    result is computed from the vectors that do fit. *)
Theorem retrieve_dimension_mismatch_raises
    {FO : FloatOps} {NP : NumPy}
    (self : MockRetriever.t) (query doc_id : string) (top_k : Z)
    (w : World) (embs : list vector) (md : Metadata) :
  files w !! os_path_join (MockRetriever.embeddings_dir self)
               (doc_id +:+ "_embeddings.pkl") = Some (PickleFile embs) ->
  files w !! os_path_join (MockRetriever.embeddings_dir self)
               (doc_id +:+ "_metadata.json") = Some (JsonFile md) ->
  Exists (fun e => length e <> 384%nat) embs ->
  exists msg w',
    MockRetriever.retrieve self query doc_id top_k w
    = (Raise (ValueError msg), w').
Proof.
  intros He Hm Hdim. unfold MockRetriever.retrieve.
  unfold bind at 1. unfold os_path_exists.
  rewrite bool_decide_eq_true_2 by (rewrite He; eauto). cbn [negb].
  unfold bind at 1. unfold pickle_load. rewrite He.
  unfold bind at 1. unfold json_load. rewrite Hm.
  unfold bind at 1. rewrite mock_retriever_generate_run.
  unfold MockRetriever.cosine_similarity.
  destruct (similarities_raise (seeded_vector (md5_seed query) 384) embs
              (set_np_random (seeded_state (md5_seed query) 384) w))
    as [msg Hmsg]; [now rewrite seeded_vector_length|].
  exists msg. eexists. apply bind_raise. exact Hmsg.
Qed.

(** X3: when the pickled vectors of a document are there and its metadata
    file is not, the three retrievers raise [FileNotFoundError] for the
    metadata path, before the query is embedded. *)
Theorem retrieve_without_metadata_file_raises
    {FO : FloatOps} {NP : NumPy} {LE : LangChainEmbeddings} {BH : BuiltinHash}
    (dir query doc_id : string) (top_k : Z) (w : World) (embs : list vector) :
  files w !! os_path_join dir (doc_id +:+ "_embeddings.pkl")
  = Some (PickleFile embs) ->
  files w !! os_path_join dir (doc_id +:+ "_metadata.json") = None ->
  (forall self : MockRetriever.t,
      MockRetriever.embeddings_dir self = dir ->
      MockRetriever.retrieve self query doc_id top_k w
      = (Raise (FileNotFoundError
                  (os_path_join dir (doc_id +:+ "_metadata.json"))), w))
  /\ (forall self : SimpleRetriever.t,
        SimpleRetriever.embeddings_dir self = dir ->
        SimpleRetriever.retrieve self query doc_id top_k w
        = (Raise (FileNotFoundError
                    (os_path_join dir (doc_id +:+ "_metadata.json"))), w))
  /\ (forall self : MultiDocRetriever.t,
        MultiDocRetriever.embeddings_dir self = dir ->
        MultiDocRetriever.retrieve_from_single_doc self query doc_id top_k w
        = (Raise (FileNotFoundError
                    (os_path_join dir (doc_id +:+ "_metadata.json"))), w)).
Proof.
  intros He Hm. split; [|split]; intros self <-.
  - unfold MockRetriever.retrieve.
    unfold bind at 1. unfold os_path_exists.
    rewrite bool_decide_eq_true_2 by (rewrite He; eauto). cbn [negb].
    unfold bind at 1. unfold pickle_load. rewrite He.
    unfold bind at 1. unfold json_load. now rewrite Hm.
  - unfold SimpleRetriever.retrieve.
    unfold bind at 1. unfold os_path_exists.
    rewrite bool_decide_eq_true_2 by (rewrite He; eauto). cbn [negb].
    unfold bind at 1. unfold pickle_load. rewrite He.
    unfold bind at 1. unfold json_load. now rewrite Hm.
  - unfold MultiDocRetriever.retrieve_from_single_doc.
    unfold bind at 1. unfold os_path_exists.
    rewrite bool_decide_eq_true_2 by (rewrite He; eauto). cbn [negb].
    unfold bind at 1. unfold pickle_load. rewrite He.
    unfold bind at 1. unfold json_load. now rewrite Hm.
Qed.

(** X4: [top_k] is not checked.  On a stored document whose two lists have
    the same length, [retrieve] of [MockRetriever] with [top_k <= 0] returns
    [len - min(-top_k, len)] results for [len] stored chunks; with
    [top_k = 0] these are the chunks of the document, each once. *)
Theorem retrieve_non_positive_top_k
    {FO : FloatOps} {NP : NumPy}
    (self : MockRetriever.t) (query doc_id : string) (top_k : Z)
    (w : World) (embs : list vector) (md : Metadata) :
  files w !! os_path_join (MockRetriever.embeddings_dir self)
               (doc_id +:+ "_embeddings.pkl") = Some (PickleFile embs) ->
  files w !! os_path_join (MockRetriever.embeddings_dir self)
               (doc_id +:+ "_metadata.json") = Some (JsonFile md) ->
  Forall (fun e => length e = 384%nat) embs ->
  length (md_chunks md) = length embs ->
  (top_k <= 0)%Z ->
  exists res w',
    MockRetriever.retrieve self query doc_id top_k w = (Return res, w')
    /\ length res
       = (length embs - Nat.min (Z.to_nat (- top_k)) (length embs))%nat
    /\ (top_k = 0%Z -> Permutation (map chunk_of_hit res) (md_chunks md)).
Proof.
  intros He Hm Hdim Hlen Hk.
  eexists _, _. split; [eapply mock_retrieve_stored; eassumption|].
  set (qe := seeded_vector (md5_seed query) 384).
  set (sims := map (cosine qe) embs).
  assert (Hn : length (np_argsort sims) = length embs).
  { rewrite (Permutation_length (np_argsort_perm sims)), length_seq.
    apply length_map. }
  split.
  - unfold ranked. fold sims. rewrite length_select_hits_in_range.
    + unfold top_indices. rewrite length_rev, py_slice_from_length_eq, Hn.
      destruct (Z.ltb_spec (- top_k) 0); [lia|reflexivity].
    + apply top_indices_bound.
    + rewrite Hlen. pose proof (top_indices_bound sims top_k) as Hb.
      unfold sims in Hb at 1. now rewrite length_map in Hb.
  - intros ->. unfold ranked. fold sims.
    rewrite select_hits_chunks by apply top_indices_bound.
    assert (Hall : Permutation (top_indices sims 0) (seq 0 (length sims))).
    { unfold top_indices. rewrite py_slice_from_zero.
      rewrite <- Permutation_rev. apply np_argsort_perm. }
    rewrite Hall. unfold sims. rewrite length_map, <- Hlen.
    now rewrite omap_lookup_all.
Qed.

(** X5: every result of [retrieve] of [MockRetriever] is built from one
    position of the record: its chunk is the metadata entry at an index and
    its score is the similarity of the query vector with the stored vector
    at that same index; no index gives two results. *)
Theorem retrieve_joins_by_position
    {FO : FloatOps} {NP : NumPy}
    (self : MockRetriever.t) (query doc_id : string) (top_k : Z)
    (w : World) (embs : list vector) (md : Metadata) :
  files w !! os_path_join (MockRetriever.embeddings_dir self)
               (doc_id +:+ "_embeddings.pkl") = Some (PickleFile embs) ->
  files w !! os_path_join (MockRetriever.embeddings_dir self)
               (doc_id +:+ "_metadata.json") = Some (JsonFile md) ->
  Forall (fun e => length e = 384%nat) embs ->
  exists res w' idxs,
    MockRetriever.retrieve self query doc_id top_k w = (Return res, w')
    /\ NoDup idxs
    /\ Forall2 (fun idx h =>
                  exists c e,
                    md_chunks md !! idx = Some c /\ embs !! idx = Some e
                    /\ h = mk_hit None c
                             (cosine (seeded_vector (md5_seed query) 384) e))
               idxs res.
Proof.
  intros He Hm Hdim.
  set (qe := seeded_vector (md5_seed query) 384).
  destruct (select_hits_by_position None (md_chunks md) qe embs
              (top_indices (map (cosine qe) embs) top_k))
    as (kept & Hnd & _ & Hall).
  - apply top_indices_NoDup.
  - pose proof (top_indices_bound (map (cosine qe) embs) top_k) as Hb.
    now rewrite length_map in Hb.
  - eexists _, _, kept.
    split; [eapply mock_retrieve_stored; eassumption|]. now split.
Qed.

(* ===================================================================== *)
(** * More on writing and merging                                        *)
(* ===================================================================== *)

Lemma bind_inv_raise {A B} (m : M A) (k : A -> M B) (e : Exception)
    (w w' : World) :
  bind m k w = (Raise e, w') ->
  m w = (Raise e, w')
  \/ exists a w1, m w = (Return a, w1) /\ k a w1 = (Raise e, w').
Proof.
  unfold bind. destruct (m w) as [[a|e0] w1]; [eauto|].
  intros [= -> ->]. now left.
Qed.

Lemma comprehension_map {A B} (f : A -> M B) (g : A -> B) (xs : list A) :
  (forall x w, exists w', f x w = (Return (g x), w')) ->
  forall w, exists w', comprehension f xs w = (Return (map g xs), w').
Proof.
  intros Hf. induction xs as [|x xs IH]; intros w.
  - now exists w.
  - destruct (Hf x w) as (w1 & Hx). destruct (IH w1) as (w2 & Hxs).
    exists w2. cbn [comprehension map].
    now rewrite (bind_return _ _ _ _ _ Hx), (bind_return _ _ _ _ _ Hxs).
Qed.


Section MoreWriting.
Context `{FloatOps} `{NumPy} `{LangChainEmbeddings} `{BuiltinHash}
        `{TextSplitting}.

(** The vectors and the entries [embed_chunks] of [MockEmbeddingsManager]
    writes. *)
Lemma mock_embed_chunks_files (self : MockEmbeddingsManager.t)
    (chunks : list Document) (doc_id : string) (w : World) :
  exists res w' md,
    MockEmbeddingsManager.embed_chunks self chunks doc_id w = (Return res, w')
    /\ files w'
       = <[os_path_join (MockEmbeddingsManager.embeddings_dir self)
             (doc_id +:+ "_metadata.json") := JsonFile md]>
           (<[os_path_join (MockEmbeddingsManager.embeddings_dir self)
                (doc_id +:+ "_embeddings.pkl")
              := PickleFile
                   (map (fun text => seeded_vector (md5_seed text) 384)
                        (map page_content chunks))]> (files w))
    /\ md_chunks md
       = imap (fun i chunk =>
                 {| ChunkEntry.chunk_id := i;
                    ChunkEntry.content := page_content chunk;
                    ChunkEntry.metadata := metadata chunk |}) chunks.
Proof.
  destruct (comprehension_map
              (fun text => MockEmbeddingsManager._generate_mock_embedding text 384)
              (fun text => seeded_vector (md5_seed text) 384)
              (map page_content chunks)
              ltac:(intros; cbv beta; rewrite mock_manager_generate_run; eauto)
              (set_ticks (S (ticks w)) w)) as (w1 & Hembs).
  pose proof (keeps_files_comprehension
                (fun text => MockEmbeddingsManager._generate_mock_embedding text 384)
                (map page_content chunks)) as Hkeep.
  specialize (Hkeep ltac:(intros x w0; cbv beta;
                          now rewrite mock_manager_generate_run)
                (set_ticks (S (ticks w)) w)).
  rewrite Hembs in Hkeep. cbn [snd files set_ticks] in Hkeep.
  unfold MockEmbeddingsManager.embed_chunks.
  unfold bind at 1. unfold time_time at 1.
  rewrite (bind_return _ _ _ _ _ Hembs).
  unfold bind, pickle_dump, time_time, json_dump, ret.
  eexists _, _, _. split; [reflexivity|].
  cbn [files set_files set_ticks md_chunks]. rewrite Hkeep.
  split; reflexivity.
Qed.


Lemma by_position_chunk_ids (doc : option string) (chunks : list Document)
    (qe : vector) (embs : list vector) (kept : list nat) (res : list Hit.t) :
  Forall2 (fun idx h =>
             exists c e,
               imap (fun i chunk =>
                       {| ChunkEntry.chunk_id := i;
                          ChunkEntry.content := page_content chunk;
                          ChunkEntry.metadata := metadata chunk |}) chunks
               !! idx = Some c
               /\ embs !! idx = Some e /\ h = mk_hit doc c (cosine qe e))
          kept res ->
  map Hit.chunk_id res = kept
  /\ Forall (fun h =>
               exists chunk,
                 chunks !! Hit.chunk_id h = Some chunk
                 /\ Hit.content h = page_content chunk
                 /\ Hit.metadata h = metadata chunk) res.
Proof.
  induction 1 as [|idx h kept res (c & e & Hc & _ & ->) Hrest [IHids IHall]].
  - split; [reflexivity|constructor].
  - rewrite list_lookup_imap in Hc.
    destruct (chunks !! idx) as [chunk|] eqn:Hchunk; [|discriminate].
    injection Hc as <-. split.
    + cbn [map]. now rewrite IHids.
    + constructor; [|exact IHall]. exists chunk. cbn. now rewrite Hchunk.
Qed.

(** Where [embed_chunks] of [EnhancedEmbeddingsManager] leaves the files:
    the two files of the document written when it returns, nothing written
    when it raises. *)
Lemma enhanced_usage_keeps_files (self : EnhancedEmbeddingsManager.t)
    (texts : list string) :
  keeps_files
    (if String.eqb (EnhancedEmbeddingsManager.provider self) "openai" then
       do chunker <- TextChunker.__init__ 1000 200;
       do token_counts <-
         comprehension (TextChunker.count_tokens chunker) texts;
       let token_count := fold_left Z.add token_counts 0%Z in
       ret (EnhancedEmbeddingsManager.add_usage self token_count, token_count)
     else ret (self, 0%Z)).
Proof.
  unfold TextChunker.__init__, TextChunker.count_tokens. keeps_files.
Qed.

Lemma enhanced_embed_chunks_files (self : EnhancedEmbeddingsManager.t)
    (chunks : list Document) (doc_id : string) (w : World) :
  match EnhancedEmbeddingsManager.embed_chunks self chunks doc_id w with
  | (Return _, w') =>
      exists embs md,
        files w'
        = <[os_path_join (EnhancedEmbeddingsManager.embeddings_dir self)
              (doc_id +:+ "_metadata.json") := JsonFile md]>
            (<[os_path_join (EnhancedEmbeddingsManager.embeddings_dir self)
                 (doc_id +:+ "_embeddings.pkl") := PickleFile embs]> (files w))
  | (Raise _, w') => files w' = files w
  end.
Proof.
  destruct (EnhancedEmbeddingsManager.embed_chunks self chunks doc_id w)
    as [[[self' res]|e] w'] eqn:Hrun;
    unfold EnhancedEmbeddingsManager.embed_chunks in Hrun.
  - apply bind_inv in Hrun as (start_time & w1 & Hstart & Hrun).
    apply bind_inv in Hrun as ([self0 token_count] & w2 & Husage & Hrun).
    assert (Hdir : EnhancedEmbeddingsManager.embeddings_dir self0
                   = EnhancedEmbeddingsManager.embeddings_dir self).
    { destruct (String.eqb (EnhancedEmbeddingsManager.provider self) "openai").
      - apply bind_inv in Husage as (chunker & w1' & _ & Husage).
        apply bind_inv in Husage as (token_counts & w1'' & _ & Husage).
        now injection Husage as <- _ _.
      - now injection Husage as <- _ _. }
    pose proof (keeps_files_time_time w) as Hk1. rewrite Hstart in Hk1.
    assert (Hk2 : files w2 = files w1).
    { change w2 with (snd (Return (self0, token_count), w2)).
      rewrite <- Husage.
      apply (enhanced_usage_keeps_files self (map page_content chunks)). }
    cbv beta iota in Hrun.
    apply bind_inv in Hrun as (embeddings & w3 & Hemb & Hrun).
    pose proof (keeps_files_embed_documents self0 (map page_content chunks) w2)
      as Hk3. rewrite Hemb in Hk3. cbn [snd] in Hk1, Hk2, Hk3.
    rewrite Hdir in Hrun.
    unfold bind, pickle_dump, time_time, json_dump, ret in Hrun.
    injection Hrun as _ _ <-.
    cbn [files set_files set_ticks]. rewrite Hk3, Hk2, Hk1. eauto.
  - apply bind_inv_raise in Hrun as [Hrun|(start_time & w1 & Hstart & Hrun)];
      [discriminate|].
    pose proof (keeps_files_time_time w) as Hk1. rewrite Hstart in Hk1.
    cbn [snd] in Hk1. rewrite <- Hk1.
    apply bind_inv_raise in Hrun
      as [Hrun|([self0 token_count] & w2 & Husage & Hrun)].
    + change w' with (snd (@Raise (EnhancedEmbeddingsManager.t * Z) e, w')).
      rewrite <- Hrun.
      apply (enhanced_usage_keeps_files self (map page_content chunks)).
    + assert (Hk2 : files w2 = files w1).
      { change w2 with (snd (Return (self0, token_count), w2)).
        rewrite <- Husage.
        apply (enhanced_usage_keeps_files self (map page_content chunks)). }
      rewrite <- Hk2.
      cbv beta iota in Hrun.
      apply bind_inv_raise in Hrun as [Hrun|(embeddings & w3 & _ & Hrun)].
      * pose proof (keeps_files_embed_documents self0
                      (map page_content chunks) w2) as Hk3.
        now rewrite Hrun in Hk3.
      * unfold bind, pickle_dump, time_time, json_dump, ret in Hrun.
        discriminate.
Qed.




End MoreWriting.

(** X6: embedding then retrieving.  After [embed_chunks] of
    [MockEmbeddingsManager], [retrieve] of a [MockRetriever] on the same
    directory returns for every query and [top_k >= 1]: it gives
    [min(top_k, len(chunks))] results, no chunk twice, and each result has
    the content and metadata of the chunk whose index is its [chunk_id]. *)
Theorem embed_chunks_then_retrieve
    {FO : FloatOps} {NP : NumPy}
    (manager : MockEmbeddingsManager.t) (retriever : MockRetriever.t)
    (chunks : list Document) (doc_id query : string) (top_k : Z) (w : World) :
  MockRetriever.embeddings_dir retriever
  = MockEmbeddingsManager.embeddings_dir manager ->
  (1 <= top_k)%Z ->
  exists r w1 res w2,
    MockEmbeddingsManager.embed_chunks manager chunks doc_id w = (Return r, w1)
    /\ MockRetriever.retrieve retriever query doc_id top_k w1 = (Return res, w2)
    /\ length res = Nat.min (Z.to_nat top_k) (length chunks)
    /\ NoDup (map Hit.chunk_id res)
    /\ Forall (fun h =>
                 exists chunk,
                   chunks !! Hit.chunk_id h = Some chunk
                   /\ Hit.content h = page_content chunk
                   /\ Hit.metadata h = metadata chunk) res.
Proof.
  intros Hdir Hk.
  destruct (mock_embed_chunks_files manager chunks doc_id w)
    as (r & w1 & md & Hrun & Hfiles & Hmd).
  set (embs := map (fun text => seeded_vector (md5_seed text) 384)
                   (map page_content chunks)) in *.
  set (qe := seeded_vector (md5_seed query) 384).
  assert (Hlen : length embs = length chunks)
    by (unfold embs; now rewrite !length_map).
  assert (He : files w1 !! os_path_join (MockRetriever.embeddings_dir retriever)
                 (doc_id +:+ "_embeddings.pkl") = Some (PickleFile embs)).
  { rewrite Hfiles, Hdir.
    rewrite file_lookup_insert_ne by (apply not_eq_sym, record_paths_differ).
    apply file_lookup_insert_eq. }
  assert (Hm : files w1 !! os_path_join (MockRetriever.embeddings_dir retriever)
                 (doc_id +:+ "_metadata.json") = Some (JsonFile md)).
  { rewrite Hfiles, Hdir. apply file_lookup_insert_eq. }
  assert (Hdim : Forall (fun e => length e = 384%nat) embs).
  { unfold embs. apply List.Forall_forall. intros e He'.
    apply in_map_iff in He' as (text & <- & _). apply seeded_vector_length. }
  exists r, w1. eexists _, _. split; [exact Hrun|].
  split; [eapply mock_retrieve_stored; eassumption|].
  fold qe.
  assert (Hb : Forall (fun i => (i < length embs)%nat)
                 (top_indices (map (cosine qe) embs) top_k)).
  { pose proof (top_indices_bound (map (cosine qe) embs) top_k) as Hb.
    now rewrite length_map in Hb. }
  split.
  - unfold ranked. rewrite length_select_hits_in_range.
    + unfold top_indices. rewrite length_rev, py_slice_from_length_eq.
      rewrite (Permutation_length (np_argsort_perm _)), length_seq, length_map.
      destruct (Z.ltb_spec (- top_k) 0); [|lia].
      rewrite Z.opp_involutive, Hlen. reflexivity.
    + apply top_indices_bound.
    + rewrite Hmd, length_imap, <- Hlen. exact Hb.
  - destruct (select_hits_by_position None (md_chunks md) qe embs
                (top_indices (map (cosine qe) embs) top_k))
      as (kept & Hnd & _ & Hall); [apply top_indices_NoDup|exact Hb|].
    rewrite Hmd in Hall.
    apply by_position_chunk_ids in Hall as [Hids Hall].
    unfold ranked. rewrite Hmd, Hids. split; assumption.
Qed.

(** X7: [embed_chunks] of either manager touches the two files of its
    document only: every other path holds after the call what it held
    before, whether the call returns or raises. *)
Theorem embed_chunks_leaves_other_paths
    {FO : FloatOps} {NP : NumPy} {LE : LangChainEmbeddings} {BH : BuiltinHash}
    {TS : TextSplitting}
    (dir doc_id path : string) (chunks : list Document) (w : World) :
  path <> os_path_join dir (doc_id +:+ "_embeddings.pkl") ->
  path <> os_path_join dir (doc_id +:+ "_metadata.json") ->
  (forall self : MockEmbeddingsManager.t,
      MockEmbeddingsManager.embeddings_dir self = dir ->
      files (snd (MockEmbeddingsManager.embed_chunks self chunks doc_id w))
      !! path = files w !! path)
  /\ (forall self : EnhancedEmbeddingsManager.t,
        EnhancedEmbeddingsManager.embeddings_dir self = dir ->
        files (snd (EnhancedEmbeddingsManager.embed_chunks self chunks doc_id w))
        !! path = files w !! path).
Proof.
  intros Hne Hnm. split; intros self <-.
  - destruct (mock_embed_chunks_files self chunks doc_id w)
      as (r & w1 & md & Hrun & Hfiles & _).
    rewrite Hrun. cbn [snd]. rewrite Hfiles.
    now rewrite !file_lookup_insert_ne by now apply not_eq_sym.
  - pose proof (enhanced_embed_chunks_files self chunks doc_id w) as Hfiles.
    destruct (EnhancedEmbeddingsManager.embed_chunks self chunks doc_id w)
      as [[r|e] w1]; cbn [snd].
    + destruct Hfiles as (embs & md & ->).
      now rewrite !file_lookup_insert_ne by now apply not_eq_sym.
    + now rewrite Hfiles.
Qed.

(** X8: when [embed_chunks] of [EnhancedEmbeddingsManager] raises (the
    splitter of the token count or the embedding provider failed), no file
    has been written. *)
Theorem embed_chunks_failure_writes_nothing
    {FO : FloatOps} {NP : NumPy} {LE : LangChainEmbeddings} {BH : BuiltinHash}
    {TS : TextSplitting}
    (self : EnhancedEmbeddingsManager.t) (chunks : list Document)
    (doc_id : string) (w w' : World) (e : Exception) :
  EnhancedEmbeddingsManager.embed_chunks self chunks doc_id w = (Raise e, w') ->
  files w' = files w.
Proof.
  intros Hrun.
  pose proof (enhanced_embed_chunks_files self chunks doc_id w) as Hfiles.
  now rewrite Hrun in Hfiles.
Qed.


(* ===================================================================== *)
(** * Embedding and retrieving in one process                            *)
(* ===================================================================== *)

Lemma comprehension_Forall {A B} (f : A -> M B) (P : B -> Prop) (xs : list A) :
  (forall x w y w', f x w = (Return y, w') -> P y) ->
  forall ys w w', comprehension f xs w = (Return ys, w') -> Forall P ys.
Proof.
  intros Hf. induction xs as [|x xs IH]; intros ys w w' Hrun.
  - injection Hrun as <- _. constructor.
  - cbn [comprehension] in Hrun.
    apply bind_inv in Hrun as (y & w1 & Hy & Hrun).
    apply bind_inv in Hrun as (ys' & w2 & Hys & Hrun).
    injection Hrun as <- _. constructor; [eapply Hf, Hy|eapply IH, Hys].
Qed.

Lemma by_position_doc_id `{FloatOps} `{NumPy}
    (doc : option string) (chunks : list ChunkEntry.t) (qe : vector) (embs : list vector) (kept : list nat) (res : list Hit.t) :
  Forall2 (fun idx h =>
             exists c e,
               chunks !! idx = Some c
               /\ embs !! idx = Some e /\ h = mk_hit doc c (cosine qe e))
          kept res ->
  Forall (fun h => Hit.doc_id h = doc) res.
Proof.
  induction 1 as [|idx h kept res (c & e & _ & _ & ->)];
    constructor; [reflexivity|assumption].
Qed.

Section OneProcess.
Context `{FloatOps} `{NumPy} `{LangChainEmbeddings} `{BuiltinHash}
        `{TextSplitting}.

Lemma enhanced_mock_embed_chunks_files (self : EnhancedEmbeddingsManager.t)
    (chunks : list Document) (doc_id : string) (w : World) :
  EnhancedEmbeddingsManager.provider self = "mock" ->
  exists r w' embs md,
    EnhancedEmbeddingsManager.embed_chunks self chunks doc_id w = (Return r, w')
    /\ files w'
       = <[os_path_join (EnhancedEmbeddingsManager.embeddings_dir self)
             (doc_id +:+ "_metadata.json") := JsonFile md]>
           (<[os_path_join (EnhancedEmbeddingsManager.embeddings_dir self)
                (doc_id +:+ "_embeddings.pkl") := PickleFile embs]> (files w))
    /\ length embs = length chunks
    /\ Forall (fun e => length e = EnhancedEmbeddingsManager.embedding_dim self)
              embs
    /\ md_chunks md
       = imap (fun i chunk =>
                 {| ChunkEntry.chunk_id := i;
                    ChunkEntry.content := page_content chunk;
                    ChunkEntry.metadata := metadata chunk |}) chunks.
Proof.
  intros Hp.
  destruct (embed_documents_mock_returns self (map page_content chunks)
              (set_ticks (S (ticks w)) w) Hp) as (embs & w1 & Hembs).
  pose proof (keeps_files_embed_documents self (map page_content chunks)
                (set_ticks (S (ticks w)) w)) as Hkeep.
  rewrite Hembs in Hkeep. cbn [snd files set_ticks] in Hkeep.
  pose proof (embed_documents_length_eq _ _ _ _ _ Hembs) as Hlen.
  rewrite length_map in Hlen.
  assert (Hdim : Forall (fun e => length e
                                  = EnhancedEmbeddingsManager.embedding_dim self)
                        embs).
  { revert Hembs. unfold EnhancedEmbeddingsManager.embed_documents.
    rewrite Hp. cbn [String.eqb Ascii.eqb Bool.eqb].
    apply comprehension_Forall. intros text w0 y w0'.
    rewrite enhanced_generate_run. intros [= <- _].
    apply seeded_vector_length. }
  unfold EnhancedEmbeddingsManager.embed_chunks.
  rewrite Hp. cbn [String.eqb Ascii.eqb Bool.eqb].
  unfold bind at 1. unfold time_time at 1.
  unfold bind at 1. unfold ret at 1.
  rewrite (bind_return _ _ _ _ _ Hembs).
  unfold bind, pickle_dump, time_time, json_dump, ret.
  eexists _, _, embs, _. split; [reflexivity|].
  cbn [files set_files set_ticks md_chunks]. rewrite Hkeep.
  repeat split; assumption.
Qed.

End OneProcess.

(** X10: embedding then retrieving with the hash-based generator, in one
    process.  After [embed_chunks] of a mock [EnhancedEmbeddingsManager],
    [retrieve_from_single_doc] of a [MultiDocRetriever] on the same
    directory whose mock manager has the same dimension returns for every
    query and [top_k >= 1]: it gives [min(top_k, len(chunks))] results, each
    naming the document, no chunk twice, and each with the content and
    metadata of the chunk whose index is its [chunk_id]. *)
Theorem enhanced_embed_chunks_then_retrieve
    {FO : FloatOps} {NP : NumPy} {LE : LangChainEmbeddings} {BH : BuiltinHash}
    {TS : TextSplitting}
    (manager : EnhancedEmbeddingsManager.t) (retriever : MultiDocRetriever.t)
    (chunks : list Document) (doc_id query : string) (top_k : Z) (w : World) :
  EnhancedEmbeddingsManager.provider manager = "mock" ->
  EnhancedEmbeddingsManager.provider
    (MultiDocRetriever.embeddings_manager retriever) = "mock" ->
  EnhancedEmbeddingsManager.embedding_dim
    (MultiDocRetriever.embeddings_manager retriever)
  = EnhancedEmbeddingsManager.embedding_dim manager ->
  MultiDocRetriever.embeddings_dir retriever
  = EnhancedEmbeddingsManager.embeddings_dir manager ->
  (1 <= top_k)%Z ->
  exists r w1 res w2,
    EnhancedEmbeddingsManager.embed_chunks manager chunks doc_id w
    = (Return r, w1)
    /\ MultiDocRetriever.retrieve_from_single_doc retriever query doc_id top_k w1
       = (Return res, w2)
    /\ length res = Nat.min (Z.to_nat top_k) (length chunks)
    /\ NoDup (map Hit.chunk_id res)
    /\ Forall (fun h =>
                 Hit.doc_id h = Some doc_id
                 /\ exists chunk,
                      chunks !! Hit.chunk_id h = Some chunk
                      /\ Hit.content h = page_content chunk
                      /\ Hit.metadata h = metadata chunk) res.
Proof.
  intros Hp Hp' Hdim' Hdir Hk.
  destruct (enhanced_mock_embed_chunks_files manager chunks doc_id w Hp)
    as (r & w1 & embs & md & Hrun & Hfiles & Hlen & Hdim & Hmd).
  set (dim := EnhancedEmbeddingsManager.embedding_dim manager) in *.
  set (qe := seeded_vector (hash_seed (hash_secret w1) query) dim).
  assert (He : files w1 !! os_path_join (MultiDocRetriever.embeddings_dir retriever)
                 (doc_id +:+ "_embeddings.pkl") = Some (PickleFile embs)).
  { rewrite Hfiles, Hdir.
    rewrite file_lookup_insert_ne by (apply not_eq_sym, record_paths_differ).
    apply file_lookup_insert_eq. }
  assert (Hm : files w1 !! os_path_join (MultiDocRetriever.embeddings_dir retriever)
                 (doc_id +:+ "_metadata.json") = Some (JsonFile md)).
  { rewrite Hfiles, Hdir. apply file_lookup_insert_eq. }
  assert (Hq : EnhancedEmbeddingsManager.embed_query
                 (MultiDocRetriever.embeddings_manager retriever) query w1
               = (Return qe, set_np_random
                               (seeded_state (hash_seed (hash_secret w1) query) dim)
                               w1)).
  { unfold EnhancedEmbeddingsManager.embed_query. rewrite Hp'.
    cbn [String.eqb Ascii.eqb Bool.eqb].
    rewrite enhanced_generate_run, Hdim'. reflexivity. }
  assert (Hdimq : Forall (fun e => length e = length qe) embs).
  { unfold qe. rewrite seeded_vector_length. exact Hdim. }
  exists r, w1. eexists _, _. split; [exact Hrun|].
  split; [eapply single_doc_stored; eassumption|].
  assert (Hb : Forall (fun i => (i < length embs)%nat)
                 (top_indices (map (cosine qe) embs) top_k)).
  { pose proof (top_indices_bound (map (cosine qe) embs) top_k) as Hb.
    now rewrite length_map in Hb. }
  split.
  - unfold ranked. rewrite length_select_hits_in_range.
    + unfold top_indices. rewrite length_rev, py_slice_from_length_eq.
      rewrite (Permutation_length (np_argsort_perm _)), length_seq, length_map.
      destruct (Z.ltb_spec (- top_k) 0); [|lia].
      rewrite Z.opp_involutive, Hlen. reflexivity.
    + apply top_indices_bound.
    + rewrite Hmd, length_imap, <- Hlen. exact Hb.
  - destruct (select_hits_by_position (Some doc_id) (md_chunks md) qe embs
                (top_indices (map (cosine qe) embs) top_k))
      as (kept & Hnd & _ & Hall); [apply top_indices_NoDup|exact Hb|].
    rewrite Hmd in Hall.
    pose proof (by_position_doc_id _ _ _ _ _ _ Hall) as Hdoc.
    apply by_position_chunk_ids in Hall as [Hids Hall].
    unfold ranked in *. rewrite Hmd, Hids. split; [assumption|].
    rewrite List.Forall_forall in *. intros h Hh. split; auto.
Qed.

(* ===================================================================== *)
(** * The seeds, the chunk statistics and the providers                  *)
(* ===================================================================== *)

(** X11: whatever the text, the three generators seed NumPy with a value in
    [[0, 10^7)], inside the range [np.random.seed] accepts: the remainder of
    Python's [%] by a positive number is never negative, also for a
    negative [hash(text)]. *)
Theorem mock_embedding_seed_in_range
    {FO : FloatOps} {NP : NumPy} {LE : LangChainEmbeddings} {BH : BuiltinHash}
    (text : string) (dim : nat) (w : World) :
  (exists s,
      (0 <= s < 10000000)%Z
      /\ MockEmbeddingsManager._generate_mock_embedding text dim w
         = (do _ <- seed s;
            do embedding <- randn dim;
            ret (divide embedding (np_linalg_norm embedding))) w
      /\ MockRetriever._generate_mock_embedding text dim w
         = (do _ <- seed s;
            do embedding <- randn dim;
            ret (divide embedding (np_linalg_norm embedding))) w)
  /\ (forall self : EnhancedEmbeddingsManager.t,
        exists s,
          (0 <= s < 10000000)%Z
          /\ EnhancedEmbeddingsManager._generate_mock_embedding self text w
             = (do _ <- seed s;
                do embedding <- randn
                  (EnhancedEmbeddingsManager.embedding_dim self);
                ret (divide embedding (np_linalg_norm embedding))) w).
Proof.
  split.
  - exists (md5_seed text). split; [apply Z.mod_pos_bound; lia|].
    split; reflexivity.
  - intros self. exists (hash_seed (hash_secret w) text).
    split; [apply Z.mod_pos_bound; lia|]. reflexivity.
Qed.

Lemma fold_left_max_ge (l : list Z) (x : Z) :
  (x <= fold_left Z.max l x)%Z
  /\ Forall (fun y => (y <= fold_left Z.max l x)%Z) l.
Proof.
  revert x. induction l as [|y l IH]; intros x; cbn [fold_left].
  - split; [lia|constructor].
  - destruct (IH (Z.max x y)) as [Hx Hl]. split; [lia|].
    constructor; [lia|exact Hl].
Qed.

Lemma fold_left_min_le (l : list Z) (x : Z) :
  (fold_left Z.min l x <= x)%Z
  /\ Forall (fun y => (fold_left Z.min l x <= y)%Z) l.
Proof.
  revert x. induction l as [|y l IH]; intros x; cbn [fold_left].
  - split; [lia|constructor].
  - destruct (IH (Z.min x y)) as [Hx Hl]. split; [lia|].
    constructor; [lia|exact Hl].
Qed.

Lemma fold_left_max_in (l : list Z) (x : Z) : In (fold_left Z.max l x) (x :: l).
Proof.
  revert x. induction l as [|y l IH]; intros x; cbn [fold_left].
  - now left.
  - destruct (IH (Z.max x y)) as [Hx|Hl].
    + rewrite <- Hx.
      destruct (Z.max_spec x y) as [[_ ->]|[_ ->]]; [right|]; now left.
    + right. now right.
Qed.

Lemma fold_left_min_in (l : list Z) (x : Z) : In (fold_left Z.min l x) (x :: l).
Proof.
  revert x. induction l as [|y l IH]; intros x; cbn [fold_left].
  - now left.
  - destruct (IH (Z.min x y)) as [Hx|Hl].
    + rewrite <- Hx.
      destruct (Z.min_spec x y) as [[_ ->]|[_ ->]]; [|right]; now left.
    + right. now right.
Qed.

Lemma fold_left_add_bounds (l : list Z) (lo hi a : Z) :
  Forall (fun y => (lo <= y <= hi)%Z) l ->
  (a + Z.of_nat (length l) * lo <= fold_left Z.add l a
   <= a + Z.of_nat (length l) * hi)%Z.
Proof.
  intros Hall. revert a.
  induction Hall as [|y l Hy _ IH]; intros a; cbn [fold_left length].
  - lia.
  - specialize (IH (a + y)%Z). lia.
Qed.

Lemma comprehension_lift_returns {A B} (f : A -> Outcome B) (xs : list A)
    (ys : list B) (w : World) :
  Forall2 (fun x y => f x = Return y) xs ys ->
  comprehension (fun x => lift (f x)) xs w = (Return ys, w).
Proof.
  induction 1 as [|x y xs ys Hx _ IH]; [reflexivity|].
  cbn [comprehension]. unfold bind at 1. unfold lift at 1. rewrite Hx.
  unfold bind at 1. now rewrite IH.
Qed.

Lemma comprehension_lift_raises {A B} (f : A -> Outcome B)
    (before after : list A) (x : A) (e : Exception) (w : World) :
  Forall (fun x' => exists y, f x' = Return y) before ->
  f x = Raise e ->
  comprehension (fun x => lift (f x)) (before ++ x :: after) w = (Raise e, w).
Proof.
  intros Hbefore Hx.
  induction Hbefore as [|x' before [y Hy] _ IH]; cbn [app comprehension].
  - unfold bind at 1. unfold lift at 1. now rewrite Hx.
  - unfold bind at 1. unfold lift at 1. rewrite Hy.
    unfold bind at 1. now rewrite IH.
Qed.

Lemma comprehension_lift_world {A B} (f : A -> Outcome B) (xs : list A)
    (w : World) :
  snd (comprehension (fun x => lift (f x)) xs w) = w.
Proof.
  induction xs as [|x xs IH]; [reflexivity|].
  cbn [comprehension]. unfold bind at 1. unfold lift at 1.
  destruct (f x) as [y|e]; [|reflexivity].
  unfold bind at 1.
  destruct (comprehension _ xs w) as [[ys|e] w']; exact IH.
Qed.

(** X12: [get_chunk_stats] counts the tokens of the chunks in order.  When
    the tokenizer raises on a chunk, and returns on those before it,
    [get_chunk_stats] raises that error.  When it returns on every chunk,
    [get_chunk_stats] returns, and its numbers are consistent: every count
    lies between [min_tokens] and [max_tokens], some chunk has exactly
    [max_tokens] tokens and some exactly [min_tokens], and [total_tokens]
    lies between [total_chunks * min_tokens] and
    [total_chunks * max_tokens]; for no chunks every number is 0. *)
Theorem get_chunk_stats_consistent {TS : TextSplitting} {FO : FloatOps}
    (self : TextChunker.t) (w : World) :
  (forall (before after : list Document) (chunk : Document) (e : Exception),
      Forall (fun chunk' =>
                exists count,
                  TextChunker._token_length (page_content chunk')
                  = Return count) before ->
      TextChunker._token_length (page_content chunk) = Raise e ->
      TextChunker.get_chunk_stats self (before ++ chunk :: after) w
      = (Raise e, w))
  /\
  (forall (chunks : list Document) (counts : list Z),
      Forall2 (fun chunk count =>
                 TextChunker._token_length (page_content chunk) = Return count)
              chunks counts ->
      exists stats,
        TextChunker.get_chunk_stats self chunks w = (Return stats, w)
        /\ TextChunker.total_chunks stats = length chunks
        /\ TextChunker.total_tokens stats = fold_left Z.add counts 0%Z
        /\ Forall (fun count =>
                     (TextChunker.min_tokens stats <= count
                      <= TextChunker.max_tokens stats)%Z) counts
        /\ (Z.of_nat (length chunks) * TextChunker.min_tokens stats
            <= TextChunker.total_tokens stats
            <= Z.of_nat (length chunks) * TextChunker.max_tokens stats)%Z
        /\ (chunks = [] ->
            TextChunker.total_tokens stats = 0%Z
            /\ TextChunker.max_tokens stats = 0%Z
            /\ TextChunker.min_tokens stats = 0%Z
            /\ TextChunker.avg_tokens_per_chunk stats = 0%Q)
        /\ (chunks <> [] ->
            In (TextChunker.max_tokens stats) counts
            /\ In (TextChunker.min_tokens stats) counts)).
Proof.
  split.
  - intros before after chunk e Hbefore Hchunk.
    unfold TextChunker.get_chunk_stats, TextChunker.count_tokens.
    apply bind_raise.
    apply (comprehension_lift_raises
             (fun chunk => TextChunker._token_length (page_content chunk)));
      assumption.
  - intros chunks counts Hcounts.
    unfold TextChunker.get_chunk_stats, TextChunker.count_tokens.
    rewrite (bind_return _ _ _ _ _
               (comprehension_lift_returns
                  (fun chunk => TextChunker._token_length (page_content chunk))
                  chunks counts w Hcounts)).
    pose proof (Forall2_length _ _ _ Hcounts) as Hlen.
    destruct Hcounts as [|chunk count chunks counts _ Hcounts].
    + eexists. split; [reflexivity|]. cbn.
      split; [reflexivity|]. split; [reflexivity|]. split; [constructor|].
      split; [lia|]. split; [now intros _|]. now intros Hne.
    + clear Hcounts. cbn [length] in Hlen.
      eexists. split; [reflexivity|].
      cbn [TextChunker.total_chunks TextChunker.total_tokens
           TextChunker.max_tokens TextChunker.min_tokens length].
      destruct (fold_left_max_ge counts count) as [Hx Hl].
      destruct (fold_left_min_le counts count) as [Hx' Hl'].
      assert (Hall : Forall (fun c =>
                               (fold_left Z.min counts count <= c
                                <= fold_left Z.max counts count)%Z)
                            (count :: counts)).
      { constructor; [lia|].
        apply List.Forall_forall. intros c Hc.
        rewrite List.Forall_forall in Hl, Hl'.
        split; [now apply Hl'|now apply Hl]. }
      split; [reflexivity|]. split; [reflexivity|]. split; [exact Hall|].
      split.
      * pose proof (fold_left_add_bounds (count :: counts) _ _ 0%Z Hall)
          as Hsum.
        unfold py_sum. cbn [length] in Hsum. rewrite Hlen.
        rewrite !Z.add_0_l in Hsum. exact Hsum.
      * split; [discriminate|]. intros _.
        split; [apply fold_left_max_in|apply fold_left_min_in].
Qed.

Section Providers.
Context `{FloatOps} `{NumPy} `{LangChainEmbeddings} `{BuiltinHash}
        `{TextSplitting}.

(** A manager with no model and a provider other than ["mock"]. *)
Definition without_model (self : EnhancedEmbeddingsManager.t) : Prop :=
  EnhancedEmbeddingsManager.provider self <> "mock"
  /\ EnhancedEmbeddingsManager.provider self <> "openai"
  /\ EnhancedEmbeddingsManager.embeddings self = None.

Lemma without_model_embed_query (self : EnhancedEmbeddingsManager.t)
    (text : string) (w : World) :
  without_model self ->
  EnhancedEmbeddingsManager.embed_query self text w
  = (Raise (AttributeError "'NoneType' object has no attribute 'embed_query'"),
     w).
Proof.
  intros (Hmock & _ & Hnone). unfold EnhancedEmbeddingsManager.embed_query.
  apply String.eqb_neq in Hmock. now rewrite Hmock, Hnone.
Qed.

Lemma without_model_embed_documents (self : EnhancedEmbeddingsManager.t)
    (texts : list string) (w : World) :
  without_model self ->
  EnhancedEmbeddingsManager.embed_documents self texts w
  = (Raise (AttributeError
              "'NoneType' object has no attribute 'embed_documents'"), w).
Proof.
  intros (Hmock & _ & Hnone). unfold EnhancedEmbeddingsManager.embed_documents.
  apply String.eqb_neq in Hmock. now rewrite Hmock, Hnone.
Qed.

Lemma without_model_embed_chunks (self : EnhancedEmbeddingsManager.t)
    (chunks : list Document) (doc_id : string) (w : World) :
  without_model self ->
  EnhancedEmbeddingsManager.embed_chunks self chunks doc_id w
  = (Raise (AttributeError
              "'NoneType' object has no attribute 'embed_documents'"),
     set_ticks (S (ticks w)) w).
Proof.
  intros Hself. pose proof Hself as (_ & Hopenai & _).
  unfold EnhancedEmbeddingsManager.embed_chunks.
  apply String.eqb_neq in Hopenai. rewrite Hopenai.
  unfold bind at 1. unfold time_time at 1.
  unfold bind at 1. unfold ret at 1.
  unfold bind at 1.
  now rewrite without_model_embed_documents.
Qed.

Lemma without_model_single_doc (self : MultiDocRetriever.t)
    (query doc_id : string) (top_k : Z) (w : World) :
  without_model (MultiDocRetriever.embeddings_manager self) ->
  exists e,
    MultiDocRetriever.retrieve_from_single_doc self query doc_id top_k w
    = (Raise e, w).
Proof.
  intros Hself. unfold MultiDocRetriever.retrieve_from_single_doc.
  unfold bind at 1. unfold os_path_exists.
  destruct (bool_decide _); cbn [negb]; [|unfold raise; eauto].
  unfold bind at 1. unfold pickle_load.
  destruct (files w !! _) as [[embs|md]|]; eauto.
  unfold bind at 1. unfold json_load.
  destruct (files w !! _) as [[embs'|md]|]; eauto.
  unfold bind at 1.
  rewrite without_model_embed_query by exact Hself. eauto.
Qed.

Lemma without_model_local_results (self : MultiDocRetriever.t)
    (query : string) (top_k : Z) (doc_ids : list string) (w : World) :
  without_model (MultiDocRetriever.embeddings_manager self) ->
  local_results self query top_k doc_ids w = ([], w).
Proof.
  intros Hself. induction doc_ids as [|doc_id rest IH]; [reflexivity|].
  cbn [local_results].
  destruct (without_model_single_doc self query doc_id top_k w Hself)
    as (e & ->). exact IH.
Qed.

End Providers.

(** X13: [__init__] of [EnhancedEmbeddingsManager] and of [MultiDocRetriever]
    accept a provider that is none of ["openai"], ["huggingface"] and
    ["mock"].  The manager they build has no model: [embed_query],
    [embed_documents] and [embed_chunks] raise [AttributeError] and write
    no file, and [retrieve_from_multiple_docs], which catches the error of
    each document, returns no result whatever is stored. *)
Theorem unknown_provider_fails_on_use
    {FO : FloatOps} {NP : NumPy} {LE : LangChainEmbeddings} {BH : BuiltinHash}
    {TS : TextSplitting}
    (dir provider : string) (w : World) :
  provider <> "openai" -> provider <> "huggingface" -> provider <> "mock" ->
  exists manager retriever,
    EnhancedEmbeddingsManager.__init__ dir provider w = (Return manager, w)
    /\ MultiDocRetriever.__init__ dir provider w = (Return retriever, w)
    /\ (forall text w1,
           EnhancedEmbeddingsManager.embed_query manager text w1
           = (Raise (AttributeError
                       "'NoneType' object has no attribute 'embed_query'"), w1))
    /\ (forall texts w1,
           EnhancedEmbeddingsManager.embed_documents manager texts w1
           = (Raise (AttributeError
                       "'NoneType' object has no attribute 'embed_documents'"),
              w1))
    /\ (forall chunks doc_id w1,
           exists w2,
             EnhancedEmbeddingsManager.embed_chunks manager chunks doc_id w1
             = (Raise (AttributeError
                         "'NoneType' object has no attribute 'embed_documents'"),
                w2)
             /\ files w2 = files w1)
    /\ (forall query doc_ids top_k w1,
           MultiDocRetriever.retrieve_from_multiple_docs retriever query
             doc_ids top_k w1 = (Return [], w1)).
Proof.
  intros Hopenai Hhf Hmock.
  unfold MultiDocRetriever.__init__, EnhancedEmbeddingsManager.__init__.
  unfold bind at 1.
  rewrite (proj2 (String.eqb_neq _ _) Hopenai), (proj2 (String.eqb_neq _ _) Hhf).
  eexists _, _. split; [reflexivity|]. split; [reflexivity|].
  match goal with
  | |- context [EnhancedEmbeddingsManager.embed_query ?m] =>
      assert (Hnone : without_model m) by (repeat split; assumption)
  end.
  split; [intros; now apply without_model_embed_query|].
  split; [intros; now apply without_model_embed_documents|].
  split.
  - intros chunks doc_id w1. eexists.
    split; [now apply without_model_embed_chunks|reflexivity].
  - intros query doc_ids top_k w1.
    rewrite multiple_docs_collect, collect_local_results.
    rewrite without_model_local_results by exact Hnone.
    cbn [fst snd concat app]. unfold sort_by_score_reverse. cbn [stable_sort].
    unfold py_slice_to. now rewrite take_nil.
Qed.

(** X14: [embed_chunks] of [SimpleEmbeddingsManager] asks the provider once.
    When it returns, the record it has written for [doc_id] is aligned with
    the chunks as that of the other managers, the token count it recorded is
    the one it added to [total_tokens], and every other path holds what it
    held; when it raises, it has written nothing. *)
Theorem simple_embed_chunks_outcome
    {FO : FloatOps} {LE : LangChainEmbeddings} {TS : TextSplitting}
    (self : SimpleEmbeddingsManager.t) (chunks : list Document)
    (doc_id : string) (w : World) :
  match SimpleEmbeddingsManager.embed_chunks self chunks doc_id w with
  | (Return (self', res), w') =>
      aligned_record w' (SimpleEmbeddingsManager.embeddings_dir self) doc_id
        chunks
      /\ stats_token_count (embedding_stats res)
         = Some (SimpleEmbeddingsManager.total_tokens self'
                 - SimpleEmbeddingsManager.total_tokens self)%Z
      /\ provider_calls w' = S (provider_calls w)
      /\ forall path,
           path <> os_path_join (SimpleEmbeddingsManager.embeddings_dir self)
                     (doc_id +:+ "_embeddings.pkl") ->
           path <> os_path_join (SimpleEmbeddingsManager.embeddings_dir self)
                     (doc_id +:+ "_metadata.json") ->
           files w' !! path = files w !! path
  | (Raise _, w') => files w' = files w
  end.
Proof.
  unfold SimpleEmbeddingsManager.embed_chunks.
  unfold bind at 1. unfold time_time at 1.
  unfold bind at 1. unfold TextChunker.__init__, bind at 1, lift.
  destruct (RecursiveCharacterTextSplitter _ _ _ _) as [splitter|e];
    [|reflexivity].
  unfold ret at 1. unfold bind at 1. unfold TextChunker.count_tokens.
  pose proof (comprehension_lift_world TextChunker._token_length
                (map page_content chunks) (set_ticks (S (ticks w)) w))
    as Hworld.
  destruct (comprehension _ (map page_content chunks) _)
    as [[token_counts|e] w1]; cbn [snd] in Hworld; subst w1;
    [|reflexivity].
  unfold bind at 1. unfold embed_documents_external.
  cbn [SimpleEmbeddingsManager.embeddings SimpleEmbeddingsManager.add_usage
       provider_calls set_ticks].
  destruct (embed_documents_call _ _ _) as [embeddings|e] eqn:Hcall;
    [|reflexivity].
  apply embed_documents_length in Hcall.
  unfold bind, pickle_dump, time_time, json_dump, ret.
  unfold SimpleEmbeddingsManager.add_usage.
  cbn [files set_files set_ticks set_provider_calls provider_calls
       SimpleEmbeddingsManager.embeddings_dir
       SimpleEmbeddingsManager.total_tokens embedding_stats stats_token_count].
  split; [|split; [apply f_equal; ring|split; [reflexivity|]]].
  - exists embeddings. eexists.
    cbn [files set_files set_ticks set_provider_calls].
    rewrite file_lookup_insert_ne by (apply not_eq_sym, record_paths_differ).
    rewrite !file_lookup_insert_eq.
    cbn [md_chunks md_chunk_count].
    split; [reflexivity|]. split; [reflexivity|].
    split; [rewrite Hcall; apply length_map|].
    split; [apply length_imap|]. split; [reflexivity|].
    apply chunk_entries_lookup.
  - intros path Hne Hnm.
    now rewrite !file_lookup_insert_ne by now apply not_eq_sym.
Qed.

(* ===================================================================== *)
(** * The question-answering chain                                       *)
(* ===================================================================== *)

Lemma format_loop_first_character (contents : list (nat * string))
    (c : ascii) (answer : string) :
  exists rest,
    fold_left
      (fun answer '(i, content) =>
         answer +:+ "Source " +:+ str_of_nat (i + 1) +:+ ":" +:+ newline
         +:+ content +:+ newline +:+ newline)
      contents (String c answer)
    = String c rest.
Proof.
  revert answer. induction contents as [|[i content] contents IH]; intros answer.
  - now exists answer.
  - cbn [fold_left]. cbn [String.append]. apply IH.
Qed.

(** X15: [get_answer] raises what the retriever raises.  When the retriever
    returns, [get_answer] returns: the sources of the answer are the
    results of the retriever, the history is the one before followed by one
    entry with the query and the answer, the files are as the retriever left
    them, and the answer is the sentence for nothing found exactly when
    there is no result. *)
Theorem get_answer_records_the_exchange {DT : DateTime}
    (self : SimpleQAChain.t) (query doc_id : string) (top_k : Z) (w : World) :
  match SimpleQAChain.retriever self query doc_id top_k w with
  | (Raise e, w1) =>
      SimpleQAChain.get_answer self query doc_id top_k w = (Raise e, w1)
  | (Return results, w1) =>
      exists self' result w2 timestamp,
        SimpleQAChain.get_answer self query doc_id top_k w
        = (Return (self', result), w2)
        /\ SimpleQAChain.sources result = results
        /\ SimpleQAChain.query result = query
        /\ SimpleQAChain.doc_id result = doc_id
        /\ SimpleQAChain.get_conversation_history self'
           = SimpleQAChain.get_conversation_history self
             ++ [ {| SimpleQAChain.entry_query := query;
                     SimpleQAChain.entry_answer := SimpleQAChain.answer result;
                     SimpleQAChain.entry_timestamp := timestamp |} ]
        /\ files w2 = files w1
        /\ (SimpleQAChain.answer result
            = "I couldn't find any relevant information in the document."
            <-> results = [])
  end.
Proof.
  unfold SimpleQAChain.get_answer.
  destruct (SimpleQAChain.retriever self query doc_id top_k w)
    as [[results|e] w1] eqn:Hretrieve;
    [rewrite (bind_return _ _ _ _ _ Hretrieve)
    |now rewrite (bind_raise _ _ _ _ _ Hretrieve)].
  unfold bind, SimpleQAChain.add_to_history, datetime_now_isoformat, ret.
  eexists _, _, _, _. split; [reflexivity|].
  cbn [SimpleQAChain.sources SimpleQAChain.query SimpleQAChain.doc_id
       SimpleQAChain.answer SimpleQAChain.get_conversation_history
       SimpleQAChain.conversation_history files set_ticks].
  repeat (split; [reflexivity|]).
  unfold SimpleQAChain._format_answer.
  destruct results as [|result results]; [now split|].
  cbn [py_bool negb]. split; [|discriminate].
  match goal with
  | |- context [fold_left ?f ?l ?init] =>
      destruct (format_loop_first_character l "B"
                  ("ased on the document, here's what I found:"
                   +:+ newline +:+ newline)) as (rest & Hrest);
      change (fold_left f l init = String "B" rest) in Hrest;
      rewrite Hrest
  end.
  discriminate.
Qed.

(* ===================================================================== *)
(** * Deleting a document                                                *)
(* ===================================================================== *)

Lemma lookup_remove_file_eq (path : string) (fs : FileSystem) :
  remove_file path fs !! path = None.
Proof.
  unfold lookup, file_system_lookup, remove_file.
  induction fs as [|[p f] fs IH]; [reflexivity|].
  cbn [List.filter fst]. destruct (String.eqb_spec p path) as [->|Hne].
  - exact IH.
  - cbn [negb read_file]. now rewrite (proj2 (String.eqb_neq _ _) Hne).
Qed.

Lemma lookup_remove_file_ne (path path' : string) (fs : FileSystem) :
  path <> path' -> remove_file path fs !! path' = fs !! path'.
Proof.
  intros Hne. unfold lookup, file_system_lookup, remove_file.
  induction fs as [|[p f] fs IH]; [reflexivity|].
  cbn [List.filter fst read_file]. destruct (String.eqb_spec p path) as [->|Hp].
  - cbn [negb]. now rewrite (proj2 (String.eqb_neq _ _) Hne).
  - cbn [negb read_file]. now rewrite IH.
Qed.

Lemma remove_file_absent (path : string) (fs : FileSystem) :
  fs !! path = None -> remove_file path fs = fs.
Proof.
  unfold lookup, file_system_lookup, remove_file.
  induction fs as [|[p f] fs IH]; [reflexivity|].
  cbn [List.filter fst read_file]. destruct (String.eqb p path); [discriminate|].
  intros Hrest. cbn [negb]. now rewrite IH.
Qed.

(** [if os.path.exists(path): os.remove(path)] *)
Lemma remove_if_exists (path : string) (w : World) :
  exists w',
    files w' = remove_file path (files w)
    /\ forall (A : Type) (k : M A),
         (do found <- os_path_exists path;
          do _ <- (if found then os_remove path else ret tt);
          k) w = k w'.
Proof.
  unfold bind, os_path_exists, os_remove, ret.
  destruct (files w !! path) as [f|] eqn:Hf.
  - rewrite bool_decide_eq_true_2 by eauto. rewrite Hf.
    eexists. split; [|reflexivity]. reflexivity.
  - rewrite bool_decide_eq_false_2 by (now intros [x Hx]).
    exists w. split; [|reflexivity]. now rewrite remove_file_absent.
Qed.

Lemma delete_document_files (self : DocumentManager.t) (doc_id : string)
    (w : World) :
  exists w',
    DocumentManager.delete_document self doc_id w = (Return true, w')
    /\ files w'
       = remove_file
           (os_path_join (DocumentManager.embeddings_dir self)
              (doc_id +:+ "_metadata.json"))
           (remove_file
              (os_path_join (DocumentManager.embeddings_dir self)
                 (doc_id +:+ "_embeddings.pkl"))
              (remove_file
                 (os_path_join (DocumentManager.processed_dir self)
                    (doc_id +:+ ".json"))
                 (files w))).
Proof.
  unfold DocumentManager.delete_document.
  destruct (remove_if_exists
              (os_path_join (DocumentManager.processed_dir self)
                 (doc_id +:+ ".json")) w) as (w1 & Hfiles1 & ->).
  destruct (remove_if_exists
              (os_path_join (DocumentManager.embeddings_dir self)
                 (doc_id +:+ "_embeddings.pkl")) w1) as (w2 & Hfiles2 & ->).
  destruct (remove_if_exists
              (os_path_join (DocumentManager.embeddings_dir self)
                 (doc_id +:+ "_metadata.json")) w2) as (w3 & Hfiles3 & ->).
  exists w3. now rewrite Hfiles3, Hfiles2, Hfiles1.
Qed.

Lemma lookup_remove_file_None (path path' : string) (fs : FileSystem) :
  fs !! path' = None -> remove_file path fs !! path' = None.
Proof.
  intros Hnone. destruct (String.eqb_spec path path') as [->|Hne].
  - apply lookup_remove_file_eq.
  - now rewrite lookup_remove_file_ne.
Qed.

(** X16: [delete_document] never raises and returns [True], whether the
    files of the document exist or not.  Afterwards none of its three files
    exists, every other path holds what it held, and deleting the document
    again changes nothing. *)
Theorem delete_document_removes_the_record
    (self : DocumentManager.t) (doc_id : string) (w : World) :
  exists w',
    DocumentManager.delete_document self doc_id w = (Return true, w')
    /\ files w' !! os_path_join (DocumentManager.processed_dir self)
                      (doc_id +:+ ".json") = None
    /\ files w' !! os_path_join (DocumentManager.embeddings_dir self)
                      (doc_id +:+ "_embeddings.pkl") = None
    /\ files w' !! os_path_join (DocumentManager.embeddings_dir self)
                      (doc_id +:+ "_metadata.json") = None
    /\ (forall path,
           path <> os_path_join (DocumentManager.processed_dir self)
                     (doc_id +:+ ".json") ->
           path <> os_path_join (DocumentManager.embeddings_dir self)
                     (doc_id +:+ "_embeddings.pkl") ->
           path <> os_path_join (DocumentManager.embeddings_dir self)
                     (doc_id +:+ "_metadata.json") ->
           files w' !! path = files w !! path)
    /\ exists w'',
         DocumentManager.delete_document self doc_id w' = (Return true, w'')
         /\ files w'' = files w'.
Proof.
  destruct (delete_document_files self doc_id w) as (w' & Hrun & Hfiles).
  exists w'. split; [exact Hrun|].
  assert (Hp : files w' !! os_path_join (DocumentManager.processed_dir self)
                            (doc_id +:+ ".json") = None).
  { rewrite Hfiles. do 2 apply lookup_remove_file_None.
    apply lookup_remove_file_eq. }
  assert (He : files w' !! os_path_join (DocumentManager.embeddings_dir self)
                            (doc_id +:+ "_embeddings.pkl") = None).
  { rewrite Hfiles. apply lookup_remove_file_None. apply lookup_remove_file_eq. }
  assert (Hm : files w' !! os_path_join (DocumentManager.embeddings_dir self)
                            (doc_id +:+ "_metadata.json") = None).
  { rewrite Hfiles. apply lookup_remove_file_eq. }
  repeat (split; [assumption|]). split.
  - intros path H1 H2 H3. rewrite Hfiles.
    now rewrite !lookup_remove_file_ne by now apply not_eq_sym.
  - destruct (delete_document_files self doc_id w') as (w'' & Hrun' & Hfiles').
    exists w''. split; [exact Hrun'|]. rewrite Hfiles'.
    rewrite (remove_file_absent _ (files w')) by exact Hp.
    rewrite (remove_file_absent _ (files w')) by exact He.
    now rewrite remove_file_absent by exact Hm.
Qed.

(** X17: after [delete_document], the retrievers on the embeddings directory
    of the manager find the document no more: [retrieve] and
    [retrieve_from_single_doc] raise the [ValueError] of a missing
    document, and [retrieve_from_multiple_docs] returns what it returns for
    the other documents of its list. *)
Theorem retrieve_after_delete_document
    {FO : FloatOps} {NP : NumPy} {LE : LangChainEmbeddings} {BH : BuiltinHash}
    (self : DocumentManager.t) (doc_id query : string) (top_k : Z) (w : World) :
  exists w',
    DocumentManager.delete_document self doc_id w = (Return true, w')
    /\ (forall retriever : MockRetriever.t,
           MockRetriever.embeddings_dir retriever
           = DocumentManager.embeddings_dir self ->
           MockRetriever.retrieve retriever query doc_id top_k w'
           = (Raise (ValueError ("No embeddings found for document "
                                 +:+ doc_id)), w'))
    /\ (forall retriever : SimpleRetriever.t,
           SimpleRetriever.embeddings_dir retriever
           = DocumentManager.embeddings_dir self ->
           SimpleRetriever.retrieve retriever query doc_id top_k w'
           = (Raise (ValueError ("No embeddings found for document "
                                 +:+ doc_id)), w'))
    /\ (forall (retriever : MultiDocRetriever.t) (before after : list string),
           MultiDocRetriever.embeddings_dir retriever
           = DocumentManager.embeddings_dir self ->
           MultiDocRetriever.retrieve_from_single_doc retriever query doc_id
             top_k w'
           = (Raise (ValueError ("No embeddings found for document "
                                 +:+ doc_id)), w')
           /\ MultiDocRetriever.retrieve_from_multiple_docs retriever query
                (before ++ doc_id :: after) top_k w'
              = MultiDocRetriever.retrieve_from_multiple_docs retriever query
                  (before ++ after) top_k w').
Proof.
  destruct (delete_document_files self doc_id w) as (w' & Hrun & Hfiles).
  assert (He : files w' !! os_path_join (DocumentManager.embeddings_dir self)
                            (doc_id +:+ "_embeddings.pkl") = None).
  { rewrite Hfiles. apply lookup_remove_file_None. apply lookup_remove_file_eq. }
  exists w'. split; [exact Hrun|].
  split; [intros retriever Hdir; rewrite <- Hdir in He;
          now apply mock_retrieve_missing|].
  split; [intros retriever Hdir; rewrite <- Hdir in He;
          now apply simple_retrieve_missing|].
  intros retriever before after Hdir. rewrite <- Hdir in He.
  split; [now apply single_doc_missing|].
  rewrite !multiple_docs_collect.
  now rewrite collect_skips_missing by exact He.
Qed.

(* ===================================================================== *)
(** * Listing the documents and retrieving by type                       *)
(* ===================================================================== *)

Lemma append_empty_l (s : string) : EmptyString +:+ s = s.
Proof. reflexivity. Qed.

Lemma append_String (c : ascii) (a b : string) :
  String c a +:+ b = String c (a +:+ b).
Proof. reflexivity. Qed.

Lemma str_split_first (sep : ascii) (s : string) :
  exists first rest,
    str_split sep s = first :: rest /\ str_contains sep first = false.
Proof.
  induction s as [|c s (first & rest & Hsplit & Hfirst)]; cbn [str_split].
  - now exists EmptyString, [].
  - destruct (Ascii.eqb c sep) eqn:Hc.
    + now exists EmptyString, (str_split sep s).
    + rewrite Hsplit. exists (String c first), rest.
      split; [reflexivity|]. cbn [str_contains]. now rewrite Hc, Hfirst.
Qed.

Lemma str_split_append (sep : ascii) (a b : string) :
  str_contains sep a = false ->
  exists rest, str_split sep (a +:+ String sep b) = a :: rest.
Proof.
  induction a as [|c a IH];
    rewrite ?append_empty_l, ?append_String; cbn [str_contains str_split].
  - intros _. rewrite Ascii.eqb_refl. eauto.
  - intros Hc. apply orb_false_iff in Hc as [Hc Ha]. rewrite Hc.
    destruct (IH Ha) as (rest & ->). eauto.
Qed.

Lemma str_split_head_append (sep : ascii) (a b : string) :
  forall first rest first' rest',
    str_split sep a = first :: rest ->
    str_split sep (a +:+ String sep b) = first' :: rest' ->
    first' = first.
Proof.
  induction a as [|c a IH]; intros first rest first' rest';
    rewrite ?append_empty_l, ?append_String; cbn [str_split].
  - rewrite Ascii.eqb_refl. now intros [= <- _] [= <- _].
  - destruct (Ascii.eqb c sep); [now intros [= <- _] [= <- _]|].
    destruct (str_split_first sep a) as (f & r & Hsplit & _).
    destruct (str_split_first sep (a +:+ String sep b)) as (f' & r' & Hsplit' & _).
    rewrite Hsplit, Hsplit'. intros [= <- _] [= <- _].
    f_equal. exact (IH _ _ _ _ Hsplit Hsplit').
Qed.

Lemma str_contains_append (sep : ascii) (a b : string) :
  str_contains sep (a +:+ b) = str_contains sep a || str_contains sep b.
Proof.
  induction a as [|c a IH];
    rewrite ?append_empty_l, ?append_String; cbn [str_contains];
    [reflexivity|].
  now rewrite IH, orb_assoc.
Qed.

Lemma str_contains_length (sep : ascii) (a first : string) (rest : list string) :
  str_contains sep a = true ->
  str_split sep a = first :: rest ->
  (String.length first < String.length a)%nat.
Proof.
  revert first rest. induction a as [|c a IH]; intros first rest;
    cbn [str_contains str_split]; [discriminate|].
  destruct (Ascii.eqb c sep); cbn [orb].
  - intros _ [= <- _]. cbn. lia.
  - intros Ha. destruct (str_split_first sep a) as (f & r & Hsplit & _).
    rewrite Hsplit. intros [= <- _]. cbn [String.length].
    specialize (IH f r Ha Hsplit). lia.
Qed.

Section Listing.
Context `{FloatOps} `{NumPy} `{LangChainEmbeddings} `{BuiltinHash}
        `{OperatingSystem}.

Lemma doc_type_of_returns (doc_id : string) (w : World) :
  exists type,
    MultiDocRetriever.doc_type_of doc_id w = (Return type, w)
    /\ str_contains "_" type = false.
Proof.
  unfold MultiDocRetriever.doc_type_of.
  destruct (str_contains "_" doc_id); [|now exists "unknown"].
  destruct (str_split_first "_" doc_id) as (first & rest & Hsplit & Hfirst).
  exists first. unfold py_index. now rewrite Hsplit.
Qed.

(** The body of the loop of [list_available_documents]. *)
Definition listing_step (self : MultiDocRetriever.t)
    (docs : list MultiDocRetriever.DocInfo) (filename : string)
  : M (list MultiDocRetriever.DocInfo) :=
  if endswith filename "_metadata.json" then
    let doc_id := str_replace filename "_metadata.json" "" in
    do metadata <-
      json_load (os_path_join (MultiDocRetriever.embeddings_dir self) filename);
    do type <- MultiDocRetriever.doc_type_of doc_id;
    ret (docs ++ [ {| MultiDocRetriever.info_doc_id := doc_id;
                      MultiDocRetriever.info_chunk_count :=
                        md_chunk_count metadata;
                      MultiDocRetriever.info_embedding_model :=
                        md_embedding_model metadata;
                      MultiDocRetriever.info_embedding_provider :=
                        default "unknown" (md_embedding_provider metadata);
                      MultiDocRetriever.info_type := type |} ])
  else ret docs.

(** The metadata a name of the directory stands for. *)
Definition metadata_of_name (self : MultiDocRetriever.t) (fs : FileSystem)
    (filename : string) : option Metadata :=
  match fs !! os_path_join (MultiDocRetriever.embeddings_dir self) filename with
  | Some (JsonFile metadata) => Some metadata
  | _ => None
  end.

(** A name that ends as a metadata file and is not one the code can read. *)
Definition unreadable (self : MultiDocRetriever.t) (fs : FileSystem)
    (filename : string) : bool :=
  endswith filename "_metadata.json"
  && negb (bool_decide (is_Some (metadata_of_name self fs filename))).

(** A listed document and the name it comes from. *)
Definition listed (self : MultiDocRetriever.t) (fs : FileSystem)
    (filename : string) (doc : MultiDocRetriever.DocInfo) : Prop :=
  exists metadata,
    metadata_of_name self fs filename = Some metadata
    /\ MultiDocRetriever.info_doc_id doc
       = str_replace filename "_metadata.json" ""
    /\ MultiDocRetriever.info_chunk_count doc = md_chunk_count metadata
    /\ MultiDocRetriever.info_embedding_model doc = md_embedding_model metadata
    /\ str_contains "_" (MultiDocRetriever.info_type doc) = false.

Lemma json_load_metadata_of_name (self : MultiDocRetriever.t)
    (filename : string) (w : World) :
  match metadata_of_name self (files w) filename with
  | Some metadata =>
      json_load (os_path_join (MultiDocRetriever.embeddings_dir self) filename) w
      = (Return metadata, w)
  | None =>
      exists e,
        json_load (os_path_join (MultiDocRetriever.embeddings_dir self)
                     filename) w
        = (Raise e, w)
  end.
Proof.
  unfold metadata_of_name, json_load.
  destruct (files w !! _) as [[embs|metadata]|]; eauto.
Qed.

Lemma listing_step_run (self : MultiDocRetriever.t)
    (acc : list MultiDocRetriever.DocInfo) (filename : string) (w : World) :
  if unreadable self (files w) filename
  then exists e, listing_step self acc filename w = (Raise e, w)
  else if endswith filename "_metadata.json"
  then exists doc,
         listing_step self acc filename w = (Return (acc ++ [doc]), w)
         /\ listed self (files w) filename doc
  else listing_step self acc filename w = (Return acc, w).
Proof.
  unfold unreadable, listing_step.
  destruct (endswith filename "_metadata.json"); cbn [andb]; [|reflexivity].
  pose proof (json_load_metadata_of_name self filename w) as Hload.
  destruct (metadata_of_name self (files w) filename) as [metadata|] eqn:Hname.
  - rewrite bool_decide_eq_true_2 by eauto. cbn [negb].
    destruct (doc_type_of_returns (str_replace filename "_metadata.json" "") w)
      as (type & Hrun & Htype).
    rewrite (bind_return _ _ _ _ _ Hload), (bind_return _ _ _ _ _ Hrun).
    eexists. split; [reflexivity|].
    exists metadata. repeat split; [exact Hname|exact Htype].
  - rewrite bool_decide_eq_false_2 by (now intros [x Hx]). cbn [negb].
    destruct Hload as (e & Hload). exists e.
    now rewrite (bind_raise _ _ _ _ _ Hload).
Qed.

Lemma listing_loop (self : MultiDocRetriever.t) (filenames : list string)
    (acc : list MultiDocRetriever.DocInfo) (w : World) :
  if existsb (unreadable self (files w)) filenames
  then exists e, for_each filenames (listing_step self) acc w = (Raise e, w)
  else exists docs,
         for_each filenames (listing_step self) acc w = (Return (acc ++ docs), w)
         /\ Forall2 (listed self (files w))
                    (List.filter (fun filename =>
                                    endswith filename "_metadata.json")
                                 filenames) docs.
Proof.
  revert acc. induction filenames as [|filename filenames IH]; intros acc.
  - cbn [existsb for_each List.filter]. exists []. rewrite app_nil_r.
    split; [reflexivity|constructor].
  - cbn [existsb for_each List.filter].
    pose proof (listing_step_run self acc filename w) as Hstep.
    destruct (unreadable self (files w) filename); cbn [orb].
    + destruct Hstep as (e & Hstep). exists e.
      now rewrite (bind_raise _ _ _ _ _ Hstep).
    + destruct (endswith filename "_metadata.json").
      * destruct Hstep as (doc & Hstep & Hdoc).
        rewrite (bind_return _ _ _ _ _ Hstep).
        specialize (IH (acc ++ [doc])).
        destruct (existsb _ filenames); [exact IH|].
        destruct IH as (docs & -> & Hdocs). rewrite <- app_assoc.
        exists (doc :: docs). split; [reflexivity|]. now constructor.
      * rewrite (bind_return _ _ _ _ _ Hstep). apply IH.
Qed.

Lemma list_available_documents_run (self : MultiDocRetriever.t) (w : World) :
  MultiDocRetriever.list_available_documents self w
  = match listdir (files w) (MultiDocRetriever.embeddings_dir self) with
    | Return filenames => for_each filenames (listing_step self) [] w
    | Raise e => (Raise e, w)
    end.
Proof.
  unfold MultiDocRetriever.list_available_documents, bind, os_listdir.
  now destruct (listdir _ _).
Qed.

Lemma underscore_type_matches_nothing (self : MultiDocRetriever.t)
    (fs : FileSystem) (doc_type : string) (filenames : list string)
    (docs : list MultiDocRetriever.DocInfo) :
  str_contains "_" doc_type = true ->
  Forall2 (listed self fs) filenames docs ->
  List.filter (fun doc => String.eqb (MultiDocRetriever.info_type doc) doc_type)
              docs = [].
Proof.
  intros Htype. induction 1 as [|filename doc filenames docs Hdoc _ IH];
    [reflexivity|].
  cbn [List.filter]. destruct Hdoc as (metadata & _ & _ & _ & _ & Hdoc).
  destruct (String.eqb_spec (MultiDocRetriever.info_type doc) doc_type)
    as [Heq|_]; [|exact IH].
  rewrite Heq, Htype in Hdoc. discriminate.
Qed.

Lemma multiple_docs_of_none `{TextSplitting} (self : MultiDocRetriever.t)
    (query : string) (top_k : Z) (w : World) :
  MultiDocRetriever.retrieve_from_multiple_docs self query [] top_k w
  = (Return [], w).
Proof.
  rewrite multiple_docs_collect, collect_local_results.
  cbn [local_results fst snd concat app].
  unfold sort_by_score_reverse. cbn [stable_sort].
  unfold py_slice_to. now rewrite take_nil.
Qed.

End Listing.

(** X18: [list_available_documents] of [MultiDocRetriever] raises what
    [os.listdir] raises.  Otherwise it reads every name that ends in
    ["_metadata.json"], in the order of [os.listdir]: if each is a metadata
    file, it returns one entry per such name, with the chunk count and the
    model of that file, and leaves the files as they are; if one is missing
    or is no metadata file, it raises, and so does [retrieve_by_type] for
    every type. *)
Theorem list_available_documents_outcome
    {FO : FloatOps} {NP : NumPy} {LE : LangChainEmbeddings} {BH : BuiltinHash}
    {TS : TextSplitting} {OS : OperatingSystem}
    (self : MultiDocRetriever.t) (w : World) :
  match listdir (files w) (MultiDocRetriever.embeddings_dir self) with
  | Raise e =>
      MultiDocRetriever.list_available_documents self w = (Raise e, w)
  | Return filenames =>
      if existsb (unreadable self (files w)) filenames
      then exists e,
             MultiDocRetriever.list_available_documents self w = (Raise e, w)
             /\ forall query doc_type top_k,
                  MultiDocRetriever.retrieve_by_type self query doc_type top_k w
                  = (Raise e, w)
      else exists docs,
             MultiDocRetriever.list_available_documents self w = (Return docs, w)
             /\ Forall2 (listed self (files w))
                        (List.filter (fun filename =>
                                        endswith filename "_metadata.json")
                                     filenames)
                        docs
  end.
Proof.
  pose proof (list_available_documents_run self w) as Hrun.
  destruct (listdir _ _) as [filenames|e]; [|exact Hrun].
  pose proof (listing_loop self filenames [] w) as Hloop.
  destruct (existsb _ filenames).
  - destruct Hloop as (e & Hloop). rewrite Hloop in Hrun. exists e.
    split; [exact Hrun|]. intros query doc_type top_k.
    unfold MultiDocRetriever.retrieve_by_type.
    now rewrite (bind_raise _ _ _ _ _ Hrun).
  - destruct Hloop as (docs & Hloop & Hdocs). rewrite Hloop in Hrun.
    exists docs. split; assumption.
Qed.

(** X19: the type [list_available_documents] gives a document is the part
    of its id before the first ["_"], so it never contains one.  For a
    [doc_type] with an underscore, such as ["lab_report"],
    [retrieve_by_type] therefore selects no document: it returns no result,
    unless the listing raises. *)
Theorem retrieve_by_type_with_underscore
    {FO : FloatOps} {NP : NumPy} {LE : LangChainEmbeddings} {BH : BuiltinHash}
    {TS : TextSplitting} {OS : OperatingSystem}
    (self : MultiDocRetriever.t) (query doc_type : string) (top_k : Z)
    (w : World) :
  str_contains "_" doc_type = true ->
  match MultiDocRetriever.list_available_documents self w with
  | (Return docs, w1) =>
      MultiDocRetriever.retrieve_by_type self query doc_type top_k w
      = (Return [], w1)
  | (Raise e, w1) =>
      MultiDocRetriever.retrieve_by_type self query doc_type top_k w
      = (Raise e, w1)
  end.
Proof.
  intros Htype. unfold MultiDocRetriever.retrieve_by_type.
  pose proof (list_available_documents_run self w) as Hrun.
  destruct (MultiDocRetriever.list_available_documents self w)
    as [[docs|e] w1] eqn:Hlist;
    [rewrite (bind_return _ _ _ _ _ Hlist)
    |now rewrite (bind_raise _ _ _ _ _ Hlist)].
  destruct (listdir _ _) as [filenames|e]; [|discriminate].
  pose proof (listing_loop self filenames [] w) as Hloop.
  destruct (existsb _ filenames).
  - destruct Hloop as (e & Hloop). rewrite Hloop in Hrun. discriminate.
  - destruct Hloop as (docs' & Hloop & Hdocs). rewrite Hloop in Hrun.
    injection Hrun as -> ->. cbn [app] in *.
    rewrite (underscore_type_matches_nothing self (files w) doc_type _ _
               Htype Hdocs).
    apply multiple_docs_of_none.
Qed.

(** X20: [process_document] names a document [doc_type + "_" + timestamp].
    The type the listing gives such a document is [doc_type] exactly when
    [doc_type] has no underscore; otherwise it is a proper prefix of it. *)
Theorem doc_type_of_processed_document
    (doc_type timestamp : string) (w : World) :
  exists type,
    MultiDocRetriever.doc_type_of (doc_type +:+ "_" +:+ timestamp) w
    = (Return type, w)
    /\ (str_contains "_" doc_type = false -> type = doc_type)
    /\ (str_contains "_" doc_type = true ->
        (String.length type < String.length doc_type)%nat
        /\ String.prefix type doc_type = true).
Proof.
  unfold MultiDocRetriever.doc_type_of.
  rewrite str_contains_append, append_String, append_empty_l.
  cbn [str_contains]. rewrite Ascii.eqb_refl. cbn [orb]. rewrite orb_true_r.
  destruct (str_split_first "_" (doc_type +:+ String "_" timestamp))
    as (first & rest & Hsplit & _).
  exists first. unfold py_index. rewrite Hsplit. split; [reflexivity|].
  split.
  - intros Hnone. destruct (str_split_append "_" doc_type timestamp Hnone)
      as (rest' & Hsplit').
    rewrite Hsplit' in Hsplit. now injection Hsplit as <- _.
  - intros Hsome.
    destruct (str_split_first "_" doc_type) as (f & r & Hf & _).
    rewrite (str_split_head_append "_" doc_type timestamp f r first rest
               Hf Hsplit).
    split; [exact (str_contains_length _ _ _ _ Hsome Hf)|].
    clear - Hf. revert f r Hf.
    induction doc_type as [|c a IH]; intros f r; cbn [str_split].
    + now intros [= <- _].
    + destruct (Ascii.eqb c "_"); [now intros [= <- _]|].
      destruct (str_split_first "_" a) as (f' & r' & Hsplit & _).
      rewrite Hsplit. intros [= <- _]. cbn [String.prefix].
      destruct (ascii_dec c c); [|congruence]. exact (IH _ _ Hsplit).
Qed.

(* ===================================================================== *)
(** * More of the code on concrete stores                                *)
(* ===================================================================== *)

(** A directory listing computed from the paths of the files: the names
    directly under the directory, each once. *)
Module Posix.

Fixpoint strip_prefix (pre s : string) : option string :=
  match pre, s with
  | EmptyString, _ => Some s
  | String a pre', String b s' =>
      if Ascii.eqb a b then strip_prefix pre' s' else None
  | String _ _, EmptyString => None
  end.

Definition entry_name (dir path : string) : option string :=
  match strip_prefix (dir +:+ "/") path with
  | Some name => if str_contains "/" name then None else Some name
  | None => None
  end.

Fixpoint each_once (names : list string) : list string :=
  match names with
  | [] => []
  | name :: rest =>
      if existsb (String.eqb name) rest then each_once rest
      else name :: each_once rest
  end.

#[export] Instance flat_directory : OperatingSystem :=
  {| listdir fs dir :=
       Return (each_once (omap (fun entry => entry_name dir (fst entry)) fs)) |}.

End Posix.

Module MoreChecks.
Import Reference Posix.

(** The record of the note of two chunks, as files written by hand. *)
Definition stored : World :=
  set_files
    [("data/embeddings/note_1_metadata.json",
      JsonFile Example.duplicated_metadata);
     ("data/embeddings/note_1_embeddings.pkl",
      PickleFile Example.duplicated_vectors)]
    (Example.fresh 1).

(** A record whose only vector has two components. *)
Definition short_vector : World :=
  set_files
    [("data/embeddings/note_4_metadata.json", JsonFile Example.no_metadata);
     ("data/embeddings/note_4_embeddings.pkl", PickleFile [[1%Q; 0%Q]])]
    (Example.fresh 1).

(** Pickled vectors without a metadata file. *)
Definition vectors_only : World :=
  set_files
    [("data/embeddings/note_5_embeddings.pkl", PickleFile [[1%Q; 0%Q]])]
    (Example.fresh 1).

(** A manager built with a provider the code does not know. *)
Definition cohere : EnhancedEmbeddingsManager.t :=
  {| EnhancedEmbeddingsManager.embeddings_dir := "data/embeddings";
     EnhancedEmbeddingsManager.provider := "cohere";
     EnhancedEmbeddingsManager.embeddings := None;
     EnhancedEmbeddingsManager.model_name := "mock_embeddings";
     EnhancedEmbeddingsManager.embedding_dim := 384;
     EnhancedEmbeddingsManager.cost_per_1k_tokens := 0;
     EnhancedEmbeddingsManager.total_tokens := 0;
     EnhancedEmbeddingsManager.total_cost := 0 |}.

(** X2 on a record whose only vector has two components. *)
Lemma retrieve_dimension_mismatch_raises_witness :
  exists msg w',
    MockRetriever.retrieve Example.retriever "dose" "note_4" 3 short_vector
    = (Raise (ValueError msg), w').
Proof.
  apply (retrieve_dimension_mismatch_raises
           Example.retriever "dose" "note_4" 3%Z short_vector
           [[1%Q; 0%Q]] Example.no_metadata).
  - reflexivity.
  - reflexivity.
  - apply Exists_cons_hd. cbn [length]. lia.
Defined.

(** X3 on pickled vectors without a metadata file. *)
Lemma retrieve_without_metadata_file_raises_witness :
  (forall self : MockRetriever.t,
      MockRetriever.embeddings_dir self = "data/embeddings" ->
      MockRetriever.retrieve self "dose" "note_5" 3 vectors_only
      = (Raise (FileNotFoundError
                  (os_path_join "data/embeddings"
                     ("note_5" +:+ "_metadata.json"))), vectors_only))
  /\ (forall self : SimpleRetriever.t,
        SimpleRetriever.embeddings_dir self = "data/embeddings" ->
        SimpleRetriever.retrieve self "dose" "note_5" 3 vectors_only
        = (Raise (FileNotFoundError
                    (os_path_join "data/embeddings"
                       ("note_5" +:+ "_metadata.json"))), vectors_only))
  /\ (forall self : MultiDocRetriever.t,
        MultiDocRetriever.embeddings_dir self = "data/embeddings" ->
        MultiDocRetriever.retrieve_from_single_doc self "dose" "note_5" 3
          vectors_only
        = (Raise (FileNotFoundError
                    (os_path_join "data/embeddings"
                       ("note_5" +:+ "_metadata.json"))), vectors_only)).
Proof.
  apply (retrieve_without_metadata_file_raises
           "data/embeddings" "dose" "note_5" 3%Z vectors_only [[1%Q; 0%Q]]).
  - reflexivity.
  - reflexivity.
Defined.

(** X4 on the note of two chunks, with [top_k = 0]. *)
Lemma retrieve_non_positive_top_k_witness :
  exists res w',
    MockRetriever.retrieve Example.retriever "dose" "note_1" 0 stored
    = (Return res, w')
    /\ length res
       = (length Example.duplicated_vectors
          - Nat.min (Z.to_nat (- 0)) (length Example.duplicated_vectors))%nat
    /\ (0%Z = 0%Z ->
        Permutation (map chunk_of_hit res)
                    (md_chunks Example.duplicated_metadata)).
Proof.
  apply (retrieve_non_positive_top_k
           Example.retriever "dose" "note_1" 0%Z stored
           Example.duplicated_vectors Example.duplicated_metadata).
  - reflexivity.
  - reflexivity.
  - apply Forall_length_check. vm_compute. reflexivity.
  - reflexivity.
  - lia.
Defined.

(** X5 on the note of two chunks, with [top_k = 2]. *)
Lemma retrieve_joins_by_position_witness :
  exists res w' idxs,
    MockRetriever.retrieve Example.retriever "dose" "note_1" 2 stored
    = (Return res, w')
    /\ NoDup idxs
    /\ Forall2 (fun idx h =>
                  exists c e,
                    md_chunks Example.duplicated_metadata !! idx = Some c
                    /\ Example.duplicated_vectors !! idx = Some e
                    /\ h = mk_hit None c
                             (cosine (seeded_vector (md5_seed "dose") 384) e))
               idxs res.
Proof.
  apply (retrieve_joins_by_position
           Example.retriever "dose" "note_1" 2%Z stored
           Example.duplicated_vectors Example.duplicated_metadata).
  - reflexivity.
  - reflexivity.
  - apply Forall_length_check. vm_compute. reflexivity.
Defined.

(** X6 on a note of two chunks embedded beside the stored one. *)
Lemma embed_chunks_then_retrieve_witness :
  exists r w1 res w2,
    MockEmbeddingsManager.embed_chunks Example.manager
      [Example.page "Fever for three days."; Example.page "Chest X-ray clear."]
      "note_6" stored = (Return r, w1)
    /\ MockRetriever.retrieve Example.retriever "fever" "note_6" 3 w1
       = (Return res, w2)
    /\ length res = Nat.min (Z.to_nat 3) 2
    /\ NoDup (map Hit.chunk_id res)
    /\ Forall (fun h =>
                 exists chunk,
                   [Example.page "Fever for three days.";
                    Example.page "Chest X-ray clear."] !! Hit.chunk_id h
                   = Some chunk
                   /\ Hit.content h = page_content chunk
                   /\ Hit.metadata h = metadata chunk) res.
Proof.
  apply (embed_chunks_then_retrieve Example.manager Example.retriever
           [Example.page "Fever for three days.";
            Example.page "Chest X-ray clear."] "note_6" "fever" 3%Z stored).
  - reflexivity.
  - lia.
Defined.

(** X7 on the vectors of the stored note while another note is embedded. *)
Lemma embed_chunks_leaves_other_paths_witness :
  (forall self : MockEmbeddingsManager.t,
      MockEmbeddingsManager.embeddings_dir self = "data/embeddings" ->
      files (snd (MockEmbeddingsManager.embed_chunks self
                    [Example.page "Chest X-ray clear."] "note_6" stored))
      !! "data/embeddings/note_1_embeddings.pkl"
      = files stored !! "data/embeddings/note_1_embeddings.pkl")
  /\ (forall self : EnhancedEmbeddingsManager.t,
        EnhancedEmbeddingsManager.embeddings_dir self = "data/embeddings" ->
        files (snd (EnhancedEmbeddingsManager.embed_chunks self
                      [Example.page "Chest X-ray clear."] "note_6" stored))
        !! "data/embeddings/note_1_embeddings.pkl"
        = files stored !! "data/embeddings/note_1_embeddings.pkl").
Proof.
  apply (embed_chunks_leaves_other_paths "data/embeddings" "note_6"
           "data/embeddings/note_1_embeddings.pkl"
           [Example.page "Chest X-ray clear."] stored).
  - discriminate.
  - discriminate.
Defined.

(** X8 on the manager of an unknown provider, which raises after the first reading of the clock. *)
Lemma embed_chunks_failure_writes_nothing_witness :
  files (set_ticks 1 stored) = files stored.
Proof.
  apply (embed_chunks_failure_writes_nothing cohere
           [Example.page "Chest X-ray clear."] "note_6" stored
           (set_ticks 1 stored)
           (AttributeError
              "'NoneType' object has no attribute 'embed_documents'")).
  reflexivity.
Defined.


(** X13 on the provider ["cohere"]. *)
Lemma unknown_provider_fails_on_use_witness :
  exists manager retriever,
    EnhancedEmbeddingsManager.__init__ "data/embeddings" "cohere" stored
    = (Return manager, stored)
    /\ MultiDocRetriever.__init__ "data/embeddings" "cohere" stored
       = (Return retriever, stored)
    /\ (forall text w1,
           EnhancedEmbeddingsManager.embed_query manager text w1
           = (Raise (AttributeError
                       "'NoneType' object has no attribute 'embed_query'"), w1))
    /\ (forall texts w1,
           EnhancedEmbeddingsManager.embed_documents manager texts w1
           = (Raise (AttributeError
                       "'NoneType' object has no attribute 'embed_documents'"),
              w1))
    /\ (forall chunks doc_id w1,
           exists w2,
             EnhancedEmbeddingsManager.embed_chunks manager chunks doc_id w1
             = (Raise (AttributeError
                         "'NoneType' object has no attribute 'embed_documents'"),
                w2)
             /\ files w2 = files w1)
    /\ (forall query doc_ids top_k w1,
           MultiDocRetriever.retrieve_from_multiple_docs retriever query
             doc_ids top_k w1 = (Return [], w1)).
Proof.
  apply (unknown_provider_fails_on_use "data/embeddings" "cohere" stored);
    discriminate.
Defined.

(** X19 on the type ["lab_report"]. *)
Lemma retrieve_by_type_with_underscore_witness :
  match MultiDocRetriever.list_available_documents Example.multi stored with
  | (Return docs, w1) =>
      MultiDocRetriever.retrieve_by_type Example.multi "dose" "lab_report" 3
        stored = (Return [], w1)
  | (Raise e, w1) =>
      MultiDocRetriever.retrieve_by_type Example.multi "dose" "lab_report" 3
        stored = (Raise e, w1)
  end.
Proof.
  apply (retrieve_by_type_with_underscore Example.multi "dose" "lab_report"
           3%Z stored).
  reflexivity.
Defined.

(** X10 on a note of two chunks and the mock manager of dimension 384. *)
Lemma enhanced_embed_chunks_then_retrieve_witness :
  exists r w1 res w2,
    EnhancedEmbeddingsManager.embed_chunks Example.enhanced
      [Example.page "Fever for three days."; Example.page "Chest X-ray clear."]
      "note_6" stored = (Return r, w1)
    /\ MultiDocRetriever.retrieve_from_single_doc Example.multi "fever"
         "note_6" 3 w1 = (Return res, w2)
    /\ length res = Nat.min (Z.to_nat 3) 2
    /\ NoDup (map Hit.chunk_id res)
    /\ Forall (fun h =>
                 Hit.doc_id h = Some "note_6"
                 /\ exists chunk,
                      [Example.page "Fever for three days.";
                       Example.page "Chest X-ray clear."] !! Hit.chunk_id h
                      = Some chunk
                      /\ Hit.content h = page_content chunk
                      /\ Hit.metadata h = metadata chunk) res.
Proof.
  apply (enhanced_embed_chunks_then_retrieve Example.enhanced Example.multi
           [Example.page "Fever for three days.";
            Example.page "Chest X-ray clear."] "note_6" "fever" 3%Z stored).
  - reflexivity.
  - reflexivity.
  - reflexivity.
  - reflexivity.
  - lia.
Defined.

End MoreChecks.
